(** * easy-deploy: the deploy pipeline of package [main], embedded and verified

    The program is a small HTTP service: [POST /deploy] takes a repository
    URL, clones it into a temporary directory, builds a container image
    named after the URL and the short commit hash, replaces a running
    container of that image name (reusing its host port) or picks the first
    free TCP port from 3000, and starts the new container.

    Layout of the development:
    - [strings], [strconv], [url], [filepath], [json]: the functions of the
      Go standard library the program calls, as executable functions on
      byte strings;
    - [Host]: the operating system and the external tools (file system,
      [git], [docker], TCP binds) as an interface the program is
      parameterised over; every started process is recorded in a trace;
    - [findFreePort], [CloneAndBuild], [handleDeploy], [parseJsonConfig]:
      the program, statement for statement, in a monad of state, errors
      and panics;
    - [Ref]: a reference host, an executable machine with a scratch
      directory, remote repositories, listeners and a container runtime, on
      which runs of the program can be evaluated; [Sample]: states of it;
    - [http], [Handlers]: the response writer, [handleDeploy] and
      [CorsMiddleware] on it, the server that [main] builds; [path],
      [Legacy], [LegacyRef]: the older version of package [main]
      (main.go), which takes the address as text and does not probe for a
      running container;
    - facts on the library functions, on the pipeline over every host and
      on the reference host; then the theorems, C1 to C10, and further
      properties of the code.

    Of the two versions of package [main] in the repository, the one of
    the claims probes for a running container before it starts a new one.
    Calls to the logger write to standard output only and are left out.
    The argument of [git clone] is kept as the parsed URL (the program
    passes its text, [repoURL.String()]). *)

From Stdlib Require Import String Ascii ZArith NArith List Lia Bool.
From Stdlib Require Import DecimalString DecimalN.
Import ListNotations.
Open Scope string_scope.
Open Scope Z_scope.

(** ** Byte strings

    A Go [string] is a sequence of bytes; it is embedded as [string], whose
    characters are the 256 values of [ascii]. *)

Definition byte_code (c : ascii) : N := N_of_ascii c.

Definition byte_between (lo hi c : ascii) : bool :=
  ((byte_code lo <=? byte_code c) && (byte_code c <=? byte_code hi))%N.

Definition is_digit (c : ascii) : bool := byte_between "0" "9" c.
Definition is_lower (c : ascii) : bool := byte_between "a" "z" c.
Definition is_upper (c : ascii) : bool := byte_between "A" "Z" c.
Definition is_letter (c : ascii) : bool := is_lower c || is_upper c.

Definition byte_in (c : ascii) (set : string) : bool :=
  existsb (Ascii.eqb c) (list_ascii_of_string set).

(** [s[n:]] and [s[:n]] for [n <= len(s)]. *)
Fixpoint string_drop (n : nat) (s : string) : string :=
  match n, s with
  | O, _ => s
  | S k, String _ r => string_drop k r
  | S _, EmptyString => EmptyString
  end.

Fixpoint string_take (n : nat) (s : string) : string :=
  match n, s with
  | O, _ => EmptyString
  | S k, String c r => String c (string_take k r)
  | S _, EmptyString => EmptyString
  end.

Definition string_rev (s : string) : string :=
  string_of_list_ascii (rev (list_ascii_of_string s)).

(** ** Package [strings] *)
Module strings.

Definition HasPrefix (s pre : string) : bool := String.prefix pre s.

Definition HasSuffix (s suf : string) : bool :=
  String.prefix (string_rev suf) (string_rev s).

(** [strings.Index]: [None] is Go's -1. *)
Definition Index (s sep : string) : option nat := String.index 0 sep s.

Definition Contains (s sep : string) : bool :=
  match Index s sep with Some _ => true | None => false end.

(** [strings.LastIndex] for a separator of one byte. *)
Fixpoint LastIndexByte (s : string) (c : ascii) : option nat :=
  match s with
  | EmptyString => None
  | String a r =>
      match LastIndexByte r c with
      | Some i => Some (S i)
      | None => if Ascii.eqb a c then Some O else None
      end
  end.

(** [strings.Count] for a separator of one byte. *)
Fixpoint CountByte (s : string) (c : ascii) : nat :=
  match s with
  | EmptyString => O
  | String a r => ((if Ascii.eqb a c then 1 else 0) + CountByte r c)%nat
  end.

(** [strings.Cut]: the text before and after the first [sep], and whether
    [sep] was found. *)
Definition Cut (s sep : string) : string * string * bool :=
  match Index s sep with
  | Some i => (string_take i s, string_drop (i + String.length sep) s, true)
  | None => (s, "", false)
  end.

(** [strings.Split] for a separator of one byte: the fields between the
    separators, always at least one. *)
Fixpoint SplitByte (s : string) (c : ascii) : list string :=
  match s with
  | EmptyString => [""]
  | String a r =>
      if Ascii.eqb a c then "" :: SplitByte r c
      else match SplitByte r c with
           | f :: fs => String a f :: fs
           | [] => [String a ""]
           end
  end.

Definition ToLowerByte (c : ascii) : ascii :=
  if is_upper c then ascii_of_N (byte_code c + 32) else c.

(** [strings.ToLower] on ASCII text (the only use is on a URL scheme, which
    [getScheme] restricts to ASCII). *)
Fixpoint ToLower (s : string) : string :=
  match s with
  | EmptyString => EmptyString
  | String c r => String (ToLowerByte c) (ToLower r)
  end.

(** The ASCII white space of [unicode.IsSpace]: tab, line feed, vertical
    tab, form feed, carriage return and space. *)
Definition asciiSpace (c : ascii) : bool :=
  byte_in c (String "009" (String "010" (String "011" (String "012"
            (String "013" (String " " EmptyString)))))).

(** The white space of [unicode.IsSpace] outside ASCII, as the UTF-8
    encoding [a b] or [a b c] of the code point: U+0085, U+00A0 (two bytes);
    U+1680, U+2000..U+200A, U+2028, U+2029, U+202F, U+205F, U+3000. *)
Definition space2 (a b : ascii) : bool :=
  Ascii.eqb a "194" && (Ascii.eqb b "133" || Ascii.eqb b "160").

Definition space3 (a b c : ascii) : bool :=
  (Ascii.eqb a "225" && Ascii.eqb b "154" && Ascii.eqb c "128")
  || (Ascii.eqb a "226" && Ascii.eqb b "128"
      && (byte_between "128" "138" c || Ascii.eqb c "168"
          || Ascii.eqb c "169" || Ascii.eqb c "175"))
  || (Ascii.eqb a "226" && Ascii.eqb b "129" && Ascii.eqb c "159")
  || (Ascii.eqb a "227" && Ascii.eqb b "128" && Ascii.eqb c "128").

(** [strings.TrimLeftFunc(s, unicode.IsSpace)]. *)
Fixpoint TrimLeftSpace (s : string) : string :=
  match s with
  | EmptyString => EmptyString
  | String a r =>
      if asciiSpace a then TrimLeftSpace r
      else match r with
           | String b r2 =>
               if space2 a b then TrimLeftSpace r2
               else match r2 with
                    | String c r3 => if space3 a b c then TrimLeftSpace r3 else s
                    | EmptyString => s
                    end
           | EmptyString => s
           end
  end.

(** The same scan from the end of the text, on the reversed bytes: the last
    rune of a text is a white space exactly when the text ends with that
    rune's encoding. *)
Fixpoint TrimLeftSpace_rev (s : string) : string :=
  match s with
  | EmptyString => EmptyString
  | String a r =>
      if asciiSpace a then TrimLeftSpace_rev r
      else match r with
           | String b r2 =>
               if space2 b a then TrimLeftSpace_rev r2
               else match r2 with
                    | String c r3 => if space3 c b a then TrimLeftSpace_rev r3 else s
                    | EmptyString => s
                    end
           | EmptyString => s
           end
  end.

(** [strings.TrimSpace] (and [bytes.TrimSpace]). *)
Definition TrimSpace (s : string) : string :=
  string_rev (TrimLeftSpace_rev (string_rev (TrimLeftSpace s))).

End strings.

(** ** Errors

    Go's [error] values: [errors.New] texts, [fmt.Errorf] with a wrapped
    cause ([%w]) and the outputs formatted after it ([%s]), and the error
    types of [strconv] and [net/url]. *)
Inductive error : Type :=
| errorString (msg : string)
| wrapError (format : string) (err : error) (args : list string)
| NumError (Func Num : string) (Err : error)
| urlError (Op URL : string) (Err : error).

(** A value or an error: Go's [(T, error)] of a pure function. *)
Inductive result (A : Type) : Type :=
| Ok (a : A)
| Err (e : error).
Arguments Ok {A} a.
Arguments Err {A} e.

Definition is_ok {A} (r : result A) : bool :=
  match r with Ok _ => true | Err _ => false end.

(** ** Package [strconv] *)
Module strconv.

Definition ErrSyntax : error := errorString "invalid syntax".
Definition ErrRange : error := errorString "value out of range".

Definition digit_val (c : ascii) : Z := Z.of_N (byte_code c) - 48.

Definition maxUint64 : Z := 2 ^ 64 - 1.

(** The digit loop of [ParseUint] in base 10 at 64 bits: a byte that is not
    a digit is a syntax error at the place it is met, an overflow a range
    error at the place it happens. *)
Fixpoint parseDigits (s : string) (n : Z) : result Z :=
  match s with
  | EmptyString => Ok n
  | String c r =>
      if is_digit c then
        if maxUint64 / 10 + 1 <=? n then Err ErrRange
        else let n1 := n * 10 + digit_val c in
             if maxUint64 <? n1 then Err ErrRange else parseDigits r n1
      else Err ErrSyntax
  end.

(** [strconv.ParseInt(s, 10, 64)]. *)
Definition ParseInt (fn s : string) : result Z :=
  let s0 := s in
  match s with
  | EmptyString => Err (NumError fn s0 ErrSyntax)
  | String c r =>
      let neg := Ascii.eqb c "-" in
      let s := if Ascii.eqb c "+" || Ascii.eqb c "-" then r else s in
      match s with
      | EmptyString => Err (NumError fn s0 ErrSyntax)
      | _ =>
          match parseDigits s 0 with
          | Err e => Err (NumError fn s0 e)
          | Ok un =>
              if negb neg && (2 ^ 63 <=? un) then Err (NumError fn s0 ErrRange)
              else if neg && (2 ^ 63 <? un) then Err (NumError fn s0 ErrRange)
              else Ok (if neg then - un else un)
          end
      end
  end.

(** [strconv.Atoi]: on a 64-bit platform its fast path and [ParseInt] accept
    the same texts with the same values. *)
Definition Atoi (s : string) : result Z := ParseInt "Atoi" s.

(** [strconv.Itoa] for a number that is not negative. *)
Definition Itoa (n : Z) : string :=
  NilZero.string_of_uint (N.to_uint (Z.to_N n)).

End strconv.

(** ** Package [net/url]: [url.Parse]

    The fields of [url.URL] that [Parse] fills, without [RawPath] and
    [RawFragment] (hints for printing a URL back). *)
Module url.

Record Userinfo : Type := {
  username : string;
  password : string;
  passwordSet : bool
}.

Record URL : Type := {
  Scheme : string;
  Opaque : string;
  User : option Userinfo;
  Host : string;
  Path : string;
  OmitHost : bool;
  ForceQuery : bool;
  RawQuery : string;
  Fragment : string
}.

Definition empty : URL :=
  {| Scheme := ""; Opaque := ""; User := None; Host := ""; Path := "";
     OmitHost := false; ForceQuery := false; RawQuery := ""; Fragment := "" |}.

Inductive encoding : Type :=
| encodePath | encodeUserPassword | encodeHost | encodeZone | encodeFragment.

Definition is_host_mode (mode : encoding) : bool :=
  match mode with encodeHost | encodeZone => true | _ => false end.

Definition ishex (c : ascii) : bool :=
  is_digit c || byte_between "a" "f" c || byte_between "A" "F" c.

Definition unhex (c : ascii) : N :=
  if is_digit c then byte_code c - 48
  else if byte_between "a" "f" c then byte_code c - 97 + 10
  else if byte_between "A" "F" c then byte_code c - 65 + 10
  else 0.

(** [shouldEscape(c, encodeHost)]. *)
Definition shouldEscapeHost (c : ascii) : bool :=
  if is_letter c || is_digit c then false
  else if byte_in c "!$&'()*+,;=:[]<>" || Ascii.eqb c "034" then false
  else if byte_in c "-_.~" then false
  else true.

(** The first loop of [unescape]: every [%] is followed by two hex digits,
    and in a host or a zone only the bytes allowed there occur. *)
Fixpoint unescape_check (s : string) (mode : encoding) : result unit :=
  match s with
  | EmptyString => Ok tt
  | String "%" r =>
      match r with
      | String h1 (String h2 r2) =>
          if negb (ishex h1 && ishex h2) then
            Err (errorString "invalid URL escape")
          else
            let v := ascii_of_N (unhex h1 * 16 + unhex h2) in
            let is25 := Ascii.eqb h1 "2" && Ascii.eqb h2 "5" in
            match mode with
            | encodeHost =>
                if (unhex h1 <? 8)%N && negb is25
                then Err (errorString "invalid URL escape")
                else unescape_check r2 mode
            | encodeZone =>
                if negb is25 && negb (Ascii.eqb v " ") && shouldEscapeHost v
                then Err (errorString "invalid URL escape")
                else unescape_check r2 mode
            | _ => unescape_check r2 mode
            end
      | _ => Err (errorString "invalid URL escape")
      end
  | String c r =>
      if is_host_mode mode && (byte_code c <? 128)%N && shouldEscapeHost c
      then Err (errorString "invalid character in host name")
      else unescape_check r mode
  end.

(** The second loop of [unescape], on a text the first loop accepted. *)
Fixpoint unescape_decode (s : string) : string :=
  match s with
  | EmptyString => EmptyString
  | String "%" (String h1 (String h2 r2)) =>
      String (ascii_of_N (unhex h1 * 16 + unhex h2)) (unescape_decode r2)
  | String c r => String c (unescape_decode r)
  end.

Definition unescape (s : string) (mode : encoding) : result string :=
  match unescape_check s mode with
  | Err e => Err e
  | Ok _ => Ok (unescape_decode s)
  end.

Definition stringContainsCTLByte (s : string) : bool :=
  existsb (fun c => (byte_code c <? 32)%N || Ascii.eqb c "127")
          (list_ascii_of_string s).

(** [getScheme]: the scan for a leading [scheme:]; [i = 0] at the first
    byte only. *)
Fixpoint getScheme_scan (rawURL s : string) (i : nat)
  : result (string * string) :=
  match s with
  | EmptyString => Ok ("", rawURL)
  | String c r =>
      if is_letter c then getScheme_scan rawURL r (S i)
      else if is_digit c || byte_in c "+-." then
        match i with
        | O => Ok ("", rawURL)
        | _ => getScheme_scan rawURL r (S i)
        end
      else if Ascii.eqb c ":" then
        match i with
        | O => Err (errorString "missing protocol scheme")
        | _ => Ok (string_take i rawURL, r)
        end
      else Ok ("", rawURL)
  end.

Definition getScheme (rawURL : string) : result (string * string) :=
  getScheme_scan rawURL rawURL O.

Definition validOptionalPort (port : string) : bool :=
  match port with
  | EmptyString => true
  | String c r =>
      Ascii.eqb c ":" && forallb is_digit (list_ascii_of_string r)
  end.

Definition validUserinfo (s : string) : bool :=
  forallb (fun r => is_letter r || is_digit r
                    || byte_in r "-._:~!$&'()*+,;=%@")
          (list_ascii_of_string s).

(** [parseHost]: an IPv6 literal in brackets with an optional zone and port,
    or a name with an optional port. *)
Definition parseHost (host : string) : result string :=
  if strings.HasPrefix host "[" then
    match strings.LastIndexByte host "]" with
    | None => Err (errorString "missing ']' in host")
    | Some i =>
        let colonPort := string_drop (i + 1) host in
        if negb (validOptionalPort colonPort) then
          Err (errorString "invalid port after host")
        else
          match strings.Index (string_take i host) "%25" with
          | Some zone =>
              match unescape (string_take zone host) encodeHost with
              | Err e => Err e
              | Ok host1 =>
                  match unescape (string_take (i - zone) (string_drop zone host))
                                 encodeZone with
                  | Err e => Err e
                  | Ok host2 =>
                      match unescape (string_drop i host) encodeHost with
                      | Err e => Err e
                      | Ok host3 => Ok (host1 ++ host2 ++ host3)
                      end
                  end
              end
          | None => unescape host encodeHost
          end
    end
  else
    match strings.LastIndexByte host ":" with
    | Some i =>
        if negb (validOptionalPort (string_drop i host)) then
          Err (errorString "invalid port after host")
        else unescape host encodeHost
    | None => unescape host encodeHost
    end.

(** [parseAuthority]: [userinfo@host]. *)
Definition parseAuthority (authority : string)
  : result (option Userinfo * string) :=
  match strings.LastIndexByte authority "@" with
  | None =>
      match parseHost authority with
      | Err e => Err e
      | Ok host => Ok (None, host)
      end
  | Some i =>
      match parseHost (string_drop (i + 1) authority) with
      | Err e => Err e
      | Ok host =>
          let userinfo := string_take i authority in
          if negb (validUserinfo userinfo) then
            Err (errorString "net/url: invalid userinfo")
          else if negb (strings.Contains userinfo ":") then
            match unescape userinfo encodeUserPassword with
            | Err e => Err e
            | Ok u =>
                Ok (Some {| username := u; password := "";
                            passwordSet := false |}, host)
            end
          else
            let '(username, password, _) := strings.Cut userinfo ":" in
            match unescape username encodeUserPassword with
            | Err e => Err e
            | Ok u =>
                match unescape password encodeUserPassword with
                | Err e => Err e
                | Ok p =>
                    Ok (Some {| username := u; password := p;
                                passwordSet := true |}, host)
                end
            end
      end
  end.

(** [parse(rawURL, viaRequest = false)]: a URL without its fragment. *)
Definition parse (rawURL : string) : result URL :=
  if stringContainsCTLByte rawURL then
    Err (errorString "net/url: invalid control character in URL")
  else if String.eqb rawURL "*" then
    Ok {| Scheme := ""; Opaque := ""; User := None; Host := ""; Path := "*";
          OmitHost := false; ForceQuery := false; RawQuery := "";
          Fragment := "" |}
  else
    match getScheme rawURL with
    | Err e => Err e
    | Ok (scheme, rest) =>
        let scheme := strings.ToLower scheme in
        let '(rest, forceQuery, rawQuery) :=
          if strings.HasSuffix rest "?"
             && Nat.eqb (strings.CountByte rest "?") 1
          then (string_take (String.length rest - 1) rest, true, "")
          else let '(before, after, _) := strings.Cut rest "?" in
               (before, false, after) in
        let withPath (user : option Userinfo) (host : string)
                     (omitHost : bool) (rest : string) : result URL :=
          match unescape rest encodePath with
          | Err e => Err e
          | Ok path =>
              Ok {| Scheme := scheme; Opaque := ""; User := user;
                    Host := host; Path := path; OmitHost := omitHost;
                    ForceQuery := forceQuery; RawQuery := rawQuery;
                    Fragment := "" |}
          end in
        let authorityAndPath (_ : unit) : result URL :=
          if (negb (String.eqb scheme "")
              || negb (strings.HasPrefix rest "///"))
             && strings.HasPrefix rest "//"
          then
            let authority := string_drop 2 rest in
            let '(authority, rest) :=
              match strings.Index authority "/" with
              | Some i => (string_take i authority, string_drop i authority)
              | None => (authority, "")
              end in
            match parseAuthority authority with
            | Err e => Err e
            | Ok (user, host) => withPath user host false rest
            end
          else if negb (String.eqb scheme "") && strings.HasPrefix rest "/"
          then withPath None "" true rest
          else withPath None "" false rest in
        if negb (strings.HasPrefix rest "/") then
          if negb (String.eqb scheme "") then
            Ok {| Scheme := scheme; Opaque := rest; User := None; Host := "";
                  Path := ""; OmitHost := false; ForceQuery := forceQuery;
                  RawQuery := rawQuery; Fragment := "" |}
          else
            let '(segment, _, _) := strings.Cut rest "/" in
            if strings.Contains segment ":" then
              Err (errorString
                     "first path segment in URL cannot contain colon")
            else authorityAndPath tt
        else authorityAndPath tt
    end.

(** [url.Parse]: the fragment is cut off first, the rest goes to [parse];
    every error is wrapped in a [url.Error]. *)
Definition Parse (rawURL : string) : result URL :=
  let '(u, frag, _) := strings.Cut rawURL "#" in
  match parse u with
  | Err e => Err (urlError "parse" u e)
  | Ok url =>
      if String.eqb frag "" then Ok url
      else
        match unescape frag encodeFragment with
        | Err e => Err (urlError "parse" rawURL e)
        | Ok f =>
            Ok {| Scheme := Scheme url; Opaque := Opaque url;
                  User := User url; Host := Host url; Path := Path url;
                  OmitHost := OmitHost url; ForceQuery := ForceQuery url;
                  RawQuery := RawQuery url; Fragment := f |}
        end
  end.

End url.

(** ** Package [path/filepath]: [filepath.Join] (Unix) *)
Module filepath.

(** The elements of a path are taken in order onto a stack, [out] (top
    first): empty elements and [.] are dropped; [..] removes the element
    before it, is kept at the head of a path that is not rooted, and is
    dropped at the root. *)
Fixpoint clean_elements (rooted : bool) (elems out : list string)
  : list string :=
  match elems with
  | [] => rev out
  | e :: rest =>
      if String.eqb e "" || String.eqb e "." then
        clean_elements rooted rest out
      else if String.eqb e ".." then
        match out with
        | top :: below =>
            if String.eqb top ".."
            then clean_elements rooted rest (e :: out)
            else clean_elements rooted rest below
        | [] =>
            if rooted then clean_elements rooted rest out
            else clean_elements rooted rest [e]
        end
      else clean_elements rooted rest (e :: out)
  end.

(** [filepath.Clean]: the shortest path of the same meaning, lexically. *)
Definition Clean (path : string) : string :=
  let rooted := strings.HasPrefix path "/" in
  let body :=
    String.concat "/" (clean_elements rooted (strings.SplitByte path "/") []) in
  if rooted then "/" ++ body
  else if String.eqb body "" then "." else body.

(** [filepath.Join(dir, name)]: the elements that are not empty, joined by
    a separator, cleaned. *)
Definition Join (dir name : string) : string :=
  if negb (String.eqb dir "") then Clean (dir ++ "/" ++ name)
  else if negb (String.eqb name "") then Clean name
  else "".

End filepath.

(** ** Package [encoding/json]: [Decoder.Decode] into the two structs

    A stream is embedded by what the decoder reads from it: the syntax tree
    of its first JSON value, or the error of the read (an empty stream,
    text that is not JSON).  A number keeps its literal, an object its
    members in order, duplicates included. *)
Module json.

#[warnings="-register-all"]
Inductive Value : Type :=
| JNull
| JBool (b : bool)
| JNumber (literal : string)
| JString (s : string)
| JArray (elems : list Value)
| JObject (members : list (string * Value)).

Definition Stream : Type := result Value.

Definition UnmarshalTypeError (field : string) : error :=
  errorString ("json: cannot unmarshal value into Go struct field " ++ field).

(** A member's key selects a struct field when it is the field's name in any
    mix of upper and lower case. *)
Definition key_matches (key name : string) : bool :=
  String.eqb (strings.ToLower key) name.

Section Struct.
(** A struct with one field [name] of type [T]; [store] decodes a JSON
    value into the field. *)
Context {T : Type} (name : string) (store : Value -> T -> result T).

(** The members in order: a later member for the field overwrites an
    earlier one; a value of the wrong type leaves the field as it is, the
    first such error is kept and returned at the end. *)
Fixpoint object (members : list (string * Value)) (cur : T)
                (saved : option error) : T * option error :=
  match members with
  | [] => (cur, saved)
  | (key, v) :: rest =>
      if key_matches key name then
        match store v cur with
        | Ok x => object rest x saved
        | Err e =>
            object rest cur (match saved with Some _ => saved | None => Some e end)
        end
      else object rest cur saved
  end.

(** [Decode(&x)] for [x] holding [cur]: the value after the call and the
    error returned. *)
Definition Decode (input : Stream) (cur : T) : T * option error :=
  match input with
  | Err e => (cur, Some e)
  | Ok JNull => (cur, None)
  | Ok (JObject members) => object members cur None
  | Ok _ => (cur, Some (UnmarshalTypeError name))
  end.
End Struct.

(** A field of type [string]. *)
Definition storeString (field : string) (v : Value) (cur : string)
  : result string :=
  match v with
  | JNull => Ok cur
  | JString s => Ok s
  | _ => Err (UnmarshalTypeError field)
  end.

(** A field of type [int]: the literal has to be an integer of 64 bits. *)
Definition storeInt (field : string) (v : Value) (cur : Z) : result Z :=
  match v with
  | JNull => Ok cur
  | JNumber literal =>
      match strconv.ParseInt "ParseInt" literal with
      | Ok n => Ok n
      | Err _ => Err (UnmarshalTypeError field)
      end
  | _ => Err (UnmarshalTypeError field)
  end.

End json.

(** ** The program's types *)

(** [type Config struct { HTTPPort int `json:"http_port"` }] *)
Record Config : Type := { HTTPPort : Z }.

(** [type RequestPayload struct { URL string `json:"url"` }] *)
Record RequestPayload : Type := { URL : string }.

Definition decodeConfig (input : json.Stream) (config : Config)
  : Config * option error :=
  let '(n, err) :=
    json.Decode "http_port" (json.storeInt "http_port") input (HTTPPort config) in
  ({| HTTPPort := n |}, err).

Definition decodeRequestPayload (input : json.Stream) (payload : RequestPayload)
  : RequestPayload * option error :=
  let '(s, err) :=
    json.Decode "url" (json.storeString "url") input (URL payload) in
  ({| URL := s |}, err).

(** The request as the handler reads it, and the response as it writes it. *)
Record Request : Type := { Body : json.Stream }.

Record Response : Type := { StatusCode : Z; ResponseBody : string }.

Definition StatusOK : Z := 200.
Definition StatusBadRequest : Z := 400.
Definition StatusInternalServerError : Z := 500.

(** [http.Error(w, msg, code)]: the status and the message on one line. *)
Definition http_Error (msg : string) (code : Z) : Response :=
  {| StatusCode := code; ResponseBody := msg ++ String "010" "" |}.

(** ** The host: operating system and external tools *)

(** The processes the program starts with [exec.Command]. *)
Inductive Cmd : Type :=
| git_clone (repoURL : url.URL) (dir : string)
    (* git clone <repoURL.String()> <dir> *)
| git_rev_parse (dir : string)
    (* git -C <dir> rev-parse --short HEAD *)
| docker_build (tag dir : string)
    (* docker build -t <tag> <dir> *)
| docker_ps (ancestor : string)
    (* docker ps -q --filter ancestor=<ancestor> *)
| docker_port (container : string)
    (* docker port <container> *)
| docker_rm (container : string)
    (* docker rm -f <container> *)
| docker_run (port : Z) (image : string).
    (* docker run -d -p <port>:80 <image> *)

(** A started process with what it returned: its combined output and the
    error of [CombinedOutput] or [Run] ([None] is [nil]). *)
Record Event : Type := {
  ev_cmd : Cmd;
  ev_output : string;
  ev_err : option error
}.

(** [os.Open] of the configuration file followed by the read of its
    content. *)
Inductive OpenResult : Type :=
| OpenNotExist (e : error)      (* errors.Is(err, os.ErrNotExist) *)
| OpenFailed (e : error)        (* any other error *)
| Opened (content : json.Stream).

(** The calls that leave the program, over a state [W] of the machine. *)
Record Host (W : Type) : Type := {
  (* os.MkdirTemp("", "repo-*") *)
  MkdirTemp : W -> W * (string * option error);
  (* os.RemoveAll(path), its error dropped *)
  RemoveAll : string -> W -> W;
  (* os.IsNotExist(err) for _, err := os.Stat(path) *)
  StatIsNotExist : string -> W -> bool;
  (* cmd.CombinedOutput(); cmd.Run() is the same call, output dropped *)
  Exec : Cmd -> W -> W * (string * option error);
  (* net.Listen("tcp", ":<port>") *)
  Listen : Z -> W -> W * option error;
  (* listener.Close() of the listener on <port> *)
  Close : Z -> W -> W;
  (* os.Open(path) *)
  Open : string -> W -> OpenResult
}.
Arguments MkdirTemp {W} _ _.
Arguments RemoveAll {W} _ _ _.
Arguments StatIsNotExist {W} _ _ _.
Arguments Exec {W} _ _ _.
Arguments Listen {W} _ _ _.
Arguments Close {W} _ _ _.
Arguments Open {W} _ _ _.

(** ** The monad of the program: machine state, trace, errors, panics *)

Inductive Res (A : Type) : Type :=
| Return (a : A)            (* the function returns normally *)
| Fail (e : error)          (* it returns a non-nil error *)
| Panic (msg : string).     (* a run-time panic unwinds it *)
Arguments Return {A} a.
Arguments Fail {A} e.
Arguments Panic {A} msg.

Section Program.
Context {W : Type} (H : Host W).

Record St : Type := { world : W; trace : list Event }.

Definition M (A : Type) : Type := St -> St * Res A.

Definition ret {A} (a : A) : M A := fun s => (s, Return a).
Definition fail {A} (e : error) : M A := fun s => (s, Fail e).
Definition panic {A} (msg : string) : M A := fun s => (s, Panic msg).

Definition bind {A B} (m : M A) (f : A -> M B) : M B :=
  fun s =>
    match m s with
    | (s', Return a) => f a s'
    | (s', Fail e) => (s', Fail e)
    | (s', Panic msg) => (s', Panic msg)
    end.

(** [defer cleanup] at the head of [body]: the cleanup runs when the body
    returns, with or without an error, and when it panics. *)
Definition defer {A} (cleanup : W -> W) (body : M A) : M A :=
  fun s =>
    let '(s', r) := body s in
    ({| world := cleanup (world s'); trace := trace s' |}, r).

(** [if err != nil { return f(err) }] *)
Definition check (err : option error) (f : error -> error) : M unit :=
  match err with
  | Some e => fail (f e)
  | None => ret tt
  end.

(** [port, err = g(); if err != nil { return f(err) }] *)
Definition rethrow {A} (m : M A) (f : error -> error) : M A :=
  fun s =>
    match m s with
    | (s', Fail e) => (s', Fail (f e))
    | other => other
    end.

Definition lift {A} (op : W -> W * A) : M A :=
  fun s =>
    let '(w, a) := op (world s) in
    ({| world := w; trace := trace s |}, Return a).

Definition os_MkdirTemp : M (string * option error) := lift (MkdirTemp H).

Definition os_Stat_IsNotExist (path : string) : M bool :=
  fun s => (s, Return (StatIsNotExist H path (world s))).

(** [exec.Command(...).CombinedOutput()]: the process is started and
    recorded with its result. *)
Definition CombinedOutput (c : Cmd) : M (string * option error) :=
  fun s =>
    let '(w, (out, err)) := Exec H c (world s) in
    ({| world := w;
        trace := trace s ++ [{| ev_cmd := c; ev_output := out; ev_err := err |}] |},
     Return (out, err)).

(** [exec.Command(...).Run()] *)
Definition Run (c : Cmd) : M (option error) :=
  bind (CombinedOutput c) (fun r => ret (snd r)).

Definition net_Listen (port : Z) : M (option error) := lift (Listen H port).

Definition listener_Close (port : Z) : M unit :=
  lift (fun w => (Close H port w, tt)).

(** [xs[i]] *)
Definition index_string (xs : list string) (i : nat) : M string :=
  match nth_error xs i with
  | Some x => ret x
  | None => panic "runtime error: index out of range"
  end.

End Program.
Arguments St W : clear implicits.
Arguments M W A : clear implicits.

Notation "x <- m ;; k" := (bind m (fun x => k))
  (at level 61, m at next level, right associativity).
Notation "' pat <- m ;; k" := (bind m (fun x => match x with pat => k end))
  (at level 61, pat pattern, m at next level, right associativity).
Notation "m ;; k" := (bind m (fun _ => k))
  (at level 61, right associativity).

(** ** The program *)
Section Code.
Context {W : Type} (H : Host W).

(** [findFreePort]: the loop [for port := 3000; port <= 65535; port++],
    with [remaining] the number of iterations to go, [65536 - port]. *)
Fixpoint findFreePort_loop (remaining : nat) (port : Z) : M W Z :=
  match remaining with
  | O => fail (errorString "no free ports found")
  | S k =>
      err <- net_Listen H port ;;
      match err with
      | None => listener_Close H port ;; ret port
      | Some _ => findFreePort_loop k (port + 1)
      end
  end.

Definition findFreePort : M W Z :=
  findFreePort_loop (Z.to_nat (65535 - 3000 + 1)) 3000.

(** The name of the image: [repoURL.Host + repoURL.Path]. *)
Definition imageName (repoURL : url.URL) : string :=
  url.Host repoURL ++ url.Path repoURL.

(** [fmt.Sprintf("%s:%s", imageName, imageTag)] *)
Definition imageFullName (repoURL : url.URL) (imageTag : string) : string :=
  imageName repoURL ++ ":" ++ imageTag.

(** [CloneAndBuild]: clone, check for the Dockerfile, build, replace a
    running container or find a port, run. *)
Definition CloneAndBuild (repoURL : url.URL) : M W unit :=
  '(tempDir, err) <- os_MkdirTemp H ;;
  check err (fun err => wrapError "failed to create temp dir: %w" err []) ;;
  defer (RemoveAll H tempDir) (
    '(b, err) <- CombinedOutput H (git_clone repoURL tempDir) ;;
    check err (fun err =>
      wrapError "failed to clone repository: %w: %s" err [b]) ;;
    let dockerfilePath := filepath.Join tempDir "Dockerfile" in
    notExist <- os_Stat_IsNotExist H dockerfilePath ;;
    if notExist : bool then
      fail (errorString "dockerfile not found in repository")
    else
    '(b, err) <- CombinedOutput H (git_rev_parse tempDir) ;;
    check err (fun err =>
      wrapError "failed to get last commit hash: %w: %s" err [b]) ;;
    let lastCommitShortHash := strings.TrimSpace b in
    let imageTag := lastCommitShortHash in
    '(b, err) <- CombinedOutput H
                   (docker_build (imageFullName repoURL imageTag) tempDir) ;;
    check err (fun err =>
      wrapError "failed to build Docker image: %w: %s" err [b]) ;;
    '(b, err) <- CombinedOutput H (docker_ps (imageName repoURL)) ;;
    check err (fun err =>
      wrapError "failed to check if container is running: %w: %s" err [b]) ;;
    let containerID := strings.TrimSpace b in
    port <-
      (if negb (String.eqb containerID "") then
         '(b, err) <- CombinedOutput H (docker_port containerID) ;;
         check err (fun err =>
           wrapError "failed to get container port: %w: %s" err [b]) ;;
         let b := strings.TrimSpace b in
         field <- index_string (strings.SplitByte b ":") 1 ;;
         match strconv.Atoi field with
         | Err err =>
             fail (wrapError "failed to parse container port: %w" err [])
         | Ok port =>
             '(b, err) <- CombinedOutput H (docker_rm containerID) ;;
             check err (fun err =>
               wrapError "failed to remove container: %w: %s" err [b]) ;;
             ret port
         end
       else
         rethrow (findFreePort)
           (fun err => wrapError "failed to find free port: %w" err [])) ;;
    err <- Run H (docker_run port (imageFullName repoURL imageTag)) ;;
    check err (fun err =>
      wrapError "failed to run Docker container: %w" err []) ;;
    ret tt).

(** [if err := f(); err != nil]: the error a call returns, as a value. *)
Definition returned_error (m : M W unit) : M W (option error) :=
  fun s =>
    match m s with
    | (s', Return _) => (s', Return None)
    | (s', Fail e) => (s', Return (Some e))
    | (s', Panic msg) => (s', Panic msg)
    end.

(** [handleDeploy]: the response written for a request. *)
Definition handleDeploy (r : Request) : M W Response :=
  let '(payload, err) := decodeRequestPayload (Body r) {| URL := "" |} in
  match err with
  | Some _ => ret (http_Error "Invalid request payload" StatusBadRequest)
  | None =>
      match url.Parse (URL payload) with
      | Err _ => ret (http_Error "Invalid URL" StatusBadRequest)
      | Ok parsedURL =>
          err <- returned_error (CloneAndBuild parsedURL) ;;
          match err with
          | Some _ =>
              ret (http_Error "Internal server error"
                              StatusInternalServerError)
          | None =>
              ret {| StatusCode := StatusOK;
                     ResponseBody := "Repository successfully processed" |}
          end
      end
  end.

(** [parseJsonConfig]: the configuration and the error returned. *)
Definition parseJsonConfig (configPath : string) (w : W)
  : Config * option error :=
  let config := {| HTTPPort := 80 |} in
  match Open H configPath w with
  | OpenNotExist _ => (config, None)
  | OpenFailed err =>
      ({| HTTPPort := 0 |},
       Some (wrapError "failed to open config file: %w" err []))
  | Opened configFile =>
      let '(config, err) := decodeConfig configFile config in
      match err with
      | Some err =>
          ({| HTTPPort := 0 |},
           Some (wrapError "failed to parse config file: %w" err []))
      | None => (config, None)
      end
  end.

(** A run from a state of the machine with an empty trace. *)
Definition run {A} (m : M W A) (w : W) : St W * Res A :=
  m {| world := w; trace := [] |}.

End Code.

(** ** A reference host

    An executable machine behind the [Host] interface: a scratch directory,
    remote repositories, TCP listeners and a container runtime that keeps
    the contract the program relies on (list the running containers of an
    image name, print a container's port mapping, remove, run). *)
Module Ref.

(** A working tree: whether its root holds a [Dockerfile], and the short
    hash of [HEAD]. *)
Record Checkout : Type := { has_dockerfile : bool; head : string }.

(** A running container: its identifier, the image reference it was started
    from and the host port published for its port 80, if any. *)
Record Container : Type := {
  cid : string;
  cimage : string;
  cport : option Z
}.

Record World : Type := {
  (* the directory the next os.MkdirTemp creates, or its error *)
  scratch : result string;
  (* the directories created so far, each with the working tree in it *)
  dirs : list (string * option Checkout);
  (* what a clone of a URL fetches; None: the clone fails *)
  remote : url.URL -> option Checkout;
  (* TCP ports bound by other processes *)
  listeners : list Z;
  (* TCP ports bound by this process *)
  held : list Z;
  (* the running containers, newest first *)
  containers : list Container;
  (* the identifiers the runtime gives to the next containers *)
  fresh_ids : list string;
  (* the tool invocations that fail for a reason outside this model *)
  broken : Cmd -> bool;
  (* the files os.Open can be asked for *)
  files : string -> OpenResult
}.

Definition set_dirs (w : World) (ds : list (string * option Checkout)) : World :=
  {| scratch := scratch w; dirs := ds; remote := remote w;
     listeners := listeners w; held := held w; containers := containers w;
     fresh_ids := fresh_ids w; broken := broken w; files := files w |}.

Definition set_held (w : World) (hs : list Z) : World :=
  {| scratch := scratch w; dirs := dirs w; remote := remote w;
     listeners := listeners w; held := hs; containers := containers w;
     fresh_ids := fresh_ids w; broken := broken w; files := files w |}.

Definition set_containers (w : World) (cs : list Container) (ids : list string)
  : World :=
  {| scratch := scratch w; dirs := dirs w; remote := remote w;
     listeners := listeners w; held := held w; containers := cs;
     fresh_ids := ids; broken := broken w; files := files w |}.

Definition lookup_dir (w : World) (d : string) : option (option Checkout) :=
  match find (fun e => String.eqb (fst e) d) (dirs w) with
  | Some e => Some (snd e)
  | None => None
  end.

Definition dir_exists (w : World) (d : string) : bool :=
  match lookup_dir w d with Some _ => true | None => false end.

Definition remove_dir (d : string) (w : World) : World :=
  set_dirs w (filter (fun e => negb (String.eqb (fst e) d)) (dirs w)).

Definition put_dir (d : string) (t : option Checkout) (w : World) : World :=
  set_dirs w ((d, t) :: filter (fun e => negb (String.eqb (fst e) d)) (dirs w)).

(** A path exists as a file when it is the [Dockerfile] at the root of a
    working tree that has one. *)
Definition file_exists (w : World) (path : string) : bool :=
  existsb (fun e =>
             match snd e with
             | Some t => has_dockerfile t
                         && String.eqb (filepath.Join (fst e) "Dockerfile") path
             | None => false
             end) (dirs w).

Definition publishes (p : Z) (c : Container) : bool :=
  match cport c with Some q => Z.eqb p q | None => false end.

(** A port is bound when a listener of another process, a listener of this
    process or a container holds it. *)
Definition port_bound (w : World) (p : Z) : bool :=
  existsb (Z.eqb p) (listeners w) || existsb (Z.eqb p) (held w)
  || existsb (publishes p) (containers w).

(** The name of an image reference [name:tag]: the tag starts at the last
    colon, unless a slash follows it (then the colon belongs to a registry
    port and there is no tag). *)
Definition ref_name (ref : string) : string :=
  match strings.LastIndexByte ref ":" with
  | Some i =>
      match strings.LastIndexByte (string_drop i ref) "/" with
      | Some _ => ref
      | None => string_take i ref
      end
  | None => ref
  end.

Definition of_image (name : string) (c : Container) : bool :=
  String.eqb (ref_name (cimage c)) name.

Definition find_container (w : World) (id : string) : option Container :=
  find (fun c => String.eqb (cid c) id) (containers w).

Definition newline : string := String "010" "".

Definition exit_status (n : string) : option error :=
  Some (errorString ("exit status " ++ n)).

(** The line [docker port] prints for a published port. *)
Definition port_line (p : Z) : string :=
  "80/tcp -> 0.0.0.0:" ++ strconv.Itoa p ++ newline.

Definition exec (c : Cmd) (w : World) : World * (string * option error) :=
  if broken w c then (w, ("", exit_status "1")) else
  match c with
  | git_clone repoURL dir =>
      match remote w repoURL with
      | Some t => (put_dir dir (Some t) w, ("", None))
      | None => (w, ("fatal: repository not found" ++ newline, exit_status "128"))
      end
  | git_rev_parse dir =>
      match lookup_dir w dir with
      | Some (Some t) => (w, (head t ++ newline, None))
      | _ => (w, ("fatal: not a git repository" ++ newline, exit_status "128"))
      end
  | docker_build tag dir =>
      match lookup_dir w dir with
      | Some (Some t) =>
          if has_dockerfile t then (w, ("", None))
          else (w, ("failed to read dockerfile" ++ newline, exit_status "1"))
      | _ => (w, ("unable to prepare context" ++ newline, exit_status "1"))
      end
  | docker_ps ancestor =>
      (w, (String.concat ""
             (map (fun c => cid c ++ newline)
                  (filter (of_image ancestor) (containers w))), None))
  | docker_port id =>
      match find_container w id with
      | Some c =>
          (w, (match cport c with Some p => port_line p | None => "" end, None))
      | None => (w, ("Error: No such container: " ++ id ++ newline,
                     exit_status "1"))
      end
  | docker_rm id =>
      match find_container w id with
      | Some _ =>
          (set_containers w
             (filter (fun c => negb (String.eqb (cid c) id)) (containers w))
             (fresh_ids w),
           (id ++ newline, None))
      | None => (w, ("Error: No such container: " ++ id ++ newline,
                     exit_status "1"))
      end
  | docker_run port image =>
      match fresh_ids w with
      | id :: ids =>
          if (1 <=? port) && (port <=? 65535) && negb (port_bound w port) then
            (set_containers w
               ({| cid := id; cimage := image; cport := Some port |}
                :: containers w) ids,
             (id ++ newline, None))
          else (w, ("port is already allocated" ++ newline, exit_status "125"))
      | [] => (w, ("cannot create container" ++ newline, exit_status "125"))
      end
  end.

Definition host : Host World := {|
  MkdirTemp := fun w =>
    match scratch w with
    | Ok d => (put_dir d None w, (d, None))
    | Err e => (w, ("", Some e))
    end;
  RemoveAll := remove_dir;
  StatIsNotExist := fun path w => negb (file_exists w path);
  Exec := exec;
  Listen := fun p w =>
    if port_bound w p
    then (w, Some (errorString "bind: address already in use"))
    else (set_held w (p :: held w), None);
  Close := fun p w => set_held w (remove Z.eq_dec p (held w));
  Open := fun path w => files w path
|}.

End Ref.

Arguments findFreePort {W} H : simpl never.

(** ** Observations on a trace *)

(** The process was started and returned without an error. *)
Definition succeeded (c : Cmd) (out : string) : Event :=
  {| ev_cmd := c; ev_output := out; ev_err := None |}.

Definition is_build (e : Event) : bool :=
  match ev_cmd e with docker_build _ _ => true | _ => false end.

Definition is_run (e : Event) : bool :=
  match ev_cmd e with docker_run _ _ => true | _ => false end.

(** The image references handed to the build tool and to the runtime. *)
Definition image_refs (tr : list Event) : list string :=
  flat_map (fun e => match ev_cmd e with
                     | docker_build tag _ => [tag]
                     | docker_run _ image => [image]
                     | _ => []
                     end) tr.

(** The revision fetched: the trimmed output of the first [rev-parse] that
    returned without an error. *)
Definition fetched_revision (tr : list Event) : option string :=
  match find (fun e => match ev_cmd e, ev_err e with
                       | git_rev_parse _, None => true
                       | _, _ => false
                       end) tr with
  | Some e => Some (strings.TrimSpace (ev_output e))
  | None => None
  end.

(** The identifiers a [docker ps -q] output lists: its lines that are not
    empty. *)
Definition reported_ids (out : string) : list string :=
  filter (fun l => negb (String.eqb l ""))
         (strings.SplitByte out "010").

(** The one error of [findFreePort]. *)
Definition no_free_ports : error := errorString "no free ports found".

(** ** Properties of requests and responses *)

(** The handler turns a request away: the body does not decode, or the URL
    in it does not parse. *)
Definition rejected (r : Request) : Prop :=
  snd (decodeRequestPayload (Body r) {| URL := "" |}) <> None
  \/ is_ok (url.Parse (URL (fst (decodeRequestPayload (Body r) {| URL := "" |}))))
     = false.

(** The request with the body [{"url": "<text>"}]. *)
Definition request_for (text : string) : Request :=
  {| Body := Ok (json.JObject [("url", json.JString text)]) |}.

(** The response to a deploy that went through. *)
Definition processed : Response :=
  {| StatusCode := StatusOK;
     ResponseBody := "Repository successfully processed" |}.

(** ** Sample machines

    States of the reference host on which the program is run below. *)
Module Sample.
Import Ref.

(** [https://github.com/user/repo], parsed. *)
Definition repo : url.URL :=
  {| url.Scheme := "https"; url.Opaque := ""; url.User := None;
     url.Host := "github.com"; url.Path := "/user/repo";
     url.OmitHost := false; url.ForceQuery := false; url.RawQuery := "";
     url.Fragment := "" |}.

(** The remote repositories: [/user/repo] with a [Dockerfile], [/user/bare]
    without one, nothing else. *)
Definition origin (u : url.URL) : option Checkout :=
  if String.eqb (url.Host u) "github.com" then
    if String.eqb (url.Path u) "/user/repo"
    then Some {| has_dockerfile := true; head := "abc1234" |}
    else if String.eqb (url.Path u) "/user/bare"
    then Some {| has_dockerfile := false; head := "def5678" |}
    else None
  else None.

(** A machine with the given listeners of other processes and the given
    running containers. *)
Definition machine (ports : list Z) (cs : list Container) : World :=
  {| scratch := Ok "/tmp/repo-1";
     dirs := [];
     remote := origin;
     listeners := ports;
     held := [];
     containers := cs;
     fresh_ids := ["c1"; "c2"];
     broken := fun _ => false;
     files := fun _ => OpenNotExist (errorString "no such file or directory") |}.

(** A container of an earlier revision of [repo], published on 3005. *)
Definition earlier : Container :=
  {| cid := "a1b2c3"; cimage := "github.com/user/repo:0000000";
     cport := Some 3005 |}.

(** A second container of the same image name. *)
Definition second : Container :=
  {| cid := "d4e5f6"; cimage := "github.com/user/repo:1111111";
     cport := Some 3006 |}.

(** A container of the image name started without a published port. *)
Definition unpublished : Container :=
  {| cid := "0a0b0c"; cimage := "github.com/user/repo:2222222";
     cport := None |}.

(** A container of the image name whose published port, printed, is not a
    number of 64 bits: its port line does not read back. *)
Definition unparsable : Container :=
  {| cid := "0d0e0f"; cimage := "github.com/user/repo:3333333";
     cport := Some (2 ^ 63) |}.

(** The output of the probe on a machine that runs [earlier] and [second],
    and the identifier the program makes of it. *)
Definition two_ids_output : string :=
  "a1b2c3" ++ Ref.newline ++ "d4e5f6" ++ Ref.newline.

Definition two_ids : string := "a1b2c3" ++ Ref.newline ++ "d4e5f6".

End Sample.

(** ** Statements of the specification that the program does not meet *)

(** C8 as stated: when the probe lists several identifiers, the port query
    and the removal are made for the first of them. *)
Definition first_reported_is_canonical : Prop :=
  forall (repoURL : url.URL) (w : Ref.World) (out first : string)
         (others : list string),
    let tr := trace (fst (run (CloneAndBuild Ref.host repoURL) w)) in
    In (succeeded (docker_ps (imageName repoURL)) out) tr ->
    reported_ids out = first :: others ->
    others <> [] ->
    forall e id, In e tr ->
      ev_cmd e = docker_port id \/ ev_cmd e = docker_rm id ->
      id = first.

(** C2 as stated, at its example: the request with the body
    [{"url": "not a url"}] is answered with a status of the 400 class and
    no process is started. *)
Definition not_a_url_is_refused : Prop :=
  forall (w : Ref.World),
    let r := run (handleDeploy Ref.host (request_for "not a url")) w in
    (exists resp, snd r = Return resp /\ 400 <= StatusCode resp < 500)
    /\ trace (fst r) = [].



(** ** Well-formed machines *)

(** A byte of 7 bits that is not white space. *)
Definition plain (c : ascii) : bool :=
  (byte_code c <? 128)%N && negb (strings.asciiSpace c).

Definition alnum (c : ascii) : bool := is_letter c || is_digit c.

(** Identifiers and short hashes: letters and digits, at least one. *)
Definition valid_id (s : string) : bool :=
  negb (String.eqb s "") && forallb alnum (list_ascii_of_string s).

(** The text begins, and ends, with a plain byte. *)
Definition starts_plain (s : string) : bool :=
  match s with String a _ => plain a | EmptyString => false end.

Definition ends_plain (s : string) : bool := starts_plain (string_rev s).

(** The runtime's containers have identifiers of letters and digits, no two
    the same, and the identifiers it will hand out are new. *)
Definition well_formed (w : Ref.World) : Prop :=
  (forall c, In c (Ref.containers w) -> valid_id (Ref.cid c) = true)
  /\ NoDup (map Ref.cid (Ref.containers w))
  /\ (forall id, In id (Ref.fresh_ids w) ->
                 ~ In id (map Ref.cid (Ref.containers w))).

(** Lines joined by line breaks, none after the last. *)
Fixpoint join_lines (ls : list string) : string :=
  match ls with
  | [] => ""
  | [l] => l
  | l :: rest => l ++ Ref.newline ++ join_lines rest
  end.

(** The value of a decimal numeral read after the digits that made [acc]. *)
Fixpoint uint_val (d : Decimal.uint) (acc : Z) : Z :=
  match d with
  | Decimal.Nil => acc
  | Decimal.D0 l => uint_val l (acc * 10 + 0)
  | Decimal.D1 l => uint_val l (acc * 10 + 1)
  | Decimal.D2 l => uint_val l (acc * 10 + 2)
  | Decimal.D3 l => uint_val l (acc * 10 + 3)
  | Decimal.D4 l => uint_val l (acc * 10 + 4)
  | Decimal.D5 l => uint_val l (acc * 10 + 5)
  | Decimal.D6 l => uint_val l (acc * 10 + 6)
  | Decimal.D7 l => uint_val l (acc * 10 + 7)
  | Decimal.D8 l => uint_val l (acc * 10 + 8)
  | Decimal.D9 l => uint_val l (acc * 10 + 9)
  end.

(** Two states of the reference host that differ in their directories
    only. *)
Definition same_runtime (w w' : Ref.World) : Prop :=
  Ref.listeners w' = Ref.listeners w
  /\ Ref.held w' = Ref.held w
  /\ Ref.containers w' = Ref.containers w
  /\ Ref.fresh_ids w' = Ref.fresh_ids w
  /\ Ref.remote w' = Ref.remote w.
(** ** The HTTP side: response writer, middleware, server

    What [net/http] gives a handler: the request's method and body, and a
    response writer with a header map, a status and a body. *)

(** [strconv.FormatInt(n, 10)]: the sign, then the digits.  It is the text
    of [strconv.Itoa(n)] and of [fmt.Sprintf("%d", n)] for every [int]. *)
Definition FormatInt (n : Z) : string :=
  if n <? 0 then "-" ++ strconv.Itoa (- n) else strconv.Itoa n.

Module http.

Definition MethodOptions : string := "OPTIONS".

(** The bytes of a header field name (the tokens of RFC 7230). *)
Definition validHeaderFieldByte (c : ascii) : bool :=
  is_letter c || is_digit c || byte_in c "!#$%&'*+-.^_`|~".

Definition ToUpperByte (c : ascii) : ascii :=
  if is_lower c then ascii_of_N (byte_code c - 32) else c.

(** The canonical form of a field name: the first letter and every letter
    after a hyphen in upper case, the others in lower case. *)
Fixpoint canonical (upper : bool) (s : string) : string :=
  match s with
  | EmptyString => EmptyString
  | String c r =>
      let c := if upper && is_lower c then ToUpperByte c
               else if negb upper && is_upper c then strings.ToLowerByte c
               else c in
      String c (canonical (Ascii.eqb c "-") r)
  end.

(** [textproto.CanonicalMIMEHeaderKey]: a name with a byte that is not a
    token byte is returned as it is. *)
Definition CanonicalMIMEHeaderKey (s : string) : string :=
  if forallb validHeaderFieldByte (list_ascii_of_string s)
  then canonical true s else s.

(** [http.Header]: a map from canonical field names to their values, kept
    as a list with one entry for a name. *)
Definition Header : Type := list (string * list string).

Definition Values (h : Header) (key : string) : list string :=
  match find (fun e => String.eqb (fst e) key) h with
  | Some e => snd e
  | None => []
  end.

(** [h.Get(key)]: the first value of the field, [""] without one. *)
Definition Header_Get (h : Header) (key : string) : string :=
  match Values h (CanonicalMIMEHeaderKey key) with
  | v :: _ => v
  | [] => ""
  end.

(** [h.Del(key)] *)
Definition Header_Del (h : Header) (key : string) : Header :=
  filter (fun e => negb (String.eqb (fst e) (CanonicalMIMEHeaderKey key))) h.

(** [h.Set(key, value)]: the field has this one value from now on. *)
Definition Header_Set (h : Header) (key value : string) : Header :=
  (CanonicalMIMEHeaderKey key, [value]) :: Header_Del h key.

(** The response writer of the server, as the handler sees it. *)
Record ResponseWriter : Type := {
  (* w.Header(), the map the handler sets fields in *)
  handlerHeader : Header;
  (* the status written; None before the first WriteHeader or Write *)
  status : option Z;
  (* the handler's fields as sent: the map as it was when the status was
     written (the server adds Date, Content-Length and, when the handler
     set none, a Content-Type of its own) *)
  sentHeader : Header;
  (* the bytes handed to Write *)
  written : string
}.

(** The writer a handler is called with. *)
Definition NewResponse : ResponseWriter :=
  {| handlerHeader := []; status := None; sentHeader := []; written := "" |}.

(** [w.Header().Set(key, value)] *)
Definition SetHeader (w : ResponseWriter) (key value : string) : ResponseWriter :=
  {| handlerHeader := Header_Set (handlerHeader w) key value;
     status := status w; sentHeader := sentHeader w; written := written w |}.

(** [w.WriteHeader(code)] for a code from 200 on: the first call fixes the
    status and the fields sent, a later call is logged and changes
    nothing. *)
Definition WriteHeader (w : ResponseWriter) (code : Z) : ResponseWriter :=
  match status w with
  | Some _ => w
  | None =>
      {| handlerHeader := handlerHeader w; status := Some code;
         sentHeader := handlerHeader w; written := written w |}
  end.

(** [w.Write(data)]: writes the status 200 first when none is written. *)
Definition Write (w : ResponseWriter) (data : string) : ResponseWriter :=
  let w := WriteHeader w StatusOK in
  {| handlerHeader := handlerHeader w; status := status w;
     sentHeader := sentHeader w; written := written w ++ data |}.

(** [http.Error(w, msg, code)] on the response writer (Go 1.22). *)
Definition Error (w : ResponseWriter) (msg : string) (code : Z)
  : ResponseWriter :=
  let w := SetHeader w "Content-Type" "text/plain; charset=utf-8" in
  let w := SetHeader w "X-Content-Type-Options" "nosniff" in
  let w := WriteHeader w code in
  Write w (msg ++ String "010" "").

(** The request as the handlers read it. *)
Record Request : Type := { Method : string; Body : json.Stream }.

(** The fields of [http.Server] that are plain data; durations in
    nanoseconds, 0 for a field that is not set. *)
Record Server : Type := {
  Addr : string;
  ReadTimeout : Z;
  WriteTimeout : Z;
  ReadHeaderTimeout : Z
}.

End http.

(** [time.Second] *)
Definition Second : Z := 1000000000.

(** The handlers of package [main] on the response writer. *)
Module Handlers.
Section WithHost.
Context {W : Type} (H : Host W).

(** [http.Handler]: what [ServeHTTP(w, r)] does to the machine and to the
    response writer. *)
Definition Handler : Type :=
  http.ResponseWriter -> http.Request -> M W http.ResponseWriter.

(** [handleDeploy(w, r)], call for call on [w]. *)
Definition handleDeploy : Handler := fun w r =>
  let '(payload, err) := decodeRequestPayload (http.Body r) {| URL := "" |} in
  match err with
  | Some _ => ret (http.Error w "Invalid request payload" StatusBadRequest)
  | None =>
      match url.Parse (URL payload) with
      | Err _ => ret (http.Error w "Invalid URL" StatusBadRequest)
      | Ok parsedURL =>
          err <- returned_error (CloneAndBuild H parsedURL) ;;
          match err with
          | Some _ =>
              ret (http.Error w "Internal server error"
                              StatusInternalServerError)
          | None =>
              let w := http.WriteHeader w StatusOK in
              ret (http.Write w "Repository successfully processed")
          end
      end
  end.

(** [CorsMiddleware(next)] *)
Definition CorsMiddleware (next : Handler) : Handler := fun w r =>
  let w := http.SetHeader w "Access-Control-Allow-Origin" "*" in
  let w := http.SetHeader w "Access-Control-Allow-Headers" "*" in
  let w := http.SetHeader w "Access-Control-Allow-Methods" "*" in
  if String.eqb (http.Method r) http.MethodOptions then
    ret (http.WriteHeader w StatusOK)
  else next w r.

(** [main] up to the value of [server]: [None] when [main] returns before
    it, on an error of [parseJsonConfig]. *)
Definition main_server (w : W) : option http.Server :=
  let '(c, err) := parseJsonConfig H "config.json" w in
  match err with
  | Some _ => None
  | None =>
      Some {| http.Addr := ":" ++ FormatInt (HTTPPort c);
              http.ReadTimeout := 10 * Second;
              http.WriteTimeout := 10 * Second;
              http.ReadHeaderTimeout := 0 |}
  end.

End WithHost.
End Handlers.

(** What a client reads of a response writer: the status (200 when the
    handler wrote none) and the body. *)
Definition response_of (w : http.ResponseWriter) : Response :=
  {| StatusCode := match http.status w with Some c => c | None => StatusOK end;
     ResponseBody := http.written w |}.

(** The three fields [CorsMiddleware] sets are in a header, each with the
    value [*]. *)
Definition cors_open (h : http.Header) : bool :=
  String.eqb (http.Header_Get h "Access-Control-Allow-Origin") "*"
  && String.eqb (http.Header_Get h "Access-Control-Allow-Headers") "*"
  && String.eqb (http.Header_Get h "Access-Control-Allow-Methods") "*".

(** The request [handleDeploy] reads: the body. *)
Definition body_of (r : http.Request) : Request := {| Body := http.Body r |}.

(** ** More observations on a trace *)

(** The place of a tool in the pipeline. *)
Definition stage (c : Cmd) : nat :=
  match c with
  | git_clone _ _ => 0
  | git_rev_parse _ => 1
  | docker_build _ _ => 2
  | docker_ps _ => 3
  | docker_port _ => 4
  | docker_rm _ => 5
  | docker_run _ _ => 6
  end.

(** The tools of a trace, by their places. *)
Definition stages (tr : list Event) : list nat :=
  map (fun e => stage (ev_cmd e)) tr.

(** [l] is an initial part of [m]. *)
Fixpoint prefix_of (l m : list nat) : bool :=
  match l, m with
  | [], _ => true
  | a :: l', b :: m' => Nat.eqb a b && prefix_of l' m'
  | _ :: _, [] => false
  end.

Definition failed (e : Event) : bool :=
  match ev_err e with Some _ => true | None => false end.

(** Some [docker run] returned without an error. *)
Definition container_started (tr : list Event) : bool :=
  existsb (fun e => is_run e && negb (failed e)) tr.

(** The identifiers whose [docker rm -f] returned without an error. *)
Definition removed_ids (tr : list Event) : list string :=
  flat_map (fun e => match ev_cmd e, ev_err e with
                     | docker_rm id, None => [id]
                     | _, _ => []
                     end) tr.

(** The containers left when those of the identifiers [ids] are removed. *)
Definition without (ids : list string) (cs : list Ref.Container)
  : list Ref.Container :=
  filter (fun c => negb (existsb (String.eqb (Ref.cid c)) ids)) cs.

(** The four responses of [handleDeploy]. *)
Definition responses : list Response :=
  [ processed;
    http_Error "Invalid request payload" StatusBadRequest;
    http_Error "Invalid URL" StatusBadRequest;
    http_Error "Internal server error" StatusInternalServerError ].

(** Two states of the reference host that differ at most in their
    containers, in the identifiers to come and in the directory [d]. *)
Definition same_outside (d : string) (w w' : Ref.World) : Prop :=
  Ref.scratch w' = Ref.scratch w
  /\ Ref.remote w' = Ref.remote w
  /\ Ref.listeners w' = Ref.listeners w
  /\ Ref.held w' = Ref.held w
  /\ Ref.broken w' = Ref.broken w
  /\ Ref.files w' = Ref.files w
  /\ filter (fun e => negb (String.eqb (fst e) d)) (Ref.dirs w')
     = filter (fun e => negb (String.eqb (fst e) d)) (Ref.dirs w).

(** A machine ready for deploys: well formed, and the identifiers to come
    are of letters and digits, no two the same. *)
Definition ready (w : Ref.World) : Prop :=
  well_formed w
  /\ NoDup (Ref.fresh_ids w)
  /\ (forall id, In id (Ref.fresh_ids w) -> valid_id id = true).

(** ** The port scan on a host whose binds can fail for any reason *)

(** The machine after the binds of the [n] ports from [port] have all
    failed, one after the other; [None] when one of them succeeds. *)
Fixpoint after_refused {W : Type} (H : Host W) (n : nat) (port : Z) (w : W)
  : option W :=
  match n with
  | O => Some w
  | S k =>
      match Listen H port w with
      | (w1, Some _) => after_refused H k (port + 1) w1
      | (_, None) => None
      end
  end.

(** The machine of [Ref] for a process that has no file descriptor left:
    every bind fails, of a bound port or not. *)
Definition out_of_descriptors : Host Ref.World := {|
  MkdirTemp := MkdirTemp Ref.host;
  RemoveAll := RemoveAll Ref.host;
  StatIsNotExist := StatIsNotExist Ref.host;
  Exec := Exec Ref.host;
  Listen := fun p w =>
    (w, Some (errorString "listen tcp: socket: too many open files"));
  Close := Close Ref.host;
  Open := Open Ref.host
|}.

(** C6 as stated, its last part: on a machine where the bind of a bound
    port fails, the scan reports exhaustion only when every port of the
    range is bound. *)
Definition exhaustion_reported_distinctly : Prop :=
  forall (H : Host Ref.World),
    (forall w p, Ref.port_bound w p = true -> snd (Listen H p w) <> None) ->
    forall w,
      snd (run (findFreePort H) w) = Fail no_free_ports ->
      forall q, 3000 <= q <= 65535 -> Ref.port_bound w q = true.

(** ** The configuration a file gives *)

(** What the loader takes for a value of [http_port]: an integer of 64
    bits ([Some (Some n)]) or [null], which changes nothing
    ([Some None]); any other value is refused ([None]). *)
Definition port_of_value (v : json.Value) : option (option Z) :=
  match v with
  | json.JNull => Some None
  | json.JNumber literal =>
      match strconv.ParseInt "ParseInt" literal with
      | Ok n => Some (Some n)
      | Err _ => None
      end
  | _ => None
  end.

(** The values of the members named [http_port], in any mix of upper and
    lower case, in the order of the object. *)
Definition port_members (members : list (string * json.Value))
  : list json.Value :=
  map snd (filter (fun m => json.key_matches (fst m) "http_port") members).

Definition accepted (v : json.Value) : bool :=
  match port_of_value v with Some _ => true | None => false end.

(** The last integer among the values, [cur] when there is none. *)
Fixpoint last_port (vs : list json.Value) (cur : Z) : Z :=
  match vs with
  | [] => cur
  | v :: rest =>
      last_port rest (match port_of_value v with
                      | Some (Some n) => n
                      | _ => cur
                      end)
  end.

(** The port a configuration file gives, [None] when the file is an
    error: a file that does not exist gives 80; a file whose text is the
    JSON value [null] gives 80; a file whose text is a JSON object gives
    the last integer of its [http_port] members (80 without one) when each
    of them is an integer or [null]; any other file is an error. *)
Definition expected_port (file : OpenResult) : option Z :=
  match file with
  | OpenNotExist _ => Some 80
  | OpenFailed _ => None
  | Opened (Err _) => None
  | Opened (Ok json.JNull) => Some 80
  | Opened (Ok (json.JObject members)) =>
      if forallb accepted (port_members members)
      then Some (last_port (port_members members) 80)
      else None
  | Opened (Ok _) => None
  end.

(** C9 as stated: a file that can be read and whose text is JSON is not an
    error. *)
Definition every_json_file_loads : Prop :=
  forall (W : Type) (H : Host W) (configPath : string) (w : W)
         (v : json.Value),
    Open H configPath w = Opened (Ok v) ->
    snd (parseJsonConfig H configPath w) = None.

(** ** More sample machines *)
Module Machines.
Import Ref.

(** The sample machine with a file [config.json] of the given content. *)
Definition with_config (content : json.Stream) : World :=
  {| scratch := scratch (Sample.machine [] []);
     dirs := [];
     remote := Sample.origin;
     listeners := [];
     held := [];
     containers := [];
     fresh_ids := ["c1"; "c2"];
     broken := fun _ => false;
     files := fun path =>
       if String.eqb path "config.json" then Opened content
       else OpenNotExist (errorString "no such file or directory") |}.

(** A container of another project. *)
Definition neighbour : Container :=
  {| cid := "f0f0f0"; cimage := "github.com/other/app:7777777";
     cport := Some 3010 |}.

(** The sample machine with the given containers, on which the runtime
    cannot create another one. *)
Definition exhausted (cs : list Container) : World :=
  set_containers (Sample.machine [] cs) cs [].

End Machines.

(** ** Package [path]: [path.Base] *)
Module path.

(** The text without the slashes it begins with. *)
Fixpoint drop_slashes (s : string) : string :=
  match s with
  | String c r => if Ascii.eqb c "/" then drop_slashes r else s
  | EmptyString => EmptyString
  end.

(** [path.Base]: the last element of the path, after the slashes at its
    end are removed; [.] for an empty path, [/] for one of slashes only. *)
Definition Base (p : string) : string :=
  if String.eqb p "" then "."
  else
    let p := string_rev (drop_slashes (string_rev p)) in
    let p := match strings.LastIndexByte p "/" with
             | Some i => string_drop (S i) p
             | None => p
             end in
    if String.eqb p "" then "/" else p.

End path.

(** ** The older version of package [main] (main.go)

    It takes the address of the repository as text, names the image after
    the last element of the address and always looks for a free port: it
    does not probe for a running container.  It runs in the monad of the
    program, over a state that holds the machine and the processes started
    (the trace of the monad itself is not used). *)
Module Legacy.

(** The processes this version starts. *)
Inductive Cmd : Type :=
| git_clone (repoURL dir : string)
    (* git clone <repoURL> <dir> *)
| docker_build (tag dir : string)
    (* docker build -t <tag> <dir> *)
| docker_run (port : Z) (image : string).
    (* docker run -d -p <port>:80 <image> *)

Record Event : Type := {
  ev_cmd : Cmd;
  ev_output : string;
  ev_err : option error
}.

(** The calls that leave the program. *)
Record Host (W : Type) : Type := {
  MkdirTemp : W -> W * (string * option error);
  RemoveAll : string -> W -> W;
  StatIsNotExist : string -> W -> bool;
  Exec : Cmd -> W -> W * (string * option error);
  Listen : Z -> W -> W * option error;
  Close : Z -> W -> W
}.
Arguments MkdirTemp {W} _ _.
Arguments RemoveAll {W} _ _ _.
Arguments StatIsNotExist {W} _ _ _.
Arguments Exec {W} _ _ _.
Arguments Listen {W} _ _ _.
Arguments Close {W} _ _ _.

(** The machine and the processes started so far. *)
Record State (W : Type) : Type := { machine : W; started : list Event }.
Arguments machine {W} _.
Arguments started {W} _.

Section Code.
Context {W : Type} (H : Host W).

Definition Prog (A : Type) : Type := M (State W) A.

(** A call on the machine. *)
Definition call {A} (op : W -> W * A) : Prog A :=
  lift (fun s => let '(w, a) := op (machine s) in
                 ({| machine := w; started := started s |}, a)).

Definition cleanup (f : W -> W) (s : State W) : State W :=
  {| machine := f (machine s); started := started s |}.

(** [exec.Command(...).CombinedOutput()] *)
Definition CombinedOutput (c : Cmd) : Prog (string * option error) :=
  lift (fun s =>
          let '(w, (out, err)) := Exec H c (machine s) in
          ({| machine := w;
              started := started s
                         ++ [{| ev_cmd := c; ev_output := out;
                                ev_err := err |}] |},
           (out, err))).

(** [exec.Command(...).Run()] *)
Definition Run (c : Cmd) : Prog (option error) :=
  bind (CombinedOutput c) (fun r => ret (snd r)).

(** [findFreePort] of this version, the same loop. *)
Fixpoint findFreePort_loop (remaining : nat) (port : Z) : Prog Z :=
  match remaining with
  | O => fail (errorString "no free ports found")
  | S k =>
      err <- call (Listen H port) ;;
      match err with
      | None => call (fun w => (Close H port w, tt)) ;; ret port
      | Some _ => findFreePort_loop k (port + 1)
      end
  end.

Definition findFreePort : Prog Z :=
  findFreePort_loop (Z.to_nat (65535 - 3000 + 1)) 3000.

(** [CloneAndBuild(repoURL string)] *)
Definition CloneAndBuild (repoURL : string) : Prog unit :=
  '(tempDir, err) <- call (MkdirTemp H) ;;
  check err (fun err => wrapError "failed to create temp dir: %w" err []) ;;
  defer (cleanup (RemoveAll H tempDir)) (
    '(b, err) <- CombinedOutput (git_clone repoURL tempDir) ;;
    check err (fun err =>
      wrapError "failed to clone repository: %w: %s" err [b]) ;;
    let dockerfilePath := filepath.Join tempDir "Dockerfile" in
    notExist <- call (fun w => (w, StatIsNotExist H dockerfilePath w)) ;;
    if notExist : bool then
      fail (errorString "Dockerfile not found in repository")
    else
    err <- Run (docker_build (path.Base repoURL) tempDir) ;;
    check err (fun err => wrapError "failed to build Docker image: %w" err []) ;;
    port <- rethrow findFreePort
              (fun err => wrapError "failed to find free port: %w" err []) ;;
    err <- Run (docker_run port (path.Base repoURL)) ;;
    check err (fun err =>
      wrapError "failed to run Docker container: %w" err []) ;;
    ret tt).

(** [handleDeploy] of this version: the URL is not parsed. *)
Definition handleDeploy (r : Request) : Prog Response :=
  let '(payload, err) := decodeRequestPayload (Body r) {| URL := "" |} in
  match err with
  | Some _ => ret (http_Error "Invalid request payload" StatusBadRequest)
  | None =>
      err <- returned_error (CloneAndBuild (URL payload)) ;;
      match err with
      | Some _ =>
          ret (http_Error "Internal server error" StatusInternalServerError)
      | None =>
          ret {| StatusCode := StatusOK;
                 ResponseBody := "Repository successfully processed" |}
      end
  end.

(** A run from a state of the machine, no process started yet. *)
Definition run {A} (m : Prog A) (w : W) : State W * Res A :=
  let '(s, r) := m {| world := {| machine := w; started := [] |};
                      trace := [] |} in
  (world s, r).

End Code.

Arguments findFreePort {W} H : simpl never.

(** The image references handed to the build tool and to the runtime. *)
Definition image_refs (tr : list Event) : list string :=
  flat_map (fun e => match ev_cmd e with
                     | docker_build tag _ => [tag]
                     | docker_run _ image => [image]
                     | git_clone _ _ => []
                     end) tr.

(** The place of a tool in this version's pipeline. *)
Definition stage (c : Cmd) : nat :=
  match c with
  | git_clone _ _ => 0
  | docker_build _ _ => 1
  | docker_run _ _ => 2
  end.

End Legacy.

(** The reference host for the older version: the machine of [Ref], with
    the address of a clone read as a URL. *)
Module LegacyRef.

Definition exec (c : Legacy.Cmd) (w : Ref.World)
  : Ref.World * (string * option error) :=
  match c with
  | Legacy.git_clone repoURL dir =>
      match url.Parse repoURL with
      | Ok u => Ref.exec (git_clone u dir) w
      | Err _ =>
          (w, ("fatal: repository not found" ++ Ref.newline,
               Ref.exit_status "128"))
      end
  | Legacy.docker_build tag dir => Ref.exec (docker_build tag dir) w
  | Legacy.docker_run port image => Ref.exec (docker_run port image) w
  end.

Definition host : Legacy.Host Ref.World := {|
  Legacy.MkdirTemp := MkdirTemp Ref.host;
  Legacy.RemoveAll := RemoveAll Ref.host;
  Legacy.StatIsNotExist := StatIsNotExist Ref.host;
  Legacy.Exec := exec;
  Legacy.Listen := Listen Ref.host;
  Legacy.Close := Close Ref.host
|}.

End LegacyRef.


(** * Runs and values, computed *)

Example TrimSpace_output :
  strings.TrimSpace ("  abc1234" ++ String "013" (String "010" "")) = "abc1234".
Proof. reflexivity. Qed.

Example Split_port_line :
  strings.SplitByte "80/tcp -> 0.0.0.0:3005" ":" = ["80/tcp -> 0.0.0.0"; "3005"].
Proof. reflexivity. Qed.

(** With IPv4 and IPv6 mappings printed, the text after the first colon is
    not a number. *)
Example Split_two_port_lines :
  nth_error
    (strings.SplitByte
       ("80/tcp -> 0.0.0.0:3005" ++ String "010" "80/tcp -> [::]:3005") ":") 1
  = Some ("3005" ++ String "010" "80/tcp -> [")
  /\ is_ok (strconv.Atoi ("3005" ++ String "010" "80/tcp -> [")) = false.
Proof. split; reflexivity. Qed.

Example Atoi_port : strconv.Atoi "3005" = Ok 3005.
Proof. reflexivity. Qed.

Example Atoi_empty :
  strconv.Atoi "" = Err (NumError "Atoi" "" strconv.ErrSyntax).
Proof. reflexivity. Qed.

Example Atoi_out_of_range :
  strconv.Atoi "9223372036854775808"
  = Err (NumError "Atoi" "9223372036854775808" strconv.ErrRange).
Proof. reflexivity. Qed.

Example Join_dockerfile :
  filepath.Join "/tmp/repo-1" "Dockerfile" = "/tmp/repo-1/Dockerfile".
Proof. reflexivity. Qed.

Example Join_cleans :
  filepath.Join "/tmp//x/../repo-1/" "Dockerfile" = "/tmp/repo-1/Dockerfile".
Proof. reflexivity. Qed.

Example Parse_repository :
  url.Parse "https://github.com/user/repo" = Ok Sample.repo.
Proof. reflexivity. Qed.

Example Parse_missing_scheme :
  url.Parse ":foo"
  = Err (urlError "parse" ":foo" (errorString "missing protocol scheme")).
Proof. reflexivity. Qed.

Example Parse_scp_like_address :
  is_ok (url.Parse "git@github.com:user/repo.git") = false.
Proof. reflexivity. Qed.

Example Parse_bad_escape : is_ok (url.Parse "https://github.com/%zz") = false.
Proof. reflexivity. Qed.

Example decode_url_any_case :
  decodeRequestPayload
    (Ok (json.JObject [("other", json.JBool true);
                       ("URL", json.JString "https://github.com/user/repo")]))
    {| URL := "" |}
  = ({| URL := "https://github.com/user/repo" |}, None).
Proof. reflexivity. Qed.

Example decode_url_of_wrong_type :
  snd (decodeRequestPayload (Ok (json.JObject [("url", json.JNumber "5")]))
                            {| URL := "" |})
  = Some (json.UnmarshalTypeError "url").
Proof. reflexivity. Qed.

Example decode_config_port :
  decodeConfig (Ok (json.JObject [("http_port", json.JNumber "8080")]))
               {| HTTPPort := 80 |}
  = ({| HTTPPort := 8080 |}, None).
Proof. reflexivity. Qed.

Example decode_config_fraction :
  snd (decodeConfig (Ok (json.JObject [("http_port", json.JNumber "80.5")]))
                    {| HTTPPort := 80 |})
  = Some (json.UnmarshalTypeError "http_port").
Proof. reflexivity. Qed.

(** A first deploy on a machine with 3000 and 3001 taken. *)
Example first_deploy :
  run (handleDeploy Ref.host (request_for "https://github.com/user/repo"))
      (Sample.machine [3000; 3001] [])
  = ({| world :=
          Ref.set_containers (Sample.machine [3000; 3001] [])
            [{| Ref.cid := "c1";
                Ref.cimage := "github.com/user/repo:abc1234";
                Ref.cport := Some 3002 |}]
            ["c2"];
        trace :=
          [succeeded (git_clone Sample.repo "/tmp/repo-1") "";
           succeeded (git_rev_parse "/tmp/repo-1") ("abc1234" ++ Ref.newline);
           succeeded (docker_build "github.com/user/repo:abc1234" "/tmp/repo-1")
                     "";
           succeeded (docker_ps "github.com/user/repo") "";
           succeeded (docker_run 3002 "github.com/user/repo:abc1234")
                     ("c1" ++ Ref.newline)] |},
     Return processed).
Proof. vm_compute. reflexivity. Qed.

(** A deploy on a machine that runs a container of an earlier revision. *)
Example second_deploy :
  let r := run (handleDeploy Ref.host (request_for "https://github.com/user/repo"))
               (Sample.machine [] [Sample.earlier]) in
  snd r = Return processed
  /\ Ref.containers (world (fst r))
     = [{| Ref.cid := "c1";
           Ref.cimage := "github.com/user/repo:abc1234";
           Ref.cport := Some 3005 |}]
  /\ map ev_cmd (trace (fst r))
     = [git_clone Sample.repo "/tmp/repo-1";
        git_rev_parse "/tmp/repo-1";
        docker_build "github.com/user/repo:abc1234" "/tmp/repo-1";
        docker_ps "github.com/user/repo";
        docker_port "a1b2c3";
        docker_rm "a1b2c3";
        docker_run 3005 "github.com/user/repo:abc1234"].
Proof. vm_compute. repeat split. Qed.

(** A deploy of a text that is no repository. *)
Example deploy_not_a_url :
  let r := run (handleDeploy Ref.host (request_for "not a url"))
               (Sample.machine [] []) in
  snd r = Return (http_Error "Internal server error" StatusInternalServerError)
  /\ map ev_err (trace (fst r)) = [Ref.exit_status "128"]
  /\ Ref.dirs (world (fst r)) = [].
Proof. vm_compute. repeat split. Qed.

(** ** Facts on the library functions *)

Lemma SplitByte_length (s : string) (c : ascii) :
  List.length (strings.SplitByte s c) = S (strings.CountByte s c).
Proof.
  induction s as [|a r IH]; [reflexivity|].
  cbn [strings.SplitByte strings.CountByte].
  destruct (Ascii.eqb a c).
  - cbn. now rewrite IH.
  - destruct (strings.SplitByte r c) as [|f fs]; [discriminate|].
    cbn in *. exact IH.
Qed.

(** [xs[1]] of a split exists exactly when the separator occurs. *)
Lemma SplitByte_second (s : string) (c : ascii) :
  nth_error (strings.SplitByte s c) 1 = None
  <-> strings.CountByte s c = O.
Proof.
  rewrite nth_error_None, SplitByte_length. lia.
Qed.

(** *** Concatenation and reversal *)

Lemma string_app_assoc (s t u : string) : (s ++ t) ++ u = s ++ t ++ u.
Proof.
  induction s as [|a r IH]; [reflexivity|]. cbn. now rewrite IH.
Qed.

Lemma string_app_nil_r (s : string) : s ++ "" = s.
Proof.
  induction s as [|a r IH]; [reflexivity|]. cbn. now rewrite IH.
Qed.

Lemma list_ascii_of_string_app (s t : string) :
  list_ascii_of_string (s ++ t)
  = (list_ascii_of_string s ++ list_ascii_of_string t)%list.
Proof.
  induction s as [|a r IH]; [reflexivity|]. cbn. now rewrite IH.
Qed.

Lemma string_of_list_ascii_app (l m : list ascii) :
  string_of_list_ascii (l ++ m)
  = string_of_list_ascii l ++ string_of_list_ascii m.
Proof.
  induction l as [|a r IH]; [reflexivity|]. cbn. now rewrite IH.
Qed.

Lemma string_rev_app (s t : string) :
  string_rev (s ++ t) = string_rev t ++ string_rev s.
Proof.
  unfold string_rev.
  now rewrite list_ascii_of_string_app, rev_app_distr, string_of_list_ascii_app.
Qed.

Lemma string_rev_involutive (s : string) : string_rev (string_rev s) = s.
Proof.
  unfold string_rev.
  rewrite list_ascii_of_string_of_list_ascii, rev_involutive.
  apply string_of_list_ascii_of_string.
Qed.

Lemma string_rev_cons (a : ascii) (r : string) :
  string_rev (String a r) = string_rev r ++ String a "".
Proof.
  change (String a r) with (String a "" ++ r).
  now rewrite string_rev_app.
Qed.

(** *** White space at the ends *)

Lemma plain_not_space (a : ascii) :
  plain a = true -> strings.asciiSpace a = false.
Proof.
  unfold plain. intros Hp. apply andb_true_iff in Hp.
  destruct Hp as [_ Hp]. now apply negb_true_iff in Hp.
Qed.

Lemma plain_not_high (a x : ascii) :
  plain a = true -> (128 <=? byte_code x)%N = true -> Ascii.eqb a x = false.
Proof.
  unfold plain. intros Hp Hx. apply andb_true_iff in Hp.
  destruct Hp as [Hp _].
  apply Ascii.eqb_neq. intros ->.
  apply N.ltb_lt in Hp. apply N.leb_le in Hx. lia.
Qed.

Lemma plain_not_between (a lo hi : ascii) :
  plain a = true -> (128 <=? byte_code lo)%N = true ->
  byte_between lo hi a = false.
Proof.
  unfold plain, byte_between. intros Hp Hx. apply andb_true_iff in Hp.
  destruct Hp as [Hp _].
  apply N.ltb_lt in Hp. apply N.leb_le in Hx.
  apply andb_false_iff. left. apply N.leb_gt. lia.
Qed.

Lemma TrimLeftSpace_plain (s : string) :
  starts_plain s = true -> strings.TrimLeftSpace s = s.
Proof.
  destruct s as [|a r]; [discriminate|]. cbn [starts_plain]. intros Hp.
  cbn [strings.TrimLeftSpace]. rewrite (plain_not_space a Hp).
  destruct r as [|b r2]; [reflexivity|].
  unfold strings.space2, strings.space3.
  rewrite !(plain_not_high a) by (exact Hp || reflexivity).
  cbn [andb orb].
  destruct r2; reflexivity.
Qed.

Lemma TrimLeftSpace_rev_plain (s : string) :
  starts_plain s = true -> strings.TrimLeftSpace_rev s = s.
Proof.
  destruct s as [|a r]; [discriminate|]. cbn [starts_plain]. intros Hp.
  cbn [strings.TrimLeftSpace_rev]. rewrite (plain_not_space a Hp).
  destruct r as [|b r2]; [reflexivity|].
  unfold strings.space2, strings.space3.
  rewrite !(plain_not_high a) by (exact Hp || reflexivity).
  rewrite (plain_not_between a) by (exact Hp || reflexivity).
  cbn [orb]. rewrite !andb_false_r.
  destruct r2; [reflexivity|].
  rewrite !andb_false_r. reflexivity.
Qed.

(** A text with plain ends, followed by a line break, is trimmed to the
    text. *)
Lemma TrimSpace_line (s : string) :
  starts_plain s = true -> ends_plain s = true ->
  strings.TrimSpace (s ++ Ref.newline) = s.
Proof.
  intros Hs He. unfold strings.TrimSpace.
  rewrite TrimLeftSpace_plain
    by (destruct s; [discriminate|exact Hs]).
  rewrite string_rev_app.
  change (string_rev Ref.newline) with Ref.newline.
  unfold Ref.newline at 1.
  cbn [append strings.TrimLeftSpace_rev].
  change (strings.asciiSpace "010") with true. cbn iota.
  rewrite TrimLeftSpace_rev_plain by exact He.
  apply string_rev_involutive.
Qed.

(** *** Identifiers *)

Lemma alnum_plain (c : ascii) : alnum c = true -> plain c = true.
Proof.
  destruct c as [[] [] [] [] [] [] [] []]; vm_compute; intros Ha;
    first [reflexivity | discriminate Ha].
Qed.

Lemma starts_plain_app (s t : string) :
  starts_plain s = true -> starts_plain (s ++ t) = true.
Proof. destruct s; [discriminate|]. intros Hs. exact Hs. Qed.

Lemma ends_plain_app (s t : string) :
  ends_plain t = true -> ends_plain (s ++ t) = true.
Proof.
  unfold ends_plain. rewrite string_rev_app. apply starts_plain_app.
Qed.

Lemma valid_id_bytes (s : string) :
  valid_id s = true ->
  s <> "" /\ forallb alnum (list_ascii_of_string s) = true.
Proof.
  unfold valid_id. intros Hv. apply andb_true_iff in Hv.
  destruct Hv as [Hne Hall]. split; [|exact Hall].
  apply negb_true_iff in Hne. now apply String.eqb_neq.
Qed.

Lemma valid_id_starts_plain (s : string) :
  valid_id s = true -> starts_plain s = true.
Proof.
  intros Hv. destruct (valid_id_bytes s Hv) as [Hne Hall].
  destruct s as [|a r]; [congruence|].
  cbn in Hall. apply andb_true_iff in Hall.
  apply alnum_plain. tauto.
Qed.

Lemma valid_id_ends_plain (s : string) :
  valid_id s = true -> ends_plain s = true.
Proof.
  intros Hv. destruct (valid_id_bytes s Hv) as [Hne Hall].
  unfold ends_plain, string_rev.
  assert (Hrev : forallb alnum (rev (list_ascii_of_string s)) = true).
  { apply forallb_forall. intros c Hin. apply in_rev in Hin.
    rewrite forallb_forall in Hall. now apply Hall. }
  destruct (rev (list_ascii_of_string s)) as [|z q] eqn:Hr.
  - exfalso. apply Hne.
    rewrite <- (string_of_list_ascii_of_string s).
    rewrite <- (rev_involutive (list_ascii_of_string s)), Hr. reflexivity.
  - cbn in *. apply andb_true_iff in Hrev. apply alnum_plain. tauto.
Qed.

(** A byte that is no letter and no digit does not occur in an
    identifier. *)
Lemma valid_id_no_byte (s : string) (c : ascii) :
  valid_id s = true -> alnum c = false ->
  strings.CountByte s c = O /\ strings.LastIndexByte s c = None.
Proof.
  intros Hv Hc. destruct (valid_id_bytes s Hv) as [_ Hall]. clear Hv.
  induction s as [|a r IH]; [split; reflexivity|].
  cbn in Hall. apply andb_true_iff in Hall. destruct Hall as [Ha Hall].
  destruct (IH Hall) as [IHc IHl].
  assert (Hne : Ascii.eqb a c = false).
  { apply Ascii.eqb_neq. intros ->. congruence. }
  cbn. rewrite IHc, IHl, Hne. split; reflexivity.
Qed.

(** *** The lines of the probe *)

Lemma concat_lines (ls : list string) :
  ls <> [] ->
  String.concat "" (map (fun id => id ++ Ref.newline) ls)
  = join_lines ls ++ Ref.newline.
Proof.
  induction ls as [|l rest IH]; [congruence|]. intros _.
  destruct rest as [|l2 rest2]; [reflexivity|].
  cbn [map String.concat join_lines] in *.
  rewrite IH by discriminate.
  cbn [append]. rewrite !string_app_assoc. reflexivity.
Qed.

Lemma join_lines_plain (ls : list string) :
  ls <> [] ->
  (forall l, In l ls -> valid_id l = true) ->
  starts_plain (join_lines ls) = true /\ ends_plain (join_lines ls) = true.
Proof.
  induction ls as [|l rest IH]; [congruence|]. intros _ Hall.
  assert (Hl : valid_id l = true) by (apply Hall; now left).
  destruct rest as [|l2 rest2].
  - split; [now apply valid_id_starts_plain|now apply valid_id_ends_plain].
  - destruct IH as [_ IHe]; [discriminate| |].
    + intros x Hx. apply Hall. now right.
    + cbn [join_lines]. split.
      * apply starts_plain_app. now apply valid_id_starts_plain.
      * apply ends_plain_app. apply ends_plain_app. exact IHe.
Qed.

Lemma CountByte_app (s t : string) (c : ascii) :
  strings.CountByte (s ++ t) c
  = (strings.CountByte s c + strings.CountByte t c)%nat.
Proof.
  induction s as [|a r IH]; [reflexivity|]. cbn. rewrite IH. lia.
Qed.

Lemma join_lines_break (l1 l2 : string) (rest : list string) :
  strings.CountByte (join_lines (l1 :: l2 :: rest)) "010" <> O.
Proof.
  cbn [join_lines]. rewrite !CountByte_app. cbn. lia.
Qed.

(** The probe's output, trimmed: the identifiers joined by line breaks. *)
Lemma TrimSpace_lines (ls : list string) :
  ls <> [] ->
  (forall l, In l ls -> valid_id l = true) ->
  strings.TrimSpace (String.concat "" (map (fun id => id ++ Ref.newline) ls))
  = join_lines ls.
Proof.
  intros Hne Hall. rewrite concat_lines by exact Hne.
  destruct (join_lines_plain ls Hne Hall) as [Hs He].
  now apply TrimSpace_line.
Qed.

(** *** Numbers in decimal *)

Lemma uint_val_ge (d : Decimal.uint) (acc : Z) :
  0 <= acc -> acc <= uint_val d acc.
Proof.
  revert acc. induction d; intros acc Hacc; cbn [uint_val]; [lia|..];
    match goal with
    | |- _ <= uint_val _ ?a => specialize (IHd a); lia
    end.
Qed.

Lemma parseDigits_uint (d : Decimal.uint) (acc : Z) :
  0 <= acc -> uint_val d acc <= strconv.maxUint64 ->
  strconv.parseDigits (NilEmpty.string_of_uint d) acc = Ok (uint_val d acc).
Proof.
  assert (Hmax : strconv.maxUint64 = 18446744073709551615) by reflexivity.
  assert (Hcut : strconv.maxUint64 / 10 + 1 = 1844674407370955162)
    by reflexivity.
  revert acc.
  induction d; intros acc Hacc Hle; cbn [uint_val] in *; [reflexivity|..].
  all: cbn [NilEmpty.string_of_uint strconv.parseDigits].
  all: match goal with
       | |- context [is_digit ?c] => change (is_digit c) with true; cbn iota
       end.
  all: match goal with
       | |- context [strconv.digit_val ?c] =>
           let v := eval vm_compute in (strconv.digit_val c) in
           change (strconv.digit_val c) with v
       end.
  all: match goal with
       | Hle' : uint_val _ ?a <= _ |- _ =>
           pose proof (uint_val_ge d a ltac:(lia)) as Hge
       end.
  all: rewrite Hcut.
  all: match goal with
       | |- context [?x <=? ?y] =>
           destruct (Z.leb_spec x y) as [Hc|Hc]; [lia|]
       end.
  all: match goal with
       | |- context [strconv.maxUint64 <? ?x] =>
           destruct (Z.ltb_spec strconv.maxUint64 x) as [Hc2|Hc2]; [lia|]
       end.
  all: apply IHd; lia.
Qed.

Lemma uint_val_pos (d : Decimal.uint) (acc : positive) :
  uint_val d (Z.pos acc) = Z.pos (Pos.of_uint_acc d acc).
Proof.
  revert acc. induction d; intros acc; cbn [uint_val Pos.of_uint_acc];
    [reflexivity|..];
    rewrite <- IHd; f_equal; lia.
Qed.

Lemma uint_val_of_uint (d : Decimal.uint) :
  uint_val d 0 = Z.of_N (N.of_uint d).
Proof.
  unfold N.of_uint.
  induction d; cbn [uint_val Pos.of_uint]; [reflexivity|exact IHd|..];
    cbn [Z.mul Z.add Z.of_N]; apply uint_val_pos.
Qed.

Lemma digits_of_uint (d : Decimal.uint) :
  forallb is_digit (list_ascii_of_string (NilEmpty.string_of_uint d)) = true.
Proof. induction d; [reflexivity|..]; exact IHd. Qed.

Lemma is_digit_alnum (c : ascii) : is_digit c = true -> alnum c = true.
Proof. unfold alnum. intros ->. apply orb_true_r. Qed.

Lemma Itoa_valid (n : Z) : valid_id (strconv.Itoa n) = true.
Proof.
  unfold strconv.Itoa, valid_id.
  set (d := N.to_uint (Z.to_N n)).
  apply andb_true_iff. split.
  - destruct d; reflexivity.
  - assert (Hd : forallb is_digit
                   (list_ascii_of_string (NilZero.string_of_uint d)) = true).
    { destruct d; try apply (digits_of_uint (_ d)); reflexivity. }
    rewrite forallb_forall in *. intros c Hc.
    apply is_digit_alnum, Hd, Hc.
Qed.

(** A number of 63 bits printed and read back. *)
Lemma Atoi_Itoa (n : Z) :
  0 <= n < 2 ^ 63 -> strconv.Atoi (strconv.Itoa n) = Ok n.
Proof.
  intros Hn. unfold strconv.Itoa.
  assert (Hval : uint_val (N.to_uint (Z.to_N n)) 0 = n).
  { rewrite uint_val_of_uint, Unsigned.of_to. lia. }
  set (d := N.to_uint (Z.to_N n)) in *.
  assert (Hparse : strconv.parseDigits (NilEmpty.string_of_uint d) 0 = Ok n).
  { rewrite parseDigits_uint; [congruence|lia|].
    rewrite Hval. unfold strconv.maxUint64. lia. }
  unfold strconv.Atoi, strconv.ParseInt.
  destruct d; cbn [NilZero.string_of_uint NilEmpty.string_of_uint] in *;
    [cbn in Hval; subst n; reflexivity|..];
    cbn [Ascii.eqb Bool.eqb orb andb negb];
    rewrite Hparse;
    destruct (Z.leb_spec (2 ^ 63) n) as [Hc|Hc]; try lia; reflexivity.
Qed.

(** *** The line of [docker port] and the image reference *)

Lemma SplitByte_none (s : string) (c : ascii) :
  strings.CountByte s c = O -> strings.SplitByte s c = [s].
Proof.
  induction s as [|a r IH]; [reflexivity|].
  cbn. destruct (Ascii.eqb a c); [discriminate|].
  intros Hc. now rewrite IH.
Qed.

Lemma TrimSpace_port_line (p : Z) :
  strings.TrimSpace (Ref.port_line p) = "80/tcp -> 0.0.0.0:" ++ strconv.Itoa p.
Proof.
  unfold Ref.port_line. rewrite <- string_app_assoc.
  apply TrimSpace_line.
  - reflexivity.
  - apply ends_plain_app, valid_id_ends_plain, Itoa_valid.
Qed.

(** The text after the first colon of the line is the port. *)
Lemma port_line_field (p : Z) :
  nth_error (strings.SplitByte (strings.TrimSpace (Ref.port_line p)) ":") 1
  = Some (strconv.Itoa p).
Proof.
  rewrite TrimSpace_port_line.
  cbn [append strings.SplitByte Ascii.eqb Bool.eqb].
  rewrite SplitByte_none
    by (apply valid_id_no_byte; [apply Itoa_valid|reflexivity]).
  reflexivity.
Qed.

Lemma string_drop_app (s t : string) :
  string_drop (String.length s) (s ++ t) = t.
Proof. induction s as [|a r IH]; [reflexivity|exact IH]. Qed.

Lemma string_take_app (s t : string) :
  string_take (String.length s) (s ++ t) = s.
Proof.
  induction s as [|a r IH]; [destruct t; reflexivity|].
  cbn. now rewrite IH.
Qed.

Lemma LastIndexByte_app (s t : string) (c : ascii) :
  strings.LastIndexByte t c = None ->
  strings.LastIndexByte (s ++ String c t) c = Some (String.length s).
Proof.
  intros Ht. induction s as [|a r IH].
  - cbn. rewrite Ht, Ascii.eqb_refl. reflexivity.
  - cbn. rewrite IH. reflexivity.
Qed.

(** The name of [name:tag] is [name], for a tag of letters and digits. *)
Lemma ref_name_tagged (name tag : string) :
  valid_id tag = true -> Ref.ref_name (name ++ ":" ++ tag) = name.
Proof.
  intros Hv. unfold Ref.ref_name. cbn [append].
  rewrite LastIndexByte_app
    by (apply valid_id_no_byte; [exact Hv|reflexivity]).
  rewrite string_drop_app, string_take_app.
  cbn [strings.LastIndexByte].
  destruct (valid_id_no_byte tag "/" Hv eq_refl) as [_ ->].
  reflexivity.
Qed.
(** ** Facts for every host *)
Section AnyHost.
Context {W : Type} (H : Host W).

(** The port scan starts no process and ends with a port or with the one
    error of [findFreePort]; it never panics. *)
Lemma findFreePort_loop_result (n : nat) (port : Z) (s : St W) :
  exists w',
    fst (findFreePort_loop H n port s) = {| world := w'; trace := trace s |}
    /\ ((exists p, snd (findFreePort_loop H n port s) = Return p
                   /\ port <= p < port + Z.of_nat n)
        \/ snd (findFreePort_loop H n port s) = Fail no_free_ports).
Proof.
  revert port s.
  induction n as [|k IH]; intros port s.
  - exists (world s). destruct s; simpl; auto.
  - cbn [findFreePort_loop].
    unfold bind, net_Listen, lift.
    destruct (Listen H port (world s)) as [w1 [e|]] eqn:HL.
    + destruct (IH (port + 1) {| world := w1; trace := trace s |})
        as (w' & Hst & Hres).
      exists w'. split; [exact Hst|].
      destruct Hres as [(p & Hp & Hr)|Hf]; [left|right; exact Hf].
      exists p. split; [exact Hp|lia].
    + unfold listener_Close, lift, ret. simpl.
      exists (Close H port w1). split; [reflexivity|].
      left. exists port. split; [reflexivity|lia].
Qed.

Lemma findFreePort_result (s : St W) :
  exists w',
    fst (findFreePort H s) = {| world := w'; trace := trace s |}
    /\ ((exists p, snd (findFreePort H s) = Return p /\ 3000 <= p <= 65535)
        \/ snd (findFreePort H s) = Fail no_free_ports).
Proof.
  unfold findFreePort.
  destruct (findFreePort_loop_result (Z.to_nat (65535 - 3000 + 1)) 3000 s)
    as (w' & Hst & Hres).
  exists w'. split; [exact Hst|].
  destruct Hres as [(p & Hp & Hr)|Hf]; [left|right; exact Hf].
  exists p. split; [exact Hp|].
  rewrite Z2Nat.id in Hr by lia. lia.
Qed.

End AnyHost.

(** ** The pipeline on every host *)

Ltac open_pipeline :=
  unfold run, CloneAndBuild, Run, defer, check, rethrow, os_MkdirTemp,
    os_Stat_IsNotExist, CombinedOutput, lift, index_string, bind, ret, fail,
    panic in *; cbn [world trace fst snd] in *.

(** One more call of the host [H], or one more test of the program,
    decided in the equation [HR] of a run. *)
Ltac next_case H HR :=
  match type of HR with
  | context [MkdirTemp H ?w] =>
      destruct (MkdirTemp H w) as [? [? [?|]]] eqn:?
  | context [Exec H ?c ?w] =>
      destruct (Exec H c w) as [? [? [?|]]] eqn:?
  | context [StatIsNotExist H ?p ?w] =>
      destruct (StatIsNotExist H p w) eqn:?
  | context [findFreePort H ?s] =>
      let w := fresh "w" in
      let Hst := fresh "Hscan" in
      let Hres := fresh "Hport" in
      let st := fresh "st" in
      let r := fresh "r" in
      destruct (findFreePort_result H s) as (w & Hst & Hres);
      destruct (findFreePort H s) as [st r] eqn:?;
      cbn [fst snd] in Hst, Hres; subst st;
      destruct r as [?|?|?];
      [ | destruct Hres as [(? & ? & _)|Hres];
          [discriminate|injection Hres as ->]
        | destruct Hres as [(? & ? & _)|?]; discriminate ]
  | context [String.eqb ?a ?b] =>
      destruct (String.eqb a b) eqn:?
  | context [nth_error ?l ?i] =>
      destruct (nth_error l i) eqn:?
  | context [strconv.Atoi ?f] =>
      destruct (strconv.Atoi f) eqn:?
  end; cbn [world trace fst snd app negb] in HR.

(** All the runs [r] of the pipeline on the host [H]: in each case the
    calls made, the final state and the result are explicit. *)
Ltac run_cases H r :=
  let R := fresh "R" in
  let HR := fresh "HR" in
  remember r as R eqn:HR;
  unfold run, CloneAndBuild, Run, defer, check, rethrow, os_MkdirTemp,
    os_Stat_IsNotExist, CombinedOutput, lift, index_string, bind, ret, fail,
    panic in HR;
  cbn [world trace fst snd] in HR;
  repeat next_case H HR;
  subst R; cbn [world trace fst snd] in *.

(** The events of a concrete trace, one by one. *)
Ltac in_trace :=
  repeat match goal with
         | Hin : In _ (_ :: _) |- _ => destruct Hin as [Hin|Hin]
         | Hin : In _ [] |- _ => destruct Hin
         | Heq : Build_Event _ _ _ = succeeded _ _ |- _ =>
             unfold succeeded in Heq
         | Heq : Build_Event _ _ _ = Build_Event _ _ _ |- _ =>
             first [discriminate Heq | inversion Heq; subst; clear Heq]
         | Heq : Build_Event _ _ _ = ?v |- _ => is_var v; subst v
         end.

Section Pipeline.
Context {W : Type} (H : Host W).

(** The deferred [os.RemoveAll] is the last thing a run does to the
    machine. *)
Lemma CloneAndBuild_cleanup (repoURL : url.URL) (w w1 : W) (tempDir : string) :
  MkdirTemp H w = (w1, (tempDir, None)) ->
  exists w2,
    world (fst (run (CloneAndBuild H repoURL) w)) = RemoveAll H tempDir w2.
Proof.
  intros Hmk. open_pipeline. rewrite Hmk. cbn.
  match goal with
  | |- context [let '(s', r) := ?body in _] => destruct body as [s2 r2]
  end.
  exists (world s2). reflexivity.
Qed.

(** A clone that fails ends the run: the error is returned and no other
    process is started. *)
Lemma CloneAndBuild_clone_fails (repoURL : url.URL) (w w1 w2 : W)
      (tempDir out : string) (e : error) :
  MkdirTemp H w = (w1, (tempDir, None)) ->
  Exec H (git_clone repoURL tempDir) w1 = (w2, (out, Some e)) ->
  run (CloneAndBuild H repoURL) w =
    ({| world := RemoveAll H tempDir w2;
        trace := [{| ev_cmd := git_clone repoURL tempDir;
                     ev_output := out; ev_err := Some e |}] |},
     Fail (wrapError "failed to clone repository: %w: %s" e [out])).
Proof.
  intros Hmk Hcl. open_pipeline. rewrite Hmk. cbn. rewrite Hcl. reflexivity.
Qed.

(** A run that cannot create its directory starts no process. *)
Lemma CloneAndBuild_mkdir_fails (repoURL : url.URL) (w w1 : W)
      (tempDir : string) (e : error) :
  MkdirTemp H w = (w1, (tempDir, Some e)) ->
  run (CloneAndBuild H repoURL) w =
    ({| world := w1; trace := [] |},
     Fail (wrapError "failed to create temp dir: %w" e [])).
Proof.
  intros Hmk. open_pipeline. rewrite Hmk. reflexivity.
Qed.

(** A clone without a [Dockerfile] ends the run with the error of its
    own. *)
Lemma CloneAndBuild_no_dockerfile (repoURL : url.URL) (w w1 w2 : W)
      (tempDir out : string) :
  MkdirTemp H w = (w1, (tempDir, None)) ->
  Exec H (git_clone repoURL tempDir) w1 = (w2, (out, None)) ->
  StatIsNotExist H (filepath.Join tempDir "Dockerfile") w2 = true ->
  run (CloneAndBuild H repoURL) w =
    ({| world := RemoveAll H tempDir w2;
        trace := [succeeded (git_clone repoURL tempDir) out] |},
     Fail (errorString "dockerfile not found in repository")).
Proof.
  intros Hmk Hcl Hst. open_pipeline. rewrite Hmk. cbn. rewrite Hcl. cbn.
  rewrite Hst. reflexivity.
Qed.

(** The error for a missing [Dockerfile] is returned in that case only. *)
Lemma dockerfile_error_distinct (repoURL : url.URL) (w : W) :
  snd (run (CloneAndBuild H repoURL) w)
    = Fail (errorString "dockerfile not found in repository") ->
  exists w1 w2 tempDir out,
    MkdirTemp H w = (w1, (tempDir, None))
    /\ Exec H (git_clone repoURL tempDir) w1 = (w2, (out, None))
    /\ StatIsNotExist H (filepath.Join tempDir "Dockerfile") w2 = true.
Proof.
  run_cases H (run (CloneAndBuild H repoURL) w);
    intros Hr; try discriminate Hr.
  do 4 eexists. repeat split; eauto.
Qed.

(** Every image reference a run hands to the build tool or the runtime is
    the name of the URL, a colon and the revision it fetched. *)
Lemma image_refs_of_run (repoURL : url.URL) (w : W) (ref : string) :
  In ref (image_refs (trace (fst (run (CloneAndBuild H repoURL) w)))) ->
  exists rev,
    fetched_revision (trace (fst (run (CloneAndBuild H repoURL) w))) = Some rev
    /\ ref = imageFullName repoURL rev.
Proof.
  run_cases H (run (CloneAndBuild H repoURL) w);
    unfold image_refs, fetched_revision; cbn;
    try tauto;
    intros Hin; eexists; (split; [reflexivity|]);
    intuition (subst; reflexivity).
Qed.

(** In the branch that replaces a container the program takes the text
    after the first colon of the port query's output: without a colon it
    panics, with one the port of the new container is that text read as a
    number. *)
Lemma port_query_index (repoURL : url.URL) (w : W) (id b : string) :
  In (succeeded (docker_port id) b)
     (trace (fst (run (CloneAndBuild H repoURL) w))) ->
  (strings.CountByte (strings.TrimSpace b) ":" = O
   <-> snd (run (CloneAndBuild H repoURL) w)
       = Panic "runtime error: index out of range")
  /\ (forall e, In e (trace (fst (run (CloneAndBuild H repoURL) w))) ->
      forall p image, ev_cmd e = docker_run p image ->
      exists field,
        nth_error (strings.SplitByte (strings.TrimSpace b) ":") 1 = Some field
        /\ strconv.Atoi field = Ok p).
Proof.
  run_cases H (run (CloneAndBuild H repoURL) w);
    intros Hin; in_trace;
    lazymatch goal with
    | Hn : nth_error _ 1 = None |- _ =>
        pose proof (proj1 (SplitByte_second _ _) Hn) as Hc
    | Hn : nth_error _ 1 = Some _ |- _ =>
        assert (Hc : strings.CountByte (strings.TrimSpace b) ":" <> O)
          by (intros Hc; apply SplitByte_second in Hc; congruence)
    end;
    (split;
     [split; intros; first [reflexivity | congruence | discriminate]|]);
    intros ev Hev p image Hcmd; in_trace; cbn in Hcmd;
    try discriminate Hcmd;
    injection Hcmd as <- <-; eauto.
Qed.

(** The identifier used for the port query and for the removal is the
    whole trimmed output of the probe. *)
Lemma probe_output_is_identifier (repoURL : url.URL) (w : W) (out : string) :
  In (succeeded (docker_ps (imageName repoURL)) out)
     (trace (fst (run (CloneAndBuild H repoURL) w))) ->
  forall e id, In e (trace (fst (run (CloneAndBuild H repoURL) w))) ->
    ev_cmd e = docker_port id \/ ev_cmd e = docker_rm id ->
    id = strings.TrimSpace out.
Proof.
  run_cases H (run (CloneAndBuild H repoURL) w);
    intros Hin; in_trace;
    intros ev id' Hev [Hcmd|Hcmd]; in_trace; cbn in Hcmd;
    first [discriminate Hcmd | injection Hcmd as <-; reflexivity].
Qed.

(** A run that returns [nil] made every call without an error, in one of
    two ways: the probe printed nothing and a port was scanned for, or it
    printed an identifier whose port was read and whose container was
    removed. *)
Lemma CloneAndBuild_success (repoURL : url.URL) (w : W) (st' : St W) :
  run (CloneAndBuild H repoURL) w = (st', Return tt) ->
  exists tempDir w1 w2 w3 w4 w5 cloneOut rev buildOut psOut,
    MkdirTemp H w = (w1, (tempDir, None))
    /\ Exec H (git_clone repoURL tempDir) w1 = (w2, (cloneOut, None))
    /\ StatIsNotExist H (filepath.Join tempDir "Dockerfile") w2 = false
    /\ Exec H (git_rev_parse tempDir) w2 = (w3, (rev, None))
    /\ Exec H (docker_build (imageFullName repoURL (strings.TrimSpace rev))
                            tempDir) w3 = (w4, (buildOut, None))
    /\ Exec H (docker_ps (imageName repoURL)) w4 = (w5, (psOut, None))
    /\ let image := imageFullName repoURL (strings.TrimSpace rev) in
       let id := strings.TrimSpace psOut in
       let fetched :=
         [succeeded (git_clone repoURL tempDir) cloneOut;
          succeeded (git_rev_parse tempDir) rev;
          succeeded (docker_build image tempDir) buildOut;
          succeeded (docker_ps (imageName repoURL)) psOut] in
       (id = ""
        /\ exists w6 w7 port runOut,
            findFreePort H {| world := w5; trace := fetched |}
              = ({| world := w6; trace := fetched |}, Return port)
            /\ Exec H (docker_run port image) w6 = (w7, (runOut, None))
            /\ st' = {| world := RemoveAll H tempDir w7;
                        trace := fetched
                                 ++ [succeeded (docker_run port image) runOut] |})
       \/
       (id <> ""
        /\ exists w6 w7 w8 portOut field port rmOut runOut,
            Exec H (docker_port id) w5 = (w6, (portOut, None))
            /\ nth_error (strings.SplitByte (strings.TrimSpace portOut) ":") 1
               = Some field
            /\ strconv.Atoi field = Ok port
            /\ Exec H (docker_rm id) w6 = (w7, (rmOut, None))
            /\ Exec H (docker_run port image) w7 = (w8, (runOut, None))
            /\ st' = {| world := RemoveAll H tempDir w8;
                        trace := fetched
                                 ++ [succeeded (docker_port id) portOut;
                                     succeeded (docker_rm id) rmOut;
                                     succeeded (docker_run port image) runOut] |}).
Proof.
  run_cases H (run (CloneAndBuild H repoURL) w);
    intros Hrun; try discriminate Hrun;
    injection Hrun as <-;
    do 10 eexists; (do 6 (split; [reflexivity || eassumption|])); cbn zeta.
  - left. split.
    + now apply String.eqb_eq.
    + do 4 eexists. repeat (split; [eassumption|]). reflexivity.
  - right. split.
    + now apply String.eqb_neq.
    + do 8 eexists. repeat (split; [eassumption|]). reflexivity.
Qed.

(** Once the directory is created, the clone is the first process of the
    run. *)
Lemma CloneAndBuild_starts_with_clone (repoURL : url.URL) (w w1 : W)
      (tempDir : string) :
  MkdirTemp H w = (w1, (tempDir, None)) ->
  exists out err rest,
    trace (fst (run (CloneAndBuild H repoURL) w))
    = {| ev_cmd := git_clone repoURL tempDir;
         ev_output := out; ev_err := err |} :: rest.
Proof.
  run_cases H (run (CloneAndBuild H repoURL) w);
    intros Hmk; try discriminate Hmk;
    injection Hmk as <- <-; do 3 eexists; reflexivity.
Qed.

(** The build tool is started only after the check for the [Dockerfile]
    has passed. *)
Lemma build_only_after_check (repoURL : url.URL) (w : W) :
  existsb is_build (trace (fst (run (CloneAndBuild H repoURL) w))) = true ->
  exists w1 w2 tempDir out,
    MkdirTemp H w = (w1, (tempDir, None))
    /\ Exec H (git_clone repoURL tempDir) w1 = (w2, (out, None))
    /\ StatIsNotExist H (filepath.Join tempDir "Dockerfile") w2 = false.
Proof.
  run_cases H (run (CloneAndBuild H repoURL) w);
    cbn [existsb is_build ev_cmd orb]; intros Hb; try discriminate Hb;
    do 4 eexists; repeat split; eassumption.
Qed.

End Pipeline.

(** ** The handler on every host *)
Section Handler.
Context {W : Type} (H : Host W).

Lemma handleDeploy_rejected (r : Request) (w : W) :
  rejected r ->
  exists resp,
    run (handleDeploy H r) w = ({| world := w; trace := [] |}, Return resp)
    /\ StatusCode resp = StatusBadRequest.
Proof.
  unfold rejected, run, handleDeploy.
  destruct (decodeRequestPayload (Body r) {| URL := "" |}) as [payload [e|]];
    cbn [fst snd].
  - intros _. eexists. split; reflexivity.
  - intros [Hd|Hp]; [congruence|].
    destruct (url.Parse (URL payload)); [discriminate|].
    eexists. split; reflexivity.
Qed.

(** A request that is not turned away is answered by the pipeline: 200
    when it returns [nil], 500 when it returns an error, no response when
    it panics (the server then closes the connection). *)
Lemma handleDeploy_accepted (r : Request) (w : W) :
  ~ rejected r ->
  exists parsedURL,
    url.Parse (URL (fst (decodeRequestPayload (Body r) {| URL := "" |})))
      = Ok parsedURL
    /\ fst (run (handleDeploy H r) w)
       = fst (run (CloneAndBuild H parsedURL) w)
    /\ snd (run (handleDeploy H r) w)
       = match snd (run (CloneAndBuild H parsedURL) w) with
         | Return _ => Return processed
         | Fail _ => Return (http_Error "Internal server error"
                                        StatusInternalServerError)
         | Panic msg => Panic msg
         end.
Proof.
  unfold rejected, run, handleDeploy.
  destruct (decodeRequestPayload (Body r) {| URL := "" |}) as [payload [e|]];
    cbn [fst snd].
  - intros Hn. exfalso. apply Hn. left. discriminate.
  - destruct (url.Parse (URL payload)) as [parsedURL|e].
    + intros _. exists parsedURL. split; [reflexivity|].
      unfold bind, returned_error, ret.
      destruct (CloneAndBuild H parsedURL {| world := w; trace := [] |})
        as [s' [[]|e|msg]]; split; reflexivity.
    + intros Hn. exfalso. apply Hn. right. reflexivity.
Qed.

Lemma rejected_dec (r : Request) : rejected r \/ ~ rejected r.
Proof.
  unfold rejected.
  destruct (decodeRequestPayload (Body r) {| URL := "" |}) as [payload [e|]];
    cbn [fst snd].
  - left. left. discriminate.
  - destruct (url.Parse (URL payload)).
    + right. intros [Hn|Hn]; [congruence|discriminate].
    + left. right. reflexivity.
Qed.

(** Status 400 is the answer to the requests turned away and to no
    other. *)
Lemma handleDeploy_400_only_rejected (r : Request) (w : W) (resp : Response) :
  snd (run (handleDeploy H r) w) = Return resp ->
  StatusCode resp = StatusBadRequest ->
  rejected r.
Proof.
  intros Hrun Hst.
  destruct (rejected_dec r) as [Hr|Hr]; [exact Hr|].
  destruct (handleDeploy_accepted r w Hr) as (u & _ & _ & Hres).
  rewrite Hres in Hrun.
  destruct (snd (run (CloneAndBuild H u) w));
    [injection Hrun as <-|injection Hrun as <-|]; discriminate.
Qed.

End Handler.

(** [url.Parse] takes the text [not a url] for a relative path. *)
Lemma not_a_url_parses :
  url.Parse "not a url"
  = Ok {| url.Scheme := ""; url.Opaque := ""; url.User := None;
          url.Host := ""; url.Path := "not a url"; url.OmitHost := false;
          url.ForceQuery := false; url.RawQuery := ""; url.Fragment := "" |}.
Proof. reflexivity. Qed.

Lemma not_a_url_accepted : ~ rejected (request_for "not a url").
Proof.
  unfold rejected. cbn. intros [Hn|Hn]; [congruence|discriminate].
Qed.

(** Members that do not name the field leave it as it is. *)
Lemma object_no_member {T : Type} (name : string)
      (store : json.Value -> T -> result T)
      (members : list (string * json.Value)) (cur : T) (saved : option error) :
  (forall key v, In (key, v) members -> json.key_matches key name = false) ->
  json.object name store members cur saved = (cur, saved).
Proof.
  induction members as [|[key v] rest IH]; intros Hno; [reflexivity|].
  cbn [json.object].
  rewrite (Hno key v) by (left; reflexivity).
  apply IH. intros k' v' Hin. apply (Hno k' v'). right. exact Hin.
Qed.

(** ** Facts on the reference host *)
Module RefFacts.
Import Ref.

Lemma dir_exists_remove_dir (d : string) (w : World) :
  dir_exists (remove_dir d w) d = false.
Proof.
  unfold dir_exists, lookup_dir, remove_dir. cbn.
  destruct (find _ _) as [e|] eqn:Hf; [|reflexivity].
  apply find_some in Hf. destruct Hf as [Hin Heq].
  apply filter_In in Hin. destruct Hin as [_ Hne].
  rewrite Heq in Hne. discriminate.
Qed.

Lemma port_bound_held (w : World) (p : Z) :
  port_bound w p = false -> ~ In p (held w).
Proof.
  unfold port_bound. intros Hb Hin.
  apply orb_false_elim in Hb. destruct Hb as [Hb _].
  apply orb_false_elim in Hb. destruct Hb as [_ Hb].
  assert (existsb (Z.eqb p) (held w) = true); [|congruence].
  apply existsb_exists. exists p. split; [exact Hin|apply Z.eqb_refl].
Qed.

(** A bind that succeeds and is closed at once leaves the machine as it
    was. *)
Lemma listen_close (w : World) (p : Z) :
  port_bound w p = false ->
  Close host p (fst (Listen host p w)) = w /\ snd (Listen host p w) = None.
Proof.
  intros Hb. cbn. rewrite Hb. cbn. split; [|reflexivity].
  unfold set_held. cbn.
  destruct (Z.eq_dec p p) as [_|Hn]; [|congruence].
  rewrite notin_remove by (apply port_bound_held; exact Hb).
  destruct w; reflexivity.
Qed.

Lemma listen_bound (w : World) (p : Z) :
  port_bound w p = true ->
  exists e, Listen host p w = (w, Some e).
Proof. intros Hb. cbn. rewrite Hb. eauto. Qed.

(** The scan of [n] ports from [port]: the lowest port that is not bound, or
    the error when all of them are bound; the machine is left as it was. *)
Lemma scan_lowest_free (n : nat) (port : Z) (s : St World) :
  (exists p,
      findFreePort_loop host n port s = (s, Return p)
      /\ port <= p < port + Z.of_nat n
      /\ port_bound (world s) p = false
      /\ forall q, port <= q < p -> port_bound (world s) q = true)
  \/ (findFreePort_loop host n port s = (s, Fail no_free_ports)
      /\ forall q, port <= q < port + Z.of_nat n ->
                   port_bound (world s) q = true).
Proof.
  revert port.
  induction n as [|k IH]; intros port.
  - right. split; [reflexivity|]. intros q Hq. lia.
  - cbn [findFreePort_loop].
    unfold bind, net_Listen, listener_Close, lift, ret.
    destruct (port_bound (world s) port) eqn:Hb.
    + destruct (listen_bound _ _ Hb) as (e & HL). rewrite HL.
      replace {| world := world s; trace := trace s |} with s
        by (destruct s; reflexivity).
      destruct (IH (port + 1)) as [(p & Hrun & Hp & Hfree & Hlow)|(Hrun & Hall)].
      * left. exists p. split; [exact Hrun|].
        split; [lia|]. split; [exact Hfree|].
        intros q Hq. destruct (Z.eq_dec q port) as [->|Hne]; [exact Hb|].
        apply Hlow. lia.
      * right. split; [exact Hrun|].
        intros q Hq. destruct (Z.eq_dec q port) as [->|Hne]; [exact Hb|].
        apply Hall. lia.
    + destruct (listen_close _ _ Hb) as (Hw & Herr).
      destruct (Listen host port (world s)) as [w1 err] eqn:HL.
      cbn [fst snd] in Hw, Herr. subst err. cbn [world trace].
      rewrite Hw.
      replace {| world := world s; trace := trace s |} with s
        by (destruct s; reflexivity).
      left. exists port. split; [reflexivity|].
      split; [lia|]. split; [exact Hb|]. intros q Hq. lia.
Qed.

(** [findFreePort] on the reference host. *)
Lemma findFreePort_lowest_free (s : St World) :
  (exists p,
      findFreePort host s = (s, Return p)
      /\ 3000 <= p <= 65535
      /\ port_bound (world s) p = false
      /\ forall q, 3000 <= q < p -> port_bound (world s) q = true)
  \/ (findFreePort host s = (s, Fail no_free_ports)
      /\ forall q, 3000 <= q <= 65535 -> port_bound (world s) q = true).
Proof.
  unfold findFreePort.
  destruct (scan_lowest_free (Z.to_nat (65535 - 3000 + 1)) 3000 s)
    as [(p & Hrun & Hp & Hfree & Hlow)|(Hrun & Hall)];
    rewrite Z2Nat.id in * by lia.
  - left. exists p. repeat split; try assumption; lia.
  - right. split; [exact Hrun|]. intros q Hq. apply Hall. lia.
Qed.

(** *** What each call does to the machine *)

Lemma same_runtime_refl (w : World) : same_runtime w w.
Proof. repeat split. Qed.

Lemma same_runtime_trans (w1 w2 w3 : World) :
  same_runtime w1 w2 -> same_runtime w2 w3 -> same_runtime w1 w3.
Proof.
  unfold same_runtime. intros (A1 & A2 & A3 & A4 & A5) (B1 & B2 & B3 & B4 & B5).
  repeat split; congruence.
Qed.

Lemma same_runtime_port_bound (w w' : World) (p : Z) :
  same_runtime w w' -> port_bound w' p = port_bound w p.
Proof.
  unfold same_runtime, port_bound. intros (-> & -> & -> & _). reflexivity.
Qed.

Lemma same_runtime_put_dir (d : string) (t : option Checkout) (w : World) :
  same_runtime w (put_dir d t w).
Proof. repeat split. Qed.

Lemma same_runtime_remove_dir (d : string) (w : World) :
  same_runtime w (remove_dir d w).
Proof. repeat split. Qed.

Lemma lookup_put_dir (d : string) (t : option Checkout) (w : World) :
  lookup_dir (put_dir d t w) d = Some t.
Proof.
  unfold lookup_dir, put_dir. cbn. now rewrite String.eqb_refl.
Qed.

Lemma mkdir_ok (w w1 : World) (d : string) :
  MkdirTemp host w = (w1, (d, None)) -> w1 = put_dir d None w.
Proof.
  cbn. destruct (scratch w); intros Heq; [|discriminate].
  now injection Heq as <- <-.
Qed.

Lemma clone_ok (u : url.URL) (d out : string) (w w' : World) :
  Exec host (git_clone u d) w = (w', (out, None)) ->
  exists t, remote w u = Some t /\ w' = put_dir d (Some t) w.
Proof.
  cbn. unfold exec. destruct (broken w _); [discriminate|].
  destruct (remote w u) as [t|]; intros Heq; [|discriminate].
  injection Heq as <- _. eauto.
Qed.

Lemma rev_parse_ok (d out : string) (w w' : World) :
  Exec host (git_rev_parse d) w = (w', (out, None)) ->
  w' = w /\ exists t, lookup_dir w d = Some (Some t) /\ out = head t ++ newline.
Proof.
  cbn. unfold exec. destruct (broken w _); [discriminate|].
  destruct (lookup_dir w d) as [[t|]|]; intros Heq; try discriminate.
  injection Heq as <- <-. eauto.
Qed.

Lemma build_ok (tag d out : string) (w w' : World) :
  Exec host (docker_build tag d) w = (w', (out, None)) -> w' = w.
Proof.
  cbn. unfold exec. destruct (broken w _); [discriminate|].
  destruct (lookup_dir w d) as [[t|]|]; try discriminate.
  destruct (has_dockerfile t); intros Heq; [|discriminate].
  now injection Heq as <- _.
Qed.

Lemma ps_ok (name out : string) (w w' : World) :
  Exec host (docker_ps name) w = (w', (out, None)) ->
  w' = w
  /\ out = String.concat ""
             (map (fun id => id ++ newline)
                  (map cid (filter (of_image name) (containers w)))).
Proof.
  cbn. unfold exec. destruct (broken w _); [discriminate|].
  intros Heq. injection Heq as <- <-. rewrite map_map. auto.
Qed.

Lemma port_ok (id out : string) (w w' : World) :
  Exec host (docker_port id) w = (w', (out, None)) ->
  w' = w
  /\ exists c, find_container w id = Some c
               /\ out = match cport c with
                        | Some p => port_line p
                        | None => ""
                        end.
Proof.
  cbn. unfold exec. destruct (broken w _); [discriminate|].
  destruct (find_container w id) as [c|]; intros Heq; [|discriminate].
  injection Heq as <- <-. eauto.
Qed.

Lemma rm_ok (id out : string) (w w' : World) :
  Exec host (docker_rm id) w = (w', (out, None)) ->
  w' = set_containers w
         (filter (fun c => negb (String.eqb (cid c) id)) (containers w))
         (fresh_ids w).
Proof.
  cbn. unfold exec. destruct (broken w _); [discriminate|].
  destruct (find_container w id) as [c|]; intros Heq; [|discriminate].
  now injection Heq as <- _.
Qed.

Lemma run_ok (port : Z) (image out : string) (w w' : World) :
  Exec host (docker_run port image) w = (w', (out, None)) ->
  exists id ids,
    fresh_ids w = id :: ids
    /\ 1 <= port <= 65535
    /\ port_bound w port = false
    /\ w' = set_containers w
              ({| cid := id; cimage := image; cport := Some port |}
               :: containers w) ids.
Proof.
  cbn. unfold exec. destruct (broken w _); [discriminate|].
  destruct (fresh_ids w) as [|id ids]; [discriminate|].
  destruct ((1 <=? port) && (port <=? 65535) && negb (port_bound w port))
    eqn:Hok; intros Heq; [|discriminate].
  injection Heq as <- _.
  apply andb_true_iff in Hok. destruct Hok as [Hr Hb].
  apply andb_true_iff in Hr. destruct Hr as [Hlo Hhi].
  apply negb_true_iff in Hb.
  exists id, ids. repeat split; try assumption; lia.
Qed.

(** *** The machine as the pipeline finds it when it looks for a port *)

(** From the creation of the directory to the probe, the calls change the
    directories only. *)
Lemma fetch_and_build_frame
      (u : url.URL) (w w1 w2 w3 w4 w5 : World)
      (tempDir cloneOut rev tag buildOut psOut : string) :
  MkdirTemp host w = (w1, (tempDir, None)) ->
  Exec host (git_clone u tempDir) w1 = (w2, (cloneOut, None)) ->
  Exec host (git_rev_parse tempDir) w2 = (w3, (rev, None)) ->
  Exec host (docker_build tag tempDir) w3 = (w4, (buildOut, None)) ->
  Exec host (docker_ps (imageName u)) w4 = (w5, (psOut, None)) ->
  same_runtime w w5
  /\ (exists t, remote w u = Some t /\ rev = head t ++ newline)
  /\ psOut = String.concat ""
               (map (fun id => id ++ newline)
                    (map cid (filter (of_image (imageName u)) (containers w)))).
Proof.
  intros Hmk Hcl Hrev Hb Hps.
  apply mkdir_ok in Hmk. subst w1.
  apply clone_ok in Hcl. destruct Hcl as (t & Hrem & ->).
  apply rev_parse_ok in Hrev. destruct Hrev as (-> & t' & Hlook & ->).
  rewrite lookup_put_dir in Hlook. injection Hlook as <-.
  apply build_ok in Hb. subst w4.
  apply ps_ok in Hps. destruct Hps as (-> & ->).
  split; [|split].
  - eapply same_runtime_trans; apply same_runtime_put_dir.
  - exists t. split; [exact Hrem|reflexivity].
  - reflexivity.
Qed.

(** *** Containers and their identifiers *)

Lemma filter_comm {A : Type} (f g : A -> bool) (l : list A) :
  filter f (filter g l) = filter g (filter f l).
Proof.
  induction l as [|a l IH]; [reflexivity|].
  cbn. destruct (f a) eqn:Hf, (g a) eqn:Hg; cbn; rewrite ?Hf, ?Hg, IH;
    reflexivity.
Qed.

Lemma NoDup_map_eq {A B : Type} (f : A -> B) (l : list A) (a b : A) :
  NoDup (map f l) -> In a l -> In b l -> f a = f b -> a = b.
Proof.
  induction l as [|x l IH]; [contradiction|].
  cbn. intros Hnd Ha Hb Heq. inversion Hnd as [|y m Hnotin Hnd']; subst.
  destruct Ha as [->|Ha], Hb as [->|Hb].
  - reflexivity.
  - exfalso. apply Hnotin. rewrite Heq. now apply in_map.
  - exfalso. apply Hnotin. rewrite <- Heq. now apply in_map.
  - now apply IH.
Qed.

Lemma find_container_some (w : World) (id : string) (c : Container) :
  find_container w id = Some c -> In c (containers w) /\ cid c = id.
Proof.
  unfold find_container. intros Hf. apply find_some in Hf.
  destruct Hf as [Hin Heq]. split; [exact Hin|now apply String.eqb_eq].
Qed.

(** Among well-formed containers, the probe's trimmed output is the
    identifier of a container only when one container is listed: that
    one. *)
Lemma probe_single (w : World) (name : string) (c : Container) :
  well_formed w ->
  In c (containers w) ->
  cid c = strings.TrimSpace
            (String.concat ""
               (map (fun id => id ++ newline)
                    (map cid (filter (of_image name) (containers w))))) ->
  filter (of_image name) (containers w) <> [] ->
  filter (of_image name) (containers w) = [c].
Proof.
  intros (Hvalid & Hnodup & _) Hin Hid Hne.
  set (ms := filter (of_image name) (containers w)) in *.
  assert (Hms : forall m, In m ms -> In m (containers w)).
  { intros m Hm. apply filter_In in Hm. tauto. }
  rewrite TrimSpace_lines in Hid.
  - destruct ms as [|m1 [|m2 rest]]; [congruence| |].
    + cbn in Hid. f_equal. symmetry.
      apply (NoDup_map_eq cid (containers w)); auto.
      apply Hms. now left.
    + exfalso.
      apply (join_lines_break (cid m1) (cid m2) (map cid rest)).
      cbn [map] in Hid. rewrite <- Hid.
      apply valid_id_no_byte; [now apply Hvalid|reflexivity].
  - destruct ms; [congruence|discriminate].
  - intros l Hl. apply in_map_iff in Hl. destruct Hl as (m & <- & Hm).
    apply Hvalid, Hms, Hm.
Qed.

(** With a container listed, the trimmed output is not empty. *)
Lemma probe_not_empty (w : World) (name : string) :
  well_formed w ->
  filter (of_image name) (containers w) <> [] ->
  strings.TrimSpace
    (String.concat ""
       (map (fun id => id ++ newline)
            (map cid (filter (of_image name) (containers w))))) <> "".
Proof.
  intros (Hvalid & _) Hne.
  set (ms := filter (of_image name) (containers w)) in *.
  assert (Hall : forall l, In l (map cid ms) -> valid_id l = true).
  { intros l Hl. apply in_map_iff in Hl. destruct Hl as (m & <- & Hm).
    apply Hvalid. apply filter_In in Hm. tauto. }
  assert (Hne' : map cid ms <> []) by (destruct ms; [congruence|discriminate]).
  rewrite TrimSpace_lines by assumption.
  destruct (join_lines_plain (map cid ms) Hne' Hall) as [Hs _].
  intros Heq. rewrite Heq in Hs. discriminate.
Qed.

End RefFacts.

(** * The claims *)




(** C2, as the code has it.  A request is turned away when its body does
    not decode or when [url.Parse] returns an error for its URL: then, and
    only then, the answer is 400, no process is started and the machine is
    not touched.  The body [{"url": "not a url"}] is not turned away:
    [url.Parse] reads [not a url] as a relative path, the pipeline runs
    ([git clone] is started as soon as the directory is created) and the
    answer is 200 or 500. *)
Theorem C2_bad_request_starts_nothing
        (W : Type) (H : Host W) (r : Request) (w : W) :
  (rejected r ->
   exists resp,
     run (handleDeploy H r) w = ({| world := w; trace := [] |}, Return resp)
     /\ StatusCode resp = StatusBadRequest)
  /\ (forall resp,
        snd (run (handleDeploy H r) w) = Return resp ->
        StatusCode resp = StatusBadRequest ->
        rejected r)
  /\ ~ rejected (request_for "not a url")
  /\ (forall resp,
        snd (run (handleDeploy H (request_for "not a url")) w) = Return resp ->
        StatusCode resp = StatusOK
        \/ StatusCode resp = StatusInternalServerError)
  /\ (forall w1 tempDir,
        MkdirTemp H w = (w1, (tempDir, None)) ->
        exists e rest,
          trace (fst (run (handleDeploy H (request_for "not a url")) w))
            = e :: rest
          /\ exists u, ev_cmd e = git_clone u tempDir
                       /\ url.Parse "not a url" = Ok u).
Proof.
  split; [|split; [|split; [|split]]].
  - apply handleDeploy_rejected.
  - intros resp. apply handleDeploy_400_only_rejected.
  - exact not_a_url_accepted.
  - intros resp Hresp.
    destruct (handleDeploy_accepted H _ w not_a_url_accepted)
      as (u & _ & _ & Hsnd).
    rewrite Hsnd in Hresp.
    destruct (snd (run (CloneAndBuild H u) w));
      [injection Hresp as <-; now left
      |injection Hresp as <-; now right
      |discriminate].
  - intros w1 tempDir Hmk.
    destruct (handleDeploy_accepted H _ w not_a_url_accepted)
      as (u & Hparse & Hfst & _).
    rewrite Hfst.
    destruct (CloneAndBuild_starts_with_clone H u w w1 tempDir Hmk)
      as (out & err & rest & ->).
    eexists _, rest. split; [reflexivity|].
    exists u. split; [reflexivity|exact Hparse].
Qed.

(** C2 as stated fails at its example: on the sample machine the request
    with the body [{"url": "not a url"}] starts [git clone] and is answered
    with 500. *)
Lemma C2_counterexample : ~ not_a_url_is_refused.
Proof.
  intros Hclaim.
  destruct (Hclaim (Sample.machine [] [])) as [_ Htr].
  vm_compute in Htr. discriminate Htr.
Qed.

(** C3. On a well-formed machine that runs a container [prior] of the
    project's image name, published on the host port [P], every deploy
    that goes through ends with one running container of that image name:
    the new one, started from the new image reference and published on the
    same port [P]; the identifier of [prior] is not among the running
    containers any more; and [docker rm -f] of [prior] comes before the
    [docker run], which is the last process of the run and the only
    [docker run] of it. *)
Theorem C3_redeploy_replaces_instance_on_same_port
        (repoURL : url.URL) (w : Ref.World) (prior : Ref.Container) (P : Z)
        (st' : St Ref.World) :
  well_formed w ->
  (forall t, Ref.remote w repoURL = Some t -> valid_id (Ref.head t) = true) ->
  In prior (Ref.containers w) ->
  Ref.of_image (imageName repoURL) prior = true ->
  Ref.cport prior = Some P ->
  1 <= P <= 65535 ->
  run (CloneAndBuild Ref.host repoURL) w = (st', Return tt) ->
  exists new tag before rmOut runOut,
    filter (Ref.of_image (imageName repoURL)) (Ref.containers (world st'))
      = [new]
    /\ Ref.cport new = Some P
    /\ Ref.cimage new = imageFullName repoURL tag
    /\ ~ In (Ref.cid prior) (map Ref.cid (Ref.containers (world st')))
    /\ trace st'
       = (before
          ++ [succeeded (docker_rm (Ref.cid prior)) rmOut;
              succeeded (docker_run P (imageFullName repoURL tag)) runOut])%list
    /\ existsb is_run before = false.
Proof.
  intros Hwf Hhead Hin Himg Hport HP Hrun.
  destruct (CloneAndBuild_success Ref.host repoURL w st' Hrun)
    as (tempDir & w1 & w2 & w3 & w4 & w5 & cloneOut & rev & buildOut & psOut
        & Hmk & Hcl & _ & Hrev & Hb & Hps & Hcases).
  destruct (RefFacts.fetch_and_build_frame repoURL w w1 w2 w3 w4 w5 _ _ _ _ _ _
              Hmk Hcl Hrev Hb Hps)
    as (Hframe & (t & Hrem & ->) & ->).
  assert (Htag : strings.TrimSpace (Ref.head t ++ Ref.newline) = Ref.head t).
  { specialize (Hhead t Hrem).
    apply TrimSpace_line;
      [now apply valid_id_starts_plain|now apply valid_id_ends_plain]. }
  rewrite Htag in *.
  assert (Hlisted : filter (Ref.of_image (imageName repoURL)) (Ref.containers w)
                    <> []).
  { intros Hnil.
    assert (Hp : In prior (filter (Ref.of_image (imageName repoURL))
                                  (Ref.containers w)))
      by (apply filter_In; auto).
    rewrite Hnil in Hp. exact Hp. }
  cbn zeta in Hcases.
  destruct Hcases as [(Hid & _)
                     |(Hid & w6 & w7 & w8 & portOut & field & port & rmOut
                       & runOut & Hpq & Hfield & Hatoi & Hrm & Hrunc & ->)].
  { exfalso. exact (RefFacts.probe_not_empty w _ Hwf Hlisted Hid). }
  destruct Hframe as (Hl & Hh & Hc & Hf & Hr).
  (* the port query names one container: the prior one *)
  apply RefFacts.port_ok in Hpq. destruct Hpq as (-> & c & Hfind & ->).
  apply RefFacts.find_container_some in Hfind. destruct Hfind as [Hcin Hcid].
  rewrite Hc in Hcin.
  pose proof (RefFacts.probe_single w (imageName repoURL) c Hwf Hcin Hcid Hlisted)
    as Hsingle.
  assert (c = prior).
  { assert (Hp : In prior (filter (Ref.of_image (imageName repoURL))
                                  (Ref.containers w)))
      by (apply filter_In; auto).
    rewrite Hsingle in Hp. destruct Hp as [Hp|[]]. exact Hp. }
  subst c. rewrite <- Hcid in *. rewrite Hport in Hfield.
  (* the port read back is P *)
  rewrite port_line_field in Hfield. injection Hfield as <-.
  rewrite Atoi_Itoa in Hatoi by lia. injection Hatoi as <-.
  (* the removal and the start *)
  apply RefFacts.rm_ok in Hrm. subst w7.
  apply RefFacts.run_ok in Hrunc.
  destruct Hrunc as (id & ids & Hfresh & _ & _ & ->).
  cbn [Ref.fresh_ids Ref.set_containers Ref.containers] in Hfresh.
  exists {| Ref.cid := id;
            Ref.cimage := imageFullName repoURL (Ref.head t);
            Ref.cport := Some P |}, (Ref.head t).
  eexists _, rmOut, runOut.
  change (RemoveAll Ref.host tempDir) with (Ref.remove_dir tempDir).
  cbn [world trace Ref.containers Ref.set_containers Ref.remove_dir
       Ref.set_dirs Ref.cport Ref.cimage].
  rewrite Hc.
  split; [|split; [reflexivity|split; [reflexivity|split; [|split]]]].
  - cbn [filter]. unfold Ref.of_image at 1. cbn [Ref.cimage].
    unfold imageFullName at 1.
    rewrite ref_name_tagged by (apply Hhead; exact Hrem).
    rewrite String.eqb_refl. f_equal.
    rewrite RefFacts.filter_comm, Hsingle. cbn.
    now rewrite String.eqb_refl.
  - cbn [map Ref.cid]. intros [Heq|Hold].
    + destruct Hwf as (_ & _ & Hnew).
      apply (Hnew id).
      * rewrite <- Hf, Hfresh. now left.
      * rewrite Heq. now apply in_map.
    + apply in_map_iff in Hold. destruct Hold as (c & Heq & Hc').
      apply filter_In in Hc'. destruct Hc' as [_ Hne].
      rewrite Heq, String.eqb_refl in Hne. discriminate.
  - rewrite Hport. cbn [app].
    exact (eq_refl ([_; _; _; _; _] ++ [_; _])%list).
  - reflexivity.
Qed.

(** C3 on the sample machine that runs the container [a1b2c3] of an
    earlier revision on port 3005. *)
Lemma C3_witness :
  let st' := fst (run (CloneAndBuild Ref.host Sample.repo)
                      (Sample.machine [] [Sample.earlier])) in
  exists new tag before rmOut runOut,
    filter (Ref.of_image (imageName Sample.repo)) (Ref.containers (world st'))
      = [new]
    /\ Ref.cport new = Some 3005
    /\ Ref.cimage new = imageFullName Sample.repo tag
    /\ ~ In "a1b2c3" (map Ref.cid (Ref.containers (world st')))
    /\ trace st'
       = (before
          ++ [succeeded (docker_rm "a1b2c3") rmOut;
              succeeded (docker_run 3005 (imageFullName Sample.repo tag))
                        runOut])%list
    /\ existsb is_run before = false.
Proof.
  apply (C3_redeploy_replaces_instance_on_same_port
           Sample.repo (Sample.machine [] [Sample.earlier]) Sample.earlier 3005).
  - split; [|split].
    + intros c [<-|[]]. reflexivity.
    + cbn. constructor; [intros []|constructor].
    + cbn. intros id [<-|[<-|[]]] [Heq|[]]; discriminate Heq.
  - intros t Heq. vm_compute in Heq. injection Heq as <-. reflexivity.
  - left. reflexivity.
  - reflexivity.
  - reflexivity.
  - lia.
  - vm_compute. reflexivity.
Defined.

(** C4. When the cloned workspace has no [Dockerfile] at its root, the run
    ends at the check with the error [dockerfile not found in repository];
    the clone is the only process started, so the build tool is not
    invoked.  The error is distinct: no other exit of [CloneAndBuild]
    returns it.  And the check comes before any build: in every run that
    starts the build tool, the check has found the file. *)
Theorem C4_missing_dockerfile_aborts_before_build
        (W : Type) (H : Host W) (repoURL : url.URL) (w w1 w2 : W)
        (tempDir out : string) :
  MkdirTemp H w = (w1, (tempDir, None)) ->
  Exec H (git_clone repoURL tempDir) w1 = (w2, (out, None)) ->
  StatIsNotExist H (filepath.Join tempDir "Dockerfile") w2 = true ->
  let r := run (CloneAndBuild H repoURL) w in
  snd r = Fail (errorString "dockerfile not found in repository")
  /\ trace (fst r) = [succeeded (git_clone repoURL tempDir) out]
  /\ existsb is_build (trace (fst r)) = false
  /\ (forall (u : url.URL) (w' : W),
        snd (run (CloneAndBuild H u) w')
          = Fail (errorString "dockerfile not found in repository") ->
        exists w1' w2' tempDir' out',
          MkdirTemp H w' = (w1', (tempDir', None))
          /\ Exec H (git_clone u tempDir') w1' = (w2', (out', None))
          /\ StatIsNotExist H (filepath.Join tempDir' "Dockerfile") w2' = true)
  /\ (forall (u : url.URL) (w' : W),
        existsb is_build (trace (fst (run (CloneAndBuild H u) w'))) = true ->
        exists w1' w2' tempDir' out',
          MkdirTemp H w' = (w1', (tempDir', None))
          /\ Exec H (git_clone u tempDir') w1' = (w2', (out', None))
          /\ StatIsNotExist H (filepath.Join tempDir' "Dockerfile") w2' = false).
Proof.
  intros Hmk Hcl Hst r. subst r.
  rewrite (CloneAndBuild_no_dockerfile H repoURL w w1 w2 tempDir out Hmk Hcl Hst).
  repeat split.
  - intros u w'. apply dockerfile_error_distinct.
  - intros u w'. apply build_only_after_check.
Qed.

(** C4 on the sample machine, for the repository without a [Dockerfile]. *)
Lemma C4_witness :
  let bare := {| url.Scheme := "https"; url.Opaque := ""; url.User := None;
                 url.Host := "github.com"; url.Path := "/user/bare";
                 url.OmitHost := false; url.ForceQuery := false;
                 url.RawQuery := ""; url.Fragment := "" |} in
  let r := run (CloneAndBuild Ref.host bare) (Sample.machine [] []) in
  snd r = Fail (errorString "dockerfile not found in repository")
  /\ trace (fst r) = [succeeded (git_clone bare "/tmp/repo-1") ""]
  /\ existsb is_build (trace (fst r)) = false.
Proof.
  intros bare.
  pose proof (C4_missing_dockerfile_aborts_before_build
                Ref.World Ref.host bare (Sample.machine [] []) _ _
                "/tmp/repo-1" "" eq_refl eq_refl eq_refl) as Hc.
  cbn zeta in Hc.
  destruct Hc as (Hres & Htr & Hb & _).
  exact (conj Hres (conj Htr Hb)).
Defined.

(** C5. The image reference of a deploy is a function of the URL and of
    the revision fetched: every reference a run hands to the build tool or
    to the runtime is the URL's host and path, a colon, and the trimmed
    output of [rev-parse --short HEAD].  Two runs for the same URL that
    fetch the same revision, on any two hosts in any two states, use the
    same reference. *)
Theorem C5_image_ref_is_function_of_url_and_revision
        (W1 W2 : Type) (H1 : Host W1) (H2 : Host W2) (repoURL : url.URL)
        (w1 : W1) (w2 : W2) (rev ref1 ref2 : string) :
  let tr1 := trace (fst (run (CloneAndBuild H1 repoURL) w1)) in
  let tr2 := trace (fst (run (CloneAndBuild H2 repoURL) w2)) in
  fetched_revision tr1 = Some rev ->
  fetched_revision tr2 = Some rev ->
  In ref1 (image_refs tr1) ->
  In ref2 (image_refs tr2) ->
  ref1 = (url.Host repoURL ++ url.Path repoURL) ++ ":" ++ rev
  /\ ref2 = ref1.
Proof.
  intros tr1 tr2 Hr1 Hr2 Hi1 Hi2. subst tr1 tr2.
  destruct (image_refs_of_run H1 repoURL w1 ref1 Hi1) as (r1 & Hf1 & ->).
  destruct (image_refs_of_run H2 repoURL w2 ref2 Hi2) as (r2 & Hf2 & ->).
  rewrite Hr1 in Hf1. rewrite Hr2 in Hf2.
  injection Hf1 as <-. injection Hf2 as <-.
  split; reflexivity.
Qed.

(** C5 on two sample machines that differ in their free ports. *)
Lemma C5_witness :
  "github.com/user/repo:abc1234"
    = (url.Host Sample.repo ++ url.Path Sample.repo) ++ ":" ++ "abc1234"
  /\ "github.com/user/repo:abc1234" = "github.com/user/repo:abc1234".
Proof.
  apply (C5_image_ref_is_function_of_url_and_revision
           Ref.World Ref.World Ref.host Ref.host Sample.repo
           (Sample.machine [] []) (Sample.machine [3000] [])
           "abc1234" "github.com/user/repo:abc1234"
           "github.com/user/repo:abc1234").
  - reflexivity.
  - reflexivity.
  - vm_compute. auto.
  - vm_compute. auto.
Defined.

(** The scan on every host: it ends with the error when the binds of all
    the ports fail, and with the first port whose bind succeeds
    otherwise; that bind is closed at once. *)
Lemma findFreePort_loop_scan {W : Type} (H : Host W) (n : nat) (port : Z)
      (s : St W) :
  match after_refused H n port (world s) with
  | Some w' =>
      findFreePort_loop H n port s
      = ({| world := w'; trace := trace s |}, Fail no_free_ports)
  | None =>
      exists (k : nat) (wk w1 : W),
        (k < n)%nat
        /\ after_refused H k port (world s) = Some wk
        /\ Listen H (port + Z.of_nat k) wk = (w1, None)
        /\ findFreePort_loop H n port s
           = ({| world := Close H (port + Z.of_nat k) w1; trace := trace s |},
              Return (port + Z.of_nat k))
  end.
Proof.
  revert port s.
  induction n as [|n IH]; intros port s.
  - cbn. destruct s; reflexivity.
  - cbn [after_refused findFreePort_loop].
    unfold bind, net_Listen, lift.
    destruct (Listen H port (world s)) as [w1 [e|]] eqn:HL.
    + specialize (IH (port + 1) {| world := w1; trace := trace s |}).
      cbn [world trace] in IH.
      destruct (after_refused H n (port + 1) w1) as [w'|] eqn:Hrest.
      * exact IH.
      * destruct IH as (k & wk & w2 & Hk & Hwk & Hl & Hrun).
        exists (S k), wk, w2.
        replace (port + Z.of_nat (S k)) with (port + 1 + Z.of_nat k) by lia.
        split; [lia|]. split; [|split; [exact Hl|exact Hrun]].
        cbn [after_refused]. rewrite HL. exact Hwk.
    + exists O, (world s), w1.
      replace (port + Z.of_nat 0) with port by (cbn; lia).
      split; [lia|]. split; [reflexivity|]. split; [exact HL|].
      unfold listener_Close, lift, ret. reflexivity.
Qed.

(** C6, as the code has it.  On every host [findFreePort] starts no
    process and binds the ports of 3000..65535 in ascending order.  It
    returns the first port whose bind succeeds, after the binds of all the
    ports below it have failed, and closes that bind at once.  It fails if
    and only if the binds of all the ports of the range fail, for whatever
    reason: the error of a bind is dropped, so the one error
    [no free ports found] stands for every failure, an exhausted range or
    not.  On the reference host, where a bind fails on a bound port and on
    no other, the port returned is the lowest port of the range that is
    not bound, the machine is left as it was, and the scan fails exactly
    when every port of the range is bound. *)
Theorem C6_findFreePort_lowest_free_port
        (W : Type) (H : Host W) (w : W) :
  let r := run (findFreePort H) w in
  trace (fst r) = []
  /\ (forall p, snd r = Return p ->
        3000 <= p <= 65535
        /\ exists wp w1,
             after_refused H (Z.to_nat (p - 3000)) 3000 w = Some wp
             /\ Listen H p wp = (w1, None)
             /\ world (fst r) = Close H p w1)
  /\ (snd r = Fail no_free_ports
      <-> exists w', after_refused H (Z.to_nat (65535 - 3000 + 1)) 3000 w
                     = Some w')
  /\ ((exists p, snd r = Return p) \/ snd r = Fail no_free_ports)
  /\ (forall wr : Ref.World,
        let rr := run (findFreePort Ref.host) wr in
        fst rr = {| world := wr; trace := [] |}
        /\ (forall p, snd rr = Return p ->
              3000 <= p <= 65535
              /\ Ref.port_bound wr p = false
              /\ (forall q, 3000 <= q < p -> Ref.port_bound wr q = true)
              /\ snd (Listen Ref.host p wr) = None
              /\ Close Ref.host p (fst (Listen Ref.host p wr)) = wr)
        /\ (snd rr = Fail no_free_ports
            <-> forall q, 3000 <= q <= 65535 -> Ref.port_bound wr q = true)).
Proof.
  cbn zeta. unfold run, findFreePort.
  pose proof (findFreePort_loop_scan H (Z.to_nat (65535 - 3000 + 1)) 3000
                {| world := w; trace := [] |}) as Hscan.
  change (world {| world := w; trace := [] |}) with w in Hscan.
  change (trace {| world := w; trace := ([] : list Event) |})
    with ([] : list Event) in Hscan.
  split; [|split; [|split; [|split]]].
  - destruct (after_refused H _ 3000 w) as [w'|].
    + rewrite Hscan. reflexivity.
    + destruct Hscan as (k & wk & w1 & _ & _ & _ & ->). reflexivity.
  - intros p Hp.
    destruct (after_refused H _ 3000 w) as [w'|].
    + rewrite Hscan in Hp. discriminate Hp.
    + destruct Hscan as (k & wk & w1 & Hk & Hwk & Hl & Hrun).
      rewrite Hrun in Hp |- *. unfold snd in Hp.
      assert (Heq : p = 3000 + Z.of_nat k) by congruence. subst p. clear Hp.
      assert (Hlt : Z.of_nat k < 62536).
      { apply Nat2Z.inj_lt in Hk. rewrite Z2Nat.id in Hk by (cbv; discriminate).
        exact Hk. }
      split; [lia|]. exists wk, w1.
      replace (Z.to_nat (3000 + Z.of_nat k - 3000)) with k by lia.
      split; [exact Hwk|]. split; [exact Hl|reflexivity].
  - destruct (after_refused H _ 3000 w) as [w'|].
    + rewrite Hscan. split; eauto.
    + destruct Hscan as (k & wk & w1 & _ & _ & _ & ->). unfold snd.
      split; [discriminate|]. intros (w' & Hw'). discriminate Hw'.
  - destruct (after_refused H _ 3000 w) as [w'|].
    + rewrite Hscan. right. reflexivity.
    + destruct Hscan as (k & wk & w1 & _ & _ & _ & ->). left.
      exists (3000 + Z.of_nat k). reflexivity.
  - intros wr.
    change (findFreePort_loop Ref.host (Z.to_nat (65535 - 3000 + 1)) 3000)
      with (findFreePort Ref.host).
    destruct (RefFacts.findFreePort_lowest_free {| world := wr; trace := [] |})
      as [(p & Hrun & Hp & Hfree & Hlow)|(Hrun & Hall)];
      rewrite Hrun; cbn [fst snd world] in *.
    + split; [reflexivity|]. split.
      * intros p' Heq. injection Heq as <-.
        destruct (RefFacts.listen_close wr p Hfree) as [Hclose Hlisten].
        auto.
      * split; [discriminate|].
        intros Hall. rewrite Hall in Hfree by lia. discriminate.
    + split; [reflexivity|]. split; [discriminate|]. split; auto.
Qed.

(** C6 as stated fails in its last part: for a process without a file
    descriptor left every bind fails, and the scan reports
    [no free ports found] on a machine where no port is bound. *)
Lemma C6_counterexample : ~ exhaustion_reported_distinctly.
Proof.
  intros Hclaim.
  assert (Hb : Ref.port_bound (Sample.machine [] []) 3000 = true).
  { apply (Hclaim out_of_descriptors).
    - intros w p _. discriminate.
    - vm_compute. reflexivity.
    - lia. }
  discriminate Hb.
Qed.

(** C7. On every exit of a run that created its workspace directory (the
    run returns [nil], returns an error at any later stage, or panics) the
    directory has been removed when [CloneAndBuild] is left; and a clone
    that fails ends the run with that error before the build: the clone is
    the only process started.  The host is any host whose [os.RemoveAll]
    removes the path, observed through [dir_exists]. *)
Theorem C7_workspace_released_on_every_exit
        (W : Type) (H : Host W) (dir_exists : W -> string -> bool)
        (repoURL : url.URL) (w w1 : W) (tempDir : string) :
  (forall d w', dir_exists (RemoveAll H d w') d = false) ->
  MkdirTemp H w = (w1, (tempDir, None)) ->
  let r := run (CloneAndBuild H repoURL) w in
  dir_exists (world (fst r)) tempDir = false
  /\ (forall w2 out e,
        Exec H (git_clone repoURL tempDir) w1 = (w2, (out, Some e)) ->
        snd r = Fail (wrapError "failed to clone repository: %w: %s" e [out])
        /\ trace (fst r) = [{| ev_cmd := git_clone repoURL tempDir;
                               ev_output := out; ev_err := Some e |}]
        /\ existsb is_build (trace (fst r)) = false).
Proof.
  intros Hrm Hmk r. subst r. split.
  - destruct (CloneAndBuild_cleanup H repoURL w w1 tempDir Hmk) as (w2 & ->).
    apply Hrm.
  - intros w2 out e Hcl.
    rewrite (CloneAndBuild_clone_fails H repoURL w w1 w2 tempDir out e Hmk Hcl).
    repeat split.
Qed.

(** C7 on the sample machine, for a repository that does not exist. *)
Lemma C7_witness :
  let unknown := {| url.Scheme := "https"; url.Opaque := ""; url.User := None;
                    url.Host := "github.com"; url.Path := "/user/none";
                    url.OmitHost := false; url.ForceQuery := false;
                    url.RawQuery := ""; url.Fragment := "" |} in
  let r := run (CloneAndBuild Ref.host unknown) (Sample.machine [] []) in
  Ref.dir_exists (world (fst r)) "/tmp/repo-1" = false
  /\ (forall w2 out e,
        Exec Ref.host (git_clone unknown "/tmp/repo-1")
             (Ref.put_dir "/tmp/repo-1" None (Sample.machine [] []))
          = (w2, (out, Some e)) ->
        snd r = Fail (wrapError "failed to clone repository: %w: %s" e [out])
        /\ trace (fst r) = [{| ev_cmd := git_clone unknown "/tmp/repo-1";
                               ev_output := out; ev_err := Some e |}]
        /\ existsb is_build (trace (fst r)) = false).
Proof.
  intros unknown.
  apply (C7_workspace_released_on_every_exit
           Ref.World Ref.host Ref.dir_exists unknown (Sample.machine [] [])
           (Ref.put_dir "/tmp/repo-1" None (Sample.machine [] []))
           "/tmp/repo-1").
  - intros d w'. apply RefFacts.dir_exists_remove_dir.
  - reflexivity.
Defined.

(** C8, as the code has it.  The probe's output is not split into lines:
    the identifier used for the port query and for the removal is the whole
    trimmed output of [docker ps -q].  (With one identifier reported that
    is the identifier; with several it is all of them, line breaks
    included.) *)
Theorem C8_identifier_is_whole_probe_output
        (W : Type) (H : Host W) (repoURL : url.URL) (w : W) (out : string)
        (e : Event) (id : string) :
  In (succeeded (docker_ps (imageName repoURL)) out)
     (trace (fst (run (CloneAndBuild H repoURL) w))) ->
  In e (trace (fst (run (CloneAndBuild H repoURL) w))) ->
  ev_cmd e = docker_port id \/ ev_cmd e = docker_rm id ->
  id = strings.TrimSpace out.
Proof.
  intros Hps He Hcmd.
  exact (probe_output_is_identifier H repoURL w out Hps e id He Hcmd).
Qed.

(** The run on the sample machine with two containers of the image name. *)
Lemma two_containers_trace :
  trace (fst (run (CloneAndBuild Ref.host Sample.repo)
                  (Sample.machine [] [Sample.earlier; Sample.second])))
  = [succeeded (git_clone Sample.repo "/tmp/repo-1") "";
     succeeded (git_rev_parse "/tmp/repo-1") ("abc1234" ++ Ref.newline);
     succeeded (docker_build "github.com/user/repo:abc1234" "/tmp/repo-1") "";
     succeeded (docker_ps "github.com/user/repo") Sample.two_ids_output;
     {| ev_cmd := docker_port Sample.two_ids;
        ev_output := "Error: No such container: " ++ Sample.two_ids ++ Ref.newline;
        ev_err := Ref.exit_status "1" |}].
Proof. vm_compute. reflexivity. Qed.

(** C8 on the sample machine with two containers of the image name. *)
Lemma C8_witness : Sample.two_ids = strings.TrimSpace Sample.two_ids_output.
Proof.
  apply (C8_identifier_is_whole_probe_output
           Ref.World Ref.host Sample.repo
           (Sample.machine [] [Sample.earlier; Sample.second])
           Sample.two_ids_output
           {| ev_cmd := docker_port Sample.two_ids;
              ev_output := "Error: No such container: " ++ Sample.two_ids ++ Ref.newline;
              ev_err := Ref.exit_status "1" |}).
  - vm_compute. tauto.
  - vm_compute. tauto.
  - left. reflexivity.
Defined.

(** C8 as stated fails: with two identifiers reported, the port query is
    made for both lines at once, not for the first. *)
Lemma C8_counterexample : ~ first_reported_is_canonical.
Proof.
  intros Hclaim.
  specialize (Hclaim Sample.repo
                     (Sample.machine [] [Sample.earlier; Sample.second])
                     Sample.two_ids_output "a1b2c3" ["d4e5f6"]).
  cbn zeta in Hclaim. rewrite two_containers_trace in Hclaim.
  assert (Heq : Sample.two_ids = "a1b2c3").
  { apply (Hclaim (or_intror (or_intror (or_intror (or_introl eq_refl))))
                  eq_refl ltac:(discriminate)
                  {| ev_cmd := docker_port Sample.two_ids;
                     ev_output := "Error: No such container: " ++ Sample.two_ids
                                  ++ Ref.newline;
                     ev_err := Ref.exit_status "1" |}).
    - cbn. tauto.
    - left. reflexivity. }
  discriminate Heq.
Qed.

(** What the decoder stores for one value of [http_port]. *)
Lemma storeInt_port_of_value (v : json.Value) (cur : Z) :
  json.storeInt "http_port" v cur
  = match port_of_value v with
    | Some (Some n) => Ok n
    | Some None => Ok cur
    | None => Err (json.UnmarshalTypeError "http_port")
    end.
Proof.
  destruct v as [|b|literal|s|elems|ms]; cbn [json.storeInt port_of_value];
    try reflexivity.
  destruct (strconv.ParseInt "ParseInt" literal); reflexivity.
Qed.

(** The decoder on the members of an object, by the values of the members
    named [http_port]: an error saved is never dropped, and without one
    the value is the last integer stored. *)
Lemma object_http_port (members : list (string * json.Value)) (cur : Z)
      (saved : option error) :
  (forallb accepted (port_members members) = true ->
   json.object "http_port" (json.storeInt "http_port") members cur saved
   = (last_port (port_members members) cur, saved))
  /\ (forallb accepted (port_members members) = false ->
      snd (json.object "http_port" (json.storeInt "http_port") members cur
                       saved) <> None)
  /\ (saved <> None ->
      snd (json.object "http_port" (json.storeInt "http_port") members cur
                       saved) <> None).
Proof.
  revert cur saved.
  induction members as [|[key v] rest IH]; intros cur saved.
  - cbn. repeat split; auto. discriminate.
  - unfold port_members in *. cbn [json.object filter fst].
    destruct (json.key_matches key "http_port") eqn:Hkey;
      [|exact (IH cur saved)].
    cbn [map snd forallb last_port]. unfold accepted at 1 3.
    rewrite storeInt_port_of_value.
    destruct (port_of_value v) as [[n|]|]; cbn [andb].
    + exact (IH n saved).
    + exact (IH cur saved).
    + destruct (IH cur (match saved with
                        | Some _ => saved
                        | None => Some (json.UnmarshalTypeError "http_port")
                        end)) as (_ & _ & Hkept).
      repeat split; try discriminate; intros _; apply Hkept;
        destruct saved; discriminate.
Qed.

(** C9, as the code has it.  [parseJsonConfig] starts from
    [http_port = 80].  A file that does not exist is not an error: the
    default is returned.  A file that opens and whose text is the JSON
    value [null], or a JSON object in which every member named [http_port]
    is an integer of 64 bits or [null], gives the last of those integers,
    80 when there is none; no other member is looked at.  Every other file
    is an error, returned with the zero configuration: a file that cannot
    be opened, a text that is not JSON, and also a text that is JSON but
    not an object or [null], or whose [http_port] is a string, a fraction
    or any value that is not an integer of 64 bits. *)
Theorem C9_config_default_and_errors
        (W : Type) (H : Host W) (configPath : string) (w : W) :
  let r := parseJsonConfig H configPath w in
  match expected_port (Open H configPath w) with
  | Some n => r = ({| HTTPPort := n |}, None)
  | None => fst r = {| HTTPPort := 0 |} /\ snd r <> None
  end.
Proof.
  cbn zeta. unfold parseJsonConfig, expected_port.
  destruct (Open H configPath w) as [e|e|[v|e]]; try reflexivity.
  - split; [reflexivity|discriminate].
  - unfold decodeConfig, json.Decode. cbn [HTTPPort].
    destruct v as [|b|literal|s|elems|members];
      try (split; [reflexivity|discriminate]); try reflexivity.
    destruct (object_http_port members 80 None) as (Hok & Hbad & _).
    destruct (forallb accepted (port_members members)).
    + rewrite (Hok eq_refl). reflexivity.
    + specialize (Hbad eq_refl).
      destruct (json.object "http_port" (json.storeInt "http_port") members 80 None)
        as [n [e|]]; cbn [snd] in Hbad; [|congruence].
      split; [reflexivity|discriminate].
  - split; [reflexivity|discriminate].
Qed.

(** C9 as stated fails: the file [{"http_port": "8080"}] can be read and
    its text is JSON, and the loader returns an error for it. *)
Lemma C9_counterexample : ~ every_json_file_loads.
Proof.
  intros Hclaim.
  pose (content := json.JObject [("http_port", json.JString "8080")]).
  specialize (Hclaim Ref.World Ref.host "config.json"
                     (Machines.with_config (Ok content)) content eq_refl).
  discriminate Hclaim.
Qed.

(** C10. In the branch that found a prior instance, the port to reuse is
    [strings.Split(trimmed output of docker port, ":")[1]] read as a number.
    For every run in which the port query returned an output [b]: the run
    panics with an index out of range exactly when the trimmed [b] has no
    colon; otherwise the field after the first colon exists, and a
    container is started only on the port that field spells. *)
Theorem C10_port_field_needs_a_colon
        (W : Type) (H : Host W) (repoURL : url.URL) (w : W) (id b : string) :
  In (succeeded (docker_port id) b)
     (trace (fst (run (CloneAndBuild H repoURL) w))) ->
  (strings.CountByte (strings.TrimSpace b) ":" = O
   <-> snd (run (CloneAndBuild H repoURL) w)
       = Panic "runtime error: index out of range")
  /\ (strings.CountByte (strings.TrimSpace b) ":" = O
      <-> nth_error (strings.SplitByte (strings.TrimSpace b) ":") 1 = None)
  /\ (forall e, In e (trace (fst (run (CloneAndBuild H repoURL) w))) ->
      forall p image, ev_cmd e = docker_run p image ->
      exists field,
        nth_error (strings.SplitByte (strings.TrimSpace b) ":") 1 = Some field
        /\ strconv.Atoi field = Ok p).
Proof.
  intros Hin.
  destruct (port_query_index H repoURL w id b Hin) as (Hpanic & Hport).
  split; [exact Hpanic|]. split; [|exact Hport].
  symmetry. apply SplitByte_second.
Qed.

(** C10 on the sample machine with a container that publishes no port:
    [docker port] prints nothing and the run panics. *)
Lemma C10_witness :
  strings.CountByte (strings.TrimSpace "") ":" = O
  /\ snd (run (CloneAndBuild Ref.host Sample.repo)
              (Sample.machine [] [Sample.unpublished]))
     = Panic "runtime error: index out of range".
Proof.
  pose proof (C10_port_field_needs_a_colon
                Ref.World Ref.host Sample.repo
                (Sample.machine [] [Sample.unpublished]) "0a0b0c" "") as Hc.
  assert (Hin : In (succeeded (docker_port "0a0b0c") "")
                   (trace (fst (run (CloneAndBuild Ref.host Sample.repo)
                                    (Sample.machine [] [Sample.unpublished])))))
    by (vm_compute; tauto).
  destruct (Hc Hin) as ((Hpanic & _) & _).
  split; [reflexivity|]. apply Hpanic. reflexivity.
Defined.

(** * Further properties of the pipeline *)

(** X1. In the branch that found a prior instance: when the text after the
    first colon of the port query's trimmed output is not a decimal number
    of 64 bits, the run returns [failed to parse container port] and ends
    there: the port query is the last process started, nothing is removed
    and nothing is run. *)
Theorem X1_unparsable_port_ends_the_run
        (W : Type) (H : Host W) (repoURL : url.URL) (w : W)
        (id b field : string) (e : error) :
  In (succeeded (docker_port id) b)
     (trace (fst (run (CloneAndBuild H repoURL) w))) ->
  nth_error (strings.SplitByte (strings.TrimSpace b) ":") 1 = Some field ->
  strconv.Atoi field = Err e ->
  snd (run (CloneAndBuild H repoURL) w)
    = Fail (wrapError "failed to parse container port: %w" e [])
  /\ exists before,
       trace (fst (run (CloneAndBuild H repoURL) w))
       = (before ++ [succeeded (docker_port id) b])%list
       /\ forallb (fun ev => match ev_cmd ev with
                             | docker_rm _ | docker_run _ _ => false
                             | _ => true
                             end) before = true.
Proof.
  run_cases H (run (CloneAndBuild H repoURL) w);
    intros Hin Hfield Hatoi; in_trace; try congruence.
  split.
  - congruence.
  - eexists [_; _; _; _]. split; reflexivity.
Qed.

(** X1 on the sample machine with a container whose port line does not
    read back. *)
Lemma X1_witness :
  snd (run (CloneAndBuild Ref.host Sample.repo)
           (Sample.machine [] [Sample.unparsable]))
  = Fail (wrapError "failed to parse container port: %w"
                    (NumError "Atoi" "9223372036854775808" strconv.ErrRange) []).
Proof.
  apply (X1_unparsable_port_ends_the_run
           Ref.World Ref.host Sample.repo
           (Sample.machine [] [Sample.unparsable])
           "0d0e0f" (Ref.port_line (2 ^ 63)) "9223372036854775808").
  - vm_compute. tauto.
  - vm_compute. reflexivity.
  - vm_compute. reflexivity.
Defined.

(** X2. While two or more containers of the image name run on a
    well-formed machine, no deploy of the project goes through: the probe's
    trimmed output holds a line break, no container has it for identifier,
    and the port query fails. *)
Theorem X2_two_instances_block_the_deploy
        (repoURL : url.URL) (w : Ref.World) (c1 c2 : Ref.Container)
        (rest : list Ref.Container) :
  well_formed w ->
  filter (Ref.of_image (imageName repoURL)) (Ref.containers w)
    = c1 :: c2 :: rest ->
  snd (run (CloneAndBuild Ref.host repoURL) w) <> Return tt.
Proof.
  intros Hwf Hms Hret.
  destruct (run (CloneAndBuild Ref.host repoURL) w) as [st' r] eqn:Hrun.
  cbn [snd] in Hret. subst r.
  destruct (CloneAndBuild_success Ref.host repoURL w st' Hrun)
    as (tempDir & w1 & w2 & w3 & w4 & w5 & cloneOut & rev & buildOut & psOut
        & Hmk & Hcl & _ & Hrev & Hb & Hps & Hcases).
  destruct (RefFacts.fetch_and_build_frame repoURL w w1 w2 w3 w4 w5 _ _ _ _ _ _
              Hmk Hcl Hrev Hb Hps)
    as ((_ & _ & Hc & _) & _ & ->).
  assert (Hlisted : filter (Ref.of_image (imageName repoURL)) (Ref.containers w)
                    <> [])
    by (rewrite Hms; discriminate).
  cbn zeta in Hcases.
  destruct Hcases as [(Hid & _)
                     |(_ & w6 & w7 & w8 & portOut & field & port & rmOut
                       & runOut & Hpq & _)].
  - exact (RefFacts.probe_not_empty w _ Hwf Hlisted Hid).
  - apply RefFacts.port_ok in Hpq. destruct Hpq as (_ & c & Hfind & _).
    apply RefFacts.find_container_some in Hfind. destruct Hfind as [Hcin Hcid].
    rewrite Hc in Hcin.
    pose proof (RefFacts.probe_single w (imageName repoURL) c Hwf Hcin Hcid
                                      Hlisted) as Hsingle.
    rewrite Hms in Hsingle. discriminate Hsingle.
Qed.

(** X2 on the sample machine with two containers of the image name. *)
Lemma X2_witness :
  snd (run (CloneAndBuild Ref.host Sample.repo)
           (Sample.machine [] [Sample.earlier; Sample.second]))
  <> Return tt.
Proof.
  apply (X2_two_instances_block_the_deploy
           Sample.repo (Sample.machine [] [Sample.earlier; Sample.second])
           Sample.earlier Sample.second []).
  - split; [|split].
    + intros c [<-|[<-|[]]]; reflexivity.
    + cbn. constructor; [intros [Heq|[]]; discriminate Heq|].
      constructor; [intros []|constructor].
    + cbn. intros id [<-|[<-|[]]] [Heq|[Heq|[]]]; discriminate Heq.
  - reflexivity.
Defined.

(** X3. On every host, [findFreePort] starts no process and ends, after at
    most 62536 binds, with a port of 3000..65535 or with its one error; it
    never panics. *)
Theorem X3_findFreePort_total
        (W : Type) (H : Host W) (w : W) :
  trace (fst (run (findFreePort H) w)) = []
  /\ ((exists p, snd (run (findFreePort H) w) = Return p
                 /\ 3000 <= p <= 65535)
      \/ snd (run (findFreePort H) w) = Fail no_free_ports).
Proof.
  unfold run.
  destruct (findFreePort_result H {| world := w; trace := [] |})
    as (w' & Hst & Hres).
  rewrite Hst. split; [reflexivity|exact Hres].
Qed.
(** * Further properties: the pipeline and the handler on every host *)

(** The events before the last one of a concrete trace. *)
Ltac split_last :=
  lazymatch goal with
  | |- exists before, ?l = (before ++ [_])%list /\ _ =>
      exists (removelast l); split; [reflexivity|]
  end.

(** X4. A process that returns an error is the last one of the run: every
    process before it returned without one, nothing is started after it,
    and [CloneAndBuild] returns that error, wrapped with the text of the
    step and, where the step captured it, the output of the process. *)
Theorem X4_failed_process_ends_the_run
        (W : Type) (H : Host W) (repoURL : url.URL) (w : W)
        (e : Event) (err : error) :
  In e (trace (fst (run (CloneAndBuild H repoURL) w))) ->
  ev_err e = Some err ->
  exists before,
    trace (fst (run (CloneAndBuild H repoURL) w)) = (before ++ [e])%list
    /\ existsb failed before = false
    /\ exists format args,
         snd (run (CloneAndBuild H repoURL) w)
           = Fail (wrapError format err args)
         /\ (args = [] \/ args = [ev_output e]).
Proof.
  run_cases H (run (CloneAndBuild H repoURL) w);
    intros Hin Herr; in_trace; cbn [ev_err] in Herr;
    try discriminate Herr; injection Herr as ->;
    split_last; (split; [reflexivity|]);
    do 2 eexists; (split; [reflexivity|]); cbn [ev_output]; auto.
Qed.

(** X4 on the sample machine, for a repository that is not on the
    remote: the clone fails. *)
Lemma X4_witness :
  exists before,
    trace (fst (run (CloneAndBuild Ref.host url.empty) (Sample.machine [] [])))
    = (before
       ++ [{| ev_cmd := git_clone url.empty "/tmp/repo-1";
              ev_output := "fatal: repository not found" ++ Ref.newline;
              ev_err := Ref.exit_status "128" |}])%list
    /\ existsb failed before = false
    /\ exists format args,
         snd (run (CloneAndBuild Ref.host url.empty) (Sample.machine [] []))
           = Fail (wrapError format (errorString "exit status 128") args)
         /\ (args = []
             \/ args = [ev_output
                          {| ev_cmd := git_clone url.empty "/tmp/repo-1";
                             ev_output := "fatal: repository not found"
                                          ++ Ref.newline;
                             ev_err := Ref.exit_status "128" |}]).
Proof.
  apply (X4_failed_process_ends_the_run
           Ref.World Ref.host url.empty (Sample.machine [] [])).
  - vm_compute. left. reflexivity.
  - reflexivity.
Defined.

(** X5. The tools a run starts are an initial part of one of two
    sequences: clone, rev-parse, build, probe, port query, removal, run;
    or clone, rev-parse, build, probe, run.  So each tool is started at
    most once, in this order, without a retry or a step back; a removal
    comes only after a port query, and [docker run] is the last process
    of a run that starts it. *)
Theorem X5_one_pass_in_pipeline_order
        (W : Type) (H : Host W) (repoURL : url.URL) (w : W) :
  prefix_of (stages (trace (fst (run (CloneAndBuild H repoURL) w))))
            [0; 1; 2; 3; 4; 5; 6]%nat
  || prefix_of (stages (trace (fst (run (CloneAndBuild H repoURL) w))))
               [0; 1; 2; 3; 6]%nat
  = true.
Proof.
  run_cases H (run (CloneAndBuild H repoURL) w); reflexivity.
Qed.

(** X6. The response of [handleDeploy] is one of four fixed responses:
    no output of a tool and no text of an error is part of it.  It has
    status 200 exactly when a [docker run] of the request returned without
    an error. *)
Theorem X6_response_tells_outcome_only
        (W : Type) (H : Host W) (r : Request) (w : W) (resp : Response) :
  snd (run (handleDeploy H r) w) = Return resp ->
  In resp responses
  /\ (StatusCode resp = StatusOK
      <-> container_started (trace (fst (run (handleDeploy H r) w))) = true).
Proof.
  intros Hresp.
  destruct (rejected_dec r) as [Hrej|Hacc].
  - destruct (handleDeploy_rejected H r w Hrej) as (resp' & Hrun & Hst).
    rewrite Hrun in *. cbn [fst snd trace] in *. injection Hresp as <-.
    split.
    + revert Hrun. unfold run, handleDeploy, ret.
      destruct (decodeRequestPayload (Body r) {| URL := "" |})
        as [payload [e|]].
      * intros Heq. injection Heq as <-. right. left. reflexivity.
      * destruct (url.Parse (URL payload)).
        -- unfold bind, returned_error.
           destruct (CloneAndBuild H a _) as [s' [[]|?|?]];
             intros Heq; try discriminate Heq;
             injection Heq as _ <-; discriminate Hst.
        -- intros Heq. injection Heq as <-. right. right. left. reflexivity.
    + rewrite Hst. split; intros Hn; discriminate Hn.
  - destruct (handleDeploy_accepted H r w Hacc) as (u & _ & Hfst & Hsnd).
    rewrite Hfst. rewrite Hsnd in Hresp. clear Hfst Hsnd. revert Hresp.
    run_cases H (run (CloneAndBuild H u) w);
      intros Hresp; try discriminate Hresp; injection Hresp as <-;
      (split; [cbn; tauto|]); split; intros Hn; try discriminate Hn;
      reflexivity.
Qed.

(** X6 on the sample machine: the first deploy of the repository. *)
Lemma X6_witness :
  In processed responses
  /\ (StatusCode processed = StatusOK
      <-> container_started
            (trace (fst (run (handleDeploy Ref.host
                                (request_for "https://github.com/user/repo"))
                             (Sample.machine [] [])))) = true).
Proof.
  apply (X6_response_tells_outcome_only
           Ref.World Ref.host (request_for "https://github.com/user/repo")
           (Sample.machine [] []) processed).
  vm_compute. reflexivity.
Defined.

(** X7. When the probe prints nothing but white space, the run queries no
    port and removes nothing, and a container it starts is published on a
    port of 3000..65535, the one [findFreePort] returned. *)
Theorem X7_first_deploy_port_in_range
        (W : Type) (H : Host W) (repoURL : url.URL) (w : W) (out : string) :
  In (succeeded (docker_ps (imageName repoURL)) out)
     (trace (fst (run (CloneAndBuild H repoURL) w))) ->
  strings.TrimSpace out = "" ->
  Forall (fun e => match ev_cmd e with
                   | docker_port _ | docker_rm _ => False
                   | docker_run port _ => 3000 <= port <= 65535
                   | _ => True
                   end)
         (trace (fst (run (CloneAndBuild H repoURL) w))).
Proof.
  run_cases H (run (CloneAndBuild H repoURL) w);
    intros Hin Hempty; in_trace;
    try match goal with
        | Hne : String.eqb _ "" = false |- _ =>
            apply String.eqb_neq in Hne; contradiction
        end;
    apply Forall_forall; intros ev Hev; in_trace; cbn [ev_cmd]; try exact I.
  all: destruct Hport as [(p & Hp & Hrange)|Hp]; [|discriminate Hp].
  all: injection Hp as <-; exact Hrange.
Qed.

(** X7 on the sample machine without containers, the port 3000 taken. *)
Lemma X7_witness :
  Forall (fun e => match ev_cmd e with
                   | docker_port _ | docker_rm _ => False
                   | docker_run port _ => 3000 <= port <= 65535
                   | _ => True
                   end)
         (trace (fst (run (CloneAndBuild Ref.host Sample.repo)
                          (Sample.machine [3000] [])))).
Proof.
  apply (X7_first_deploy_port_in_range
           Ref.World Ref.host Sample.repo (Sample.machine [3000] []) "").
  - vm_compute. tauto.
  - reflexivity.
Defined.

(** X8. A body that decodes to an empty URL (an object without a [url]
    member, [null], or an empty text for it) is not turned away: the empty
    text parses, the pipeline runs for the empty URL, and once the
    directory is created [git clone] is started with it.  The response is
    never 400. *)
Theorem X8_empty_url_reaches_the_pipeline
        (W : Type) (H : Host W) (r : Request) (w : W) :
  decodeRequestPayload (Body r) {| URL := "" |} = ({| URL := "" |}, None) ->
  fst (run (handleDeploy H r) w) = fst (run (CloneAndBuild H url.empty) w)
  /\ (forall resp, snd (run (handleDeploy H r) w) = Return resp ->
                   StatusCode resp <> StatusBadRequest)
  /\ (forall w1 tempDir, MkdirTemp H w = (w1, (tempDir, None)) ->
      exists out err rest,
        trace (fst (run (handleDeploy H r) w))
        = {| ev_cmd := git_clone url.empty tempDir;
             ev_output := out; ev_err := err |} :: rest).
Proof.
  intros Hdec.
  assert (Hacc : ~ rejected r).
  { unfold rejected. rewrite Hdec. cbn. intros [Hn|Hn]; [congruence|discriminate]. }
  destruct (handleDeploy_accepted H r w Hacc) as (u & Hu & Hfst & Hsnd).
  rewrite Hdec in Hu. cbn [fst URL] in Hu.
  change (url.Parse "") with (Ok url.empty) in Hu. injection Hu as <-.
  split; [exact Hfst|]. split.
  - intros resp Hresp. rewrite Hsnd in Hresp.
    destruct (snd (run (CloneAndBuild H url.empty) w));
      try discriminate Hresp; injection Hresp as <-; discriminate.
  - intros w1 tempDir Hmk. rewrite Hfst.
    exact (CloneAndBuild_starts_with_clone H url.empty w w1 tempDir Hmk).
Qed.

(** X8 on the sample machine, for the body [{}]. *)
Lemma X8_witness :
  fst (run (handleDeploy Ref.host {| Body := Ok (json.JObject []) |})
           (Sample.machine [] []))
  = fst (run (CloneAndBuild Ref.host url.empty) (Sample.machine [] []))
  /\ (forall resp,
         snd (run (handleDeploy Ref.host {| Body := Ok (json.JObject []) |})
                  (Sample.machine [] [])) = Return resp ->
         StatusCode resp <> StatusBadRequest)
  /\ (forall w1 tempDir,
         MkdirTemp Ref.host (Sample.machine [] []) = (w1, (tempDir, None)) ->
         exists out err rest,
           trace (fst (run (handleDeploy Ref.host
                              {| Body := Ok (json.JObject []) |})
                           (Sample.machine [] [])))
           = {| ev_cmd := git_clone url.empty tempDir;
                ev_output := out; ev_err := err |} :: rest).
Proof.
  apply (X8_empty_url_reaches_the_pipeline
           Ref.World Ref.host {| Body := Ok (json.JObject []) |}
           (Sample.machine [] [])).
  reflexivity.
Defined.

(** * Further properties: middleware and server *)

(** The digits of a number of 64 bits read back. *)
Lemma parseDigits_Itoa (m : Z) :
  0 <= m <= strconv.maxUint64 ->
  strconv.parseDigits (strconv.Itoa m) 0 = Ok m
  /\ exists c r, strconv.Itoa m = String c r /\ is_digit c = true.
Proof.
  intros Hm. unfold strconv.Itoa.
  assert (Hval : uint_val (N.to_uint (Z.to_N m)) 0 = m).
  { rewrite uint_val_of_uint, Unsigned.of_to. lia. }
  set (d := N.to_uint (Z.to_N m)) in *.
  assert (Hparse : strconv.parseDigits (NilEmpty.string_of_uint d) 0 = Ok m).
  { rewrite parseDigits_uint; [congruence|lia|]. rewrite Hval. lia. }
  destruct d; cbn [NilZero.string_of_uint NilEmpty.string_of_uint] in *;
    [cbn in Hval; subst m; split; [reflexivity|do 2 eexists; split; reflexivity]|..];
    (split; [exact Hparse|do 2 eexists; split; reflexivity]).
Qed.

(** A number of 64 bits printed and read back, with its sign. *)
Lemma ParseInt_FormatInt (fn : string) (n : Z) :
  - 2 ^ 63 <= n < 2 ^ 63 -> strconv.ParseInt fn (FormatInt n) = Ok n.
Proof.
  intros Hn. unfold FormatInt.
  assert (Hmax : strconv.maxUint64 = 18446744073709551615) by reflexivity.
  destruct (Z.ltb_spec n 0) as [Hneg|Hpos].
  - destruct (parseDigits_Itoa (- n)) as (Hparse & c & r & Hs & Hd); [lia|].
    unfold strconv.ParseInt. cbn [append Ascii.eqb Bool.eqb orb andb negb].
    rewrite Hs in *. rewrite Hparse.
    destruct (Z.ltb_spec (2 ^ 63) (- n)) as [Hc|Hc]; [lia|].
    f_equal. lia.
  - destruct (parseDigits_Itoa n) as (Hparse & c & r & Hs & Hd); [lia|].
    unfold strconv.ParseInt. rewrite Hs in *.
    assert (Hsign : Ascii.eqb c "+" || Ascii.eqb c "-" = false).
    { destruct (Ascii.eqb_spec c "+") as [->|_]; [discriminate Hd|].
      destruct (Ascii.eqb_spec c "-") as [->|_]; [discriminate Hd|].
      reflexivity. }
    assert (Hminus : Ascii.eqb c "-" = false).
    { destruct (Ascii.eqb_spec c "-") as [->|_]; [discriminate Hd|reflexivity]. }
    rewrite Hsign, Hminus, Hparse. cbn [negb andb].
    destruct (Z.leb_spec (2 ^ 63) n) as [Hc|Hc]; [lia|]. reflexivity.
Qed.

(** X9. A request with the method [OPTIONS] is answered by the middleware
    itself, with status 200, an empty body and the three CORS fields: the
    wrapped handler is not called, whatever it is, so no process is started
    and the machine is left as it was. *)
Theorem X9_preflight_never_reaches_the_handler
        (W : Type) (H : Host W) (next : @Handlers.Handler W)
        (r : http.Request) (w : W) :
  http.Method r = http.MethodOptions ->
  exists wr,
    run (Handlers.CorsMiddleware next http.NewResponse r) w
    = ({| world := w; trace := [] |}, Return wr)
    /\ response_of wr = {| StatusCode := StatusOK; ResponseBody := "" |}
    /\ cors_open (http.sentHeader wr) = true.
Proof.
  intros Hm. unfold run, Handlers.CorsMiddleware. rewrite Hm. cbn [String.eqb].
  change (String.eqb http.MethodOptions http.MethodOptions) with true.
  cbn iota. eexists. split; [reflexivity|]. split; reflexivity.
Qed.

(** X9 for a preflight request with a body that would start a deploy. *)
Lemma X9_witness :
  exists wr,
    run (Handlers.CorsMiddleware (Handlers.handleDeploy Ref.host)
           http.NewResponse
           {| http.Method := "OPTIONS";
              http.Body := Body (request_for "https://github.com/user/repo") |})
        (Sample.machine [] [])
    = ({| world := Sample.machine [] []; trace := [] |}, Return wr)
    /\ response_of wr = {| StatusCode := StatusOK; ResponseBody := "" |}
    /\ cors_open (http.sentHeader wr) = true.
Proof.
  apply (X9_preflight_never_reaches_the_handler Ref.World Ref.host).
  reflexivity.
Defined.

(** The handler on the response writer and the handler of the claims give
    the same run and the same response; the fields set before the call are
    sent with it. *)
Lemma handleDeploy_on_writer
      (W : Type) (H : Host W) (w0 : http.ResponseWriter) (r : http.Request)
      (w : W) :
  http.status w0 = None ->
  http.written w0 = "" ->
  fst (run (Handlers.handleDeploy H w0 r) w)
  = fst (run (handleDeploy H (body_of r)) w)
  /\ match snd (run (handleDeploy H (body_of r)) w) with
     | Return resp =>
         exists wr,
           snd (run (Handlers.handleDeploy H w0 r) w) = Return wr
           /\ response_of wr = resp
           /\ (forall key, http.CanonicalMIMEHeaderKey key <> "Content-Type" ->
                 http.CanonicalMIMEHeaderKey key <> "X-Content-Type-Options" ->
                 http.Header_Get (http.sentHeader wr) key
                 = http.Header_Get (http.handlerHeader w0) key)
     | Fail e => False
     | Panic msg => snd (run (Handlers.handleDeploy H w0 r) w) = Panic msg
     end.
Proof.
  intros Hst Hwr.
  assert (Hget : forall key,
             http.CanonicalMIMEHeaderKey key <> "Content-Type" ->
             http.CanonicalMIMEHeaderKey key <> "X-Content-Type-Options" ->
             http.Header_Get
               (http.Header_Set
                  (http.Header_Set (http.handlerHeader w0) "Content-Type"
                                   "text/plain; charset=utf-8")
                  "X-Content-Type-Options" "nosniff") key
             = http.Header_Get (http.handlerHeader w0) key).
  { intros key Hk1 Hk2.
    unfold http.Header_Get, http.Values, http.Header_Set, http.Header_Del.
    change (http.CanonicalMIMEHeaderKey "Content-Type") with "Content-Type".
    change (http.CanonicalMIMEHeaderKey "X-Content-Type-Options")
      with "X-Content-Type-Options".
    set (k := http.CanonicalMIMEHeaderKey key) in *.
    cbn [find fst filter negb].
    destruct (String.eqb_spec "X-Content-Type-Options" k) as [Heq|_];
      [congruence|].
    change (String.eqb "Content-Type" "X-Content-Type-Options") with false.
    cbn [negb find fst].
    destruct (String.eqb_spec "Content-Type" k) as [Heq|_]; [congruence|].
    f_equal.
    induction (http.handlerHeader w0) as [|[a v] h IH]; [reflexivity|].
    cbn [filter fst find].
    destruct (String.eqb_spec a "Content-Type") as [->|Ha]; cbn [negb].
    - destruct (String.eqb_spec "Content-Type" k) as [Heq|_]; [congruence|].
      exact IH.
    - cbn [filter fst]. 
      destruct (String.eqb_spec a "X-Content-Type-Options") as [->|Hb];
        cbn [negb find fst].
      + destruct (String.eqb_spec "X-Content-Type-Options" k) as [Heq|_];
          [congruence|]. exact IH.
      + destruct (String.eqb a k); [reflexivity|exact IH]. }
  unfold run, Handlers.handleDeploy, handleDeploy, body_of. cbn [Body].
  destruct (decodeRequestPayload (http.Body r) {| URL := "" |})
    as [payload [e|]].
  - cbn. split; [reflexivity|]. eexists. split; [reflexivity|].
    unfold response_of, http.Error, http.Write, http.WriteHeader, http.SetHeader.
    cbn. rewrite Hst. cbn. rewrite Hwr. split; [reflexivity|exact Hget].
  - destruct (url.Parse (URL payload)) as [u|e].
    + unfold bind, returned_error, ret.
      destruct (CloneAndBuild H u {| world := w; trace := [] |})
        as [s' [[]|e|msg]]; cbn [fst snd]; (split; [reflexivity|]);
        try reflexivity; (eexists; split; [reflexivity|]);
        unfold response_of, http.Error, http.Write, http.WriteHeader,
          http.SetHeader; cbn; rewrite Hst; cbn; rewrite Hwr;
        (split; [reflexivity|]); [intros; reflexivity|exact Hget].
    + cbn. split; [reflexivity|]. eexists. split; [reflexivity|].
      unfold response_of, http.Error, http.Write, http.WriteHeader,
        http.SetHeader.
      cbn. rewrite Hst. cbn. rewrite Hwr. split; [reflexivity|exact Hget].
Qed.

(** X10. Behind the middleware, [handleDeploy] answers a request of any
    other method as it does alone: the same processes, the same machine,
    the same status and body.  Every response written, the 400 and 500
    ones too, carries the three CORS fields. *)
Theorem X10_middleware_adds_fields_to_every_answer
        (W : Type) (H : Host W) (r : http.Request) (w : W) (resp : Response) :
  http.Method r <> http.MethodOptions ->
  snd (run (handleDeploy H (body_of r)) w) = Return resp ->
  exists wr,
    run (Handlers.CorsMiddleware (Handlers.handleDeploy H) http.NewResponse r) w
    = (fst (run (handleDeploy H (body_of r)) w), Return wr)
    /\ response_of wr = resp
    /\ cors_open (http.sentHeader wr) = true.
Proof.
  intros Hm Hresp.
  unfold Handlers.CorsMiddleware.
  apply String.eqb_neq in Hm. rewrite Hm.
  match goal with
  | |- context [Handlers.handleDeploy H ?w0 r] =>
      destruct (handleDeploy_on_writer W H w0 r w eq_refl eq_refl)
        as (Hfst & Hsnd)
  end.
  rewrite Hresp in Hsnd. destruct Hsnd as (wr & Hwr & Hresp' & Hkeep).
  exists wr. split; [|split; [exact Hresp'|]].
  - rewrite <- Hfst, <- Hwr. apply surjective_pairing.
  - unfold cors_open.
    rewrite !Hkeep by (vm_compute; discriminate).
    reflexivity.
Qed.

(** X10 on the sample machine: the first deploy of the repository. *)
Lemma X10_witness :
  exists wr,
    run (Handlers.CorsMiddleware (Handlers.handleDeploy Ref.host)
           http.NewResponse
           {| http.Method := "POST";
              http.Body := Body (request_for "https://github.com/user/repo") |})
        (Sample.machine [] [])
    = (fst (run (handleDeploy Ref.host
                   (request_for "https://github.com/user/repo"))
                (Sample.machine [] [])), Return wr)
    /\ response_of wr = processed
    /\ cors_open (http.sentHeader wr) = true.
Proof.
  apply (X10_middleware_adds_fields_to_every_answer
           Ref.World Ref.host
           {| http.Method := "POST";
              http.Body := Body (request_for "https://github.com/user/repo") |}
           (Sample.machine [] []) processed).
  - discriminate.
  - vm_compute. reflexivity.
Defined.

(** X11. [main] does not check the range of the port: for every [int] the
    configuration gives for [http_port] (0, a negative number and a number
    above 65535 too) it builds the server, with the address [:] and the
    port in decimal, from which the port reads back. *)
Theorem X11_server_address_follows_config
        (W : Type) (H : Host W) (w : W) (n : Z) :
  - 2 ^ 63 <= n < 2 ^ 63 ->
  Open H "config.json" w
  = Opened (Ok (json.JObject [("http_port", json.JNumber (FormatInt n))])) ->
  exists s,
    Handlers.main_server H w = Some s
    /\ http.Addr s = ":" ++ FormatInt n
    /\ strconv.Atoi (string_drop 1 (http.Addr s)) = Ok n.
Proof.
  intros Hn Hopen.
  unfold Handlers.main_server, parseJsonConfig. rewrite Hopen.
  unfold decodeConfig, json.Decode, json.object.
  change (json.key_matches "http_port" "http_port") with true. cbn iota.
  unfold json.storeInt. rewrite (ParseInt_FormatInt "ParseInt" n Hn).
  cbn [HTTPPort]. eexists. split; [reflexivity|].
  cbn [http.Addr append string_drop]. split; [reflexivity|].
  exact (ParseInt_FormatInt "Atoi" n Hn).
Qed.

(** X11 for a configuration with the port -1. *)
Lemma X11_witness :
  exists s,
    Handlers.main_server Ref.host
      (Machines.with_config
         (Ok (json.JObject [("http_port", json.JNumber "-1")])))
    = Some s
    /\ http.Addr s = ":-1"
    /\ strconv.Atoi (string_drop 1 (http.Addr s)) = Ok (-1).
Proof.
  apply (X11_server_address_follows_config
           Ref.World Ref.host
           (Machines.with_config
              (Ok (json.JObject [("http_port", json.JNumber "-1")])))
           (-1)).
  - lia.
  - reflexivity.
Defined.

(** * Further properties: runs on the reference host *)
Module RefRuns.
Import Ref.

Lemma filter_idem {A : Type} (f : A -> bool) (l : list A) :
  filter f (filter f l) = filter f l.
Proof.
  induction l as [|a l IH]; [reflexivity|].
  cbn. destruct (f a) eqn:Hf; cbn; rewrite ?Hf, IH; reflexivity.
Qed.

Lemma same_outside_refl (d : string) (w : World) : same_outside d w w.
Proof. repeat split. Qed.

Lemma same_outside_trans (d : string) (w1 w2 w3 : World) :
  same_outside d w1 w2 -> same_outside d w2 w3 -> same_outside d w1 w3.
Proof.
  unfold same_outside.
  intros (A1 & A2 & A3 & A4 & A5 & A6 & A7) (B1 & B2 & B3 & B4 & B5 & B6 & B7).
  repeat split; congruence.
Qed.

(** A process that fails leaves the machine as it was. *)
Lemma exec_failed (c : Cmd) (w w' : World) (out : string) (e : error) :
  Exec host c w = (w', (out, Some e)) -> w' = w.
Proof.
  cbn. unfold exec. destruct (broken w c); [congruence|].
  destruct c;
    repeat match goal with
           | |- context [match ?x with _ => _ end] => destruct x
           end; congruence.
Qed.

(** A process touches the directory it is given, the containers and the
    identifiers to come, nothing else. *)
Lemma exec_same_outside (d : string) (c : Cmd) (w w' : World)
      (out : string) (err : option error) :
  Exec host c w = (w', (out, err)) ->
  match c with git_clone _ dir => dir = d | _ => True end ->
  same_outside d w w'.
Proof.
  cbn. unfold exec. destruct (broken w c).
  { intros Heq _. injection Heq as <- _ _. apply same_outside_refl. }
  destruct c;
    repeat match goal with
           | |- context [match ?x with _ => _ end] => destruct x
           end;
    intros Heq Hd; injection Heq as <- _ _;
    try apply same_outside_refl; try (repeat split; fail).
  subst dir. repeat split. cbn. rewrite String.eqb_refl. cbn.
  apply filter_idem.
Qed.

Lemma mkdir_same_outside (w w1 : World) (d : string) :
  MkdirTemp host w = (w1, (d, None)) ->
  same_outside d w w1 /\ scratch w = Ok d.
Proof.
  cbn. destruct (scratch w) eqn:Hs; intros Heq; [|discriminate].
  injection Heq as <- <-. split; [|reflexivity].
  repeat split; try assumption. cbn. rewrite String.eqb_refl. cbn.
  apply filter_idem.
Qed.

Lemma mkdir_failed (w w1 : World) (d : string) (e : error) :
  MkdirTemp host w = (w1, (d, Some e)) -> w1 = w /\ scratch w = Err e.
Proof.
  cbn. destruct (scratch w) eqn:Hs; intros Heq; [discriminate|].
  injection Heq as <- _ <-. auto.
Qed.

(** The runs of the pipeline on the reference host, where the port scan
    leaves the machine as it was. *)
Ltac next_ref_case HR :=
  match type of HR with
  | context [MkdirTemp host ?w] =>
      destruct (MkdirTemp host w) as [? [? [?|]]] eqn:?
  | context [Exec host ?c ?w] =>
      destruct (Exec host c w) as [? [? [?|]]] eqn:?
  | context [StatIsNotExist host ?p ?w] =>
      destruct (StatIsNotExist host p w) eqn:?
  | context [findFreePort host ?s] =>
      let Hs := fresh "Hscan" in
      destruct (RefFacts.findFreePort_lowest_free s)
        as [(? & Hs & ? & ? & ?)|(Hs & ?)];
      rewrite Hs in HR
  | context [String.eqb ?a ?b] =>
      destruct (String.eqb a b) eqn:?
  | context [nth_error ?l ?i] =>
      destruct (nth_error l i) eqn:?
  | context [strconv.Atoi ?f] =>
      destruct (strconv.Atoi f) eqn:?
  end; cbn [world trace fst snd app negb] in HR.

Ltac ref_cases r :=
  let R := fresh "R" in
  let HR := fresh "HR" in
  remember r as R eqn:HR;
  unfold run, CloneAndBuild, Run, defer, check, rethrow, os_MkdirTemp,
    os_Stat_IsNotExist, CombinedOutput, lift, index_string, bind, ret, fail,
    panic in HR;
  cbn [world trace fst snd] in HR;
  repeat next_ref_case HR;
  subst R; cbn [world trace fst snd] in *.

(** Every call of a run, as a step between two states. *)
Ltac frame_steps :=
  lazymatch goal with
  | Hm : MkdirTemp host _ = (_, (?d, None)) |- _ =>
      repeat match goal with
             | Hx : Exec host _ _ = _ |- _ =>
                 apply (exec_same_outside d) in Hx; [|exact I || reflexivity]
             end;
      apply mkdir_same_outside in Hm; destruct Hm as [Hm ?]
  | Hm : MkdirTemp host _ = (_, (_, Some _)) |- _ =>
      apply mkdir_failed in Hm; destruct Hm as [-> ?]
  end.

Ltac chain d :=
  repeat match goal with
         | H1 : same_outside d ?a ?b, H2 : same_outside d ?b ?c |- _ =>
             pose proof (same_outside_trans d a b c H1 H2); clear H2
         end.

(** A run leaves the listeners, the remotes and the files as they were,
    and the directories but for its own. *)
Lemma run_frame (repoURL : url.URL) (w : World) :
  let w' := world (fst (run (CloneAndBuild host repoURL) w)) in
  held w' = held w
  /\ listeners w' = listeners w
  /\ remote w' = remote w
  /\ scratch w' = scratch w
  /\ dirs w' = match scratch w with
              | Ok d => filter (fun e => negb (String.eqb (fst e) d)) (dirs w)
              | Err _ => dirs w
              end.
Proof.
  ref_cases (run (CloneAndBuild host repoURL) w); frame_steps;
    try (match goal with Hs : scratch _ = Err _ |- _ => rewrite Hs end;
         repeat split; fail);
    match goal with
    | Hs : scratch _ = Ok ?d |- _ => rewrite Hs; chain d
    end;
    change (RemoveAll host) with remove_dir;
    match goal with
    | Hw : same_outside ?d w ?wn |- context [remove_dir ?d ?wn] =>
        destruct Hw as (A1 & A2 & A3 & A4 & A5 & A6 & A7);
        cbn [remove_dir set_dirs held listeners remote scratch dirs];
        rewrite ?A1, ?A2, ?A3, ?A4, ?A7; repeat split; try assumption
    end.
Qed.

End RefRuns.

Module RefDeploys.
Import Ref.

(** The tag of a fetched revision is its short hash. *)
Lemma tag_of_head (t : Checkout) :
  valid_id (head t) = true ->
  strings.TrimSpace (head t ++ newline) = head t.
Proof.
  intros Hv.
  apply TrimSpace_line;
    [now apply valid_id_starts_plain|now apply valid_id_ends_plain].
Qed.

(** A container started from the image of a URL is one of its image
    name. *)
Lemma of_image_new (u : url.URL) (id tag : string) (p : option Z) :
  valid_id tag = true ->
  of_image (imageName u)
           {| cid := id; cimage := imageFullName u tag; cport := p |} = true.
Proof.
  intros Hv. unfold of_image, imageFullName. cbn [cimage].
  rewrite ref_name_tagged by exact Hv. apply String.eqb_refl.
Qed.

Lemma filter_none {A : Type} (f : A -> bool) (l : list A) :
  (forall a, In a l -> f a = true) -> filter f l = l.
Proof.
  induction l as [|a l IH]; [reflexivity|].
  intros Hall. cbn. rewrite (Hall a) by (left; reflexivity).
  f_equal. apply IH. intros b Hb. apply Hall. right. exact Hb.
Qed.

(** The first deploy of a project: the machine after it. *)
Lemma first_deploy_effect (u : url.URL) (w : World) (st' : St World) :
  well_formed w ->
  filter (of_image (imageName u)) (containers w) = [] ->
  run (CloneAndBuild host u) w = (st', Return tt) ->
  exists t id ids port,
    remote w u = Some t
    /\ fresh_ids w = id :: ids
    /\ 3000 <= port <= 65535
    /\ port_bound w port = false
    /\ (forall q, 3000 <= q < port -> port_bound w q = true)
    /\ containers (world st')
       = {| cid := id;
            cimage := imageFullName u (strings.TrimSpace (head t ++ newline));
            cport := Some port |} :: containers w
    /\ fresh_ids (world st') = ids.
Proof.
  intros Hwf Hnone Hrun.
  destruct (CloneAndBuild_success host u w st' Hrun)
    as (tempDir & w1 & w2 & w3 & w4 & w5 & cloneOut & rev & buildOut & psOut
        & Hmk & Hcl & _ & Hrev & Hb & Hps & Hcases).
  destruct (RefFacts.fetch_and_build_frame u w w1 w2 w3 w4 w5 _ _ _ _ _ _
              Hmk Hcl Hrev Hb Hps) as (Hframe & (t & Hrem & ->) & ->).
  rewrite Hnone in Hcases. cbn zeta in Hcases.
  destruct Hcases as [(_ & w6 & w7 & port & runOut & Hscan & Hrunc & ->)
                     |(Hid & _)]; [|exfalso; apply Hid; reflexivity].
  match type of Hscan with
  | findFreePort host ?s = _ =>
      destruct (RefFacts.findFreePort_lowest_free s)
        as [(p & Hp & Hrange & Hfree & Hlow)|(Hp & _)];
      rewrite Hp in Hscan; [|discriminate]
  end.
  injection Hscan as <- <-. cbn [world] in *.
  apply RefFacts.run_ok in Hrunc.
  destruct Hrunc as (id & ids & Hfresh & _ & _ & ->).
  pose proof Hframe as (Hl & Hh & Hc & Hf & Hr).
  exists t, id, ids, p.
  change (RemoveAll host tempDir) with (remove_dir tempDir).
  cbn [world containers fresh_ids remove_dir set_dirs set_containers].
  rewrite Hc. rewrite Hf in Hfresh.
  repeat split; try assumption; try lia.
  - rewrite <- (RefFacts.same_runtime_port_bound w w5) by exact Hframe.
    exact Hfree.
  - intros q Hq.
    rewrite <- (RefFacts.same_runtime_port_bound w w5) by exact Hframe.
    now apply Hlow.
Qed.

(** A deploy over the one running container of the project: the machine
    after it. *)
Lemma redeploy_effect (u : url.URL) (w : World) (prior : Container) (P : Z)
      (st' : St World) :
  well_formed w ->
  filter (of_image (imageName u)) (containers w) = [prior] ->
  cport prior = Some P ->
  0 <= P < 2 ^ 63 ->
  run (CloneAndBuild host u) w = (st', Return tt) ->
  exists t id ids,
    remote w u = Some t
    /\ fresh_ids w = id :: ids
    /\ containers (world st')
       = {| cid := id;
            cimage := imageFullName u (strings.TrimSpace (head t ++ newline));
            cport := Some P |}
         :: filter (fun c => negb (String.eqb (cid c) (cid prior)))
                   (containers w)
    /\ fresh_ids (world st') = ids.
Proof.
  intros Hwf Hone Hport HP Hrun.
  destruct (CloneAndBuild_success host u w st' Hrun)
    as (tempDir & w1 & w2 & w3 & w4 & w5 & cloneOut & rev & buildOut & psOut
        & Hmk & Hcl & _ & Hrev & Hb & Hps & Hcases).
  destruct (RefFacts.fetch_and_build_frame u w w1 w2 w3 w4 w5 _ _ _ _ _ _
              Hmk Hcl Hrev Hb Hps) as (Hframe & (t & Hrem & ->) & ->).
  assert (Hlisted : filter (of_image (imageName u)) (containers w) <> [])
    by (rewrite Hone; discriminate).
  cbn zeta in Hcases.
  destruct Hcases as [(Hid & _)
                     |(Hid & w6 & w7 & w8 & portOut & field & port & rmOut
                       & runOut & Hpq & Hfield & Hatoi & Hrm & Hrunc & ->)].
  { exfalso. exact (RefFacts.probe_not_empty w _ Hwf Hlisted Hid). }
  destruct Hframe as (Hl & Hh & Hc & Hf & Hr).
  apply RefFacts.port_ok in Hpq. destruct Hpq as (-> & c & Hfind & ->).
  apply RefFacts.find_container_some in Hfind. destruct Hfind as [Hcin Hcid].
  rewrite Hc in Hcin.
  pose proof (RefFacts.probe_single w (imageName u) c Hwf Hcin Hcid Hlisted)
    as Hsingle.
  assert (c = prior) by (rewrite Hone in Hsingle; now injection Hsingle).
  subst c. rewrite <- Hcid in *. rewrite Hport in Hfield.
  rewrite port_line_field in Hfield. injection Hfield as <-.
  rewrite Atoi_Itoa in Hatoi by lia. injection Hatoi as <-.
  apply RefFacts.rm_ok in Hrm. subst w7.
  apply RefFacts.run_ok in Hrunc.
  destruct Hrunc as (id & ids & Hfresh & _ & _ & ->).
  cbn [fresh_ids set_containers containers] in Hfresh.
  exists t, id, ids.
  change (RemoveAll host tempDir) with (remove_dir tempDir).
  cbn [world containers fresh_ids remove_dir set_dirs set_containers].
  rewrite Hc. rewrite Hf in Hfresh.
  repeat split; assumption.
Qed.

(** A first deploy leaves the machine ready for the next. *)
Lemma ready_after_first_deploy (w : World) (new : Container)
      (ids : list string) :
  ready w ->
  fresh_ids w = cid new :: ids ->
  well_formed
    (set_containers w (new :: containers w) ids).
Proof.
  intros ((Hvalid & Hnodup & Hnew) & Hnd & Hfv) Hfresh.
  rewrite Hfresh in *.
  inversion Hnd as [|x l Hnotin Hnd']; subst.
  split; [|split]; cbn [containers fresh_ids set_containers map].
  - intros c [<-|Hc]; [apply Hfv; now left|now apply Hvalid].
  - constructor; [|exact Hnodup]. apply Hnew. now left.
  - intros id Hid [Heq|Hold].
    + apply Hnotin. rewrite Heq. exact Hid.
    + apply (Hnew id); [now right|exact Hold].
Qed.

End RefDeploys.

(** X12. On the reference host a run, however it ends, leaves no TCP port
    bound and no listener changed, and of the directories it touches its
    own only, which is gone at the end: the others are as they were. *)
Theorem X12_run_leaves_ports_and_other_directories
        (repoURL : url.URL) (w : Ref.World) :
  let w' := world (fst (run (CloneAndBuild Ref.host repoURL) w)) in
  Ref.held w' = Ref.held w
  /\ Ref.listeners w' = Ref.listeners w
  /\ Ref.dirs w'
     = match Ref.scratch w with
       | Ok d => filter (fun e => negb (String.eqb (fst e) d)) (Ref.dirs w)
       | Err _ => Ref.dirs w
       end.
Proof.
  destruct (RefRuns.run_frame repoURL w) as (Hh & Hl & _ & _ & Hd).
  repeat split; assumption.
Qed.

(** X13. There is no way back from the removal: when the one running
    container of the project has been removed and [docker run] then fails,
    the run returns [failed to run Docker container] and ends; the old
    container stays removed and no container of the project's image name
    runs any more. *)
Theorem X13_failed_start_leaves_no_instance
        (repoURL : url.URL) (w : Ref.World) (prior : Ref.Container)
        (e : Event) (port : Z) (image : string) (err : error) :
  well_formed w ->
  filter (Ref.of_image (imageName repoURL)) (Ref.containers w) = [prior] ->
  In e (trace (fst (run (CloneAndBuild Ref.host repoURL) w))) ->
  ev_cmd e = docker_run port image ->
  ev_err e = Some err ->
  snd (run (CloneAndBuild Ref.host repoURL) w)
    = Fail (wrapError "failed to run Docker container: %w" err [])
  /\ Ref.containers (world (fst (run (CloneAndBuild Ref.host repoURL) w)))
     = filter (fun c => negb (String.eqb (Ref.cid c) (Ref.cid prior)))
              (Ref.containers w)
  /\ filter (Ref.of_image (imageName repoURL))
            (Ref.containers
               (world (fst (run (CloneAndBuild Ref.host repoURL) w))))
     = [].
Proof.
  intros Hwf Hone.
  assert (Hlisted : filter (Ref.of_image (imageName repoURL)) (Ref.containers w)
                    <> [])
    by (rewrite Hone; discriminate).
  RefRuns.ref_cases (run (CloneAndBuild Ref.host repoURL) w);
    intros Hin Hcmd Herr; in_trace; cbn [ev_cmd ev_err] in Hcmd, Herr;
    try discriminate Hcmd; try discriminate Herr;
    injection Herr as ->; injection Hcmd as <- <-;
    match goal with
    | Hmk : MkdirTemp Ref.host w = _,
      Hcl : Exec Ref.host (git_clone _ _) _ = _,
      Hrev : Exec Ref.host (git_rev_parse _) _ = _,
      Hb : Exec Ref.host (docker_build _ _) _ = _,
      Hps : Exec Ref.host (docker_ps _) _ = _ |- _ =>
        destruct (RefFacts.fetch_and_build_frame _ _ _ _ _ _ _ _ _ _ _ _ _
                    Hmk Hcl Hrev Hb Hps)
          as ((Hl & Hh & Hc & Hf & Hr) & (t & Hrem & ->) & ->)
    end.
  - (* the probe printed nothing: it lists a container *)
    exfalso.
    match goal with
    | Hid : String.eqb _ "" = true |- _ => apply String.eqb_eq in Hid;
        exact (RefFacts.probe_not_empty w _ Hwf Hlisted Hid)
    end.
  - match goal with
    | Hpq : Exec Ref.host (docker_port _) _ = _,
      Hrm : Exec Ref.host (docker_rm _) _ = _,
      Hrun : Exec Ref.host (docker_run _ _) _ = _ |- _ =>
        apply RefFacts.port_ok in Hpq; destruct Hpq as (-> & c & Hfind & _);
        apply RefFacts.rm_ok in Hrm; apply RefRuns.exec_failed in Hrun
    end.
    subst.
    apply RefFacts.find_container_some in Hfind. destruct Hfind as [Hcin Hcid].
    rewrite Hc in Hcin.
    pose proof (RefFacts.probe_single w (imageName repoURL) c Hwf Hcin Hcid
                                      Hlisted) as Hsingle.
    assert (c = prior) by (rewrite Hone in Hsingle; now injection Hsingle).
    subst c. rewrite <- Hcid.
    change (RemoveAll Ref.host) with Ref.remove_dir.
    cbn [Ref.remove_dir Ref.set_dirs Ref.set_containers Ref.containers].
    rewrite Hc.
    split; [reflexivity|]. split; [reflexivity|].
    rewrite RefFacts.filter_comm, Hone. cbn.
    now rewrite String.eqb_refl.
Qed.

(** X13 on the sample machine that runs [a1b2c3] and cannot create another
    container. *)
Lemma X13_witness :
  snd (run (CloneAndBuild Ref.host Sample.repo)
           (Machines.exhausted [Sample.earlier]))
    = Fail (wrapError "failed to run Docker container: %w"
                      (errorString "exit status 125") [])
  /\ Ref.containers
       (world (fst (run (CloneAndBuild Ref.host Sample.repo)
                        (Machines.exhausted [Sample.earlier]))))
     = filter (fun c => negb (String.eqb (Ref.cid c) (Ref.cid Sample.earlier)))
              (Ref.containers (Machines.exhausted [Sample.earlier]))
  /\ filter (Ref.of_image (imageName Sample.repo))
            (Ref.containers
               (world (fst (run (CloneAndBuild Ref.host Sample.repo)
                                (Machines.exhausted [Sample.earlier])))))
     = [].
Proof.
  apply (X13_failed_start_leaves_no_instance
           Sample.repo (Machines.exhausted [Sample.earlier]) Sample.earlier
           {| ev_cmd := docker_run 3005 "github.com/user/repo:abc1234";
              ev_output := "cannot create container" ++ Ref.newline;
              ev_err := Ref.exit_status "125" |}
           3005 "github.com/user/repo:abc1234").
  - split; [|split].
    + intros c [<-|[]]. reflexivity.
    + cbn. constructor; [intros []|constructor].
    + cbn. intros id [].
  - reflexivity.
  - vm_compute. tauto.
  - reflexivity.
  - reflexivity.
Defined.

(** X14. Two deploys of a project in a row on a machine that ran none of
    its containers: the first starts a container on the lowest free port
    from 3000, the second replaces it by a new container on that same
    port.  After each of them one container of the project runs, and the
    other containers are as they were. *)
Theorem X14_second_deploy_takes_over_the_port
        (repoURL : url.URL) (w : Ref.World) (st1 st2 : St Ref.World) :
  ready w ->
  (forall t, Ref.remote w repoURL = Some t -> valid_id (Ref.head t) = true) ->
  filter (Ref.of_image (imageName repoURL)) (Ref.containers w) = [] ->
  run (CloneAndBuild Ref.host repoURL) w = (st1, Return tt) ->
  run (CloneAndBuild Ref.host repoURL) (world st1) = (st2, Return tt) ->
  exists first second port,
    Ref.containers (world st1) = first :: Ref.containers w
    /\ Ref.containers (world st2) = second :: Ref.containers w
    /\ Ref.cport first = Some port
    /\ Ref.cport second = Some port
    /\ Ref.cimage second = Ref.cimage first
    /\ Ref.cid second <> Ref.cid first
    /\ 3000 <= port <= 65535
    /\ Ref.port_bound w port = false
    /\ (forall q, 3000 <= q < port -> Ref.port_bound w q = true).
Proof.
  intros Hready Hhead Hnone Hrun1 Hrun2.
  pose proof Hready as (Hwf & Hnd & Hfv).
  destruct (RefDeploys.first_deploy_effect repoURL w st1 Hwf Hnone Hrun1)
    as (t & id & ids & port & Hrem & Hfresh & Hrange & Hfree & Hlow
        & Hcs1 & Hids1).
  rewrite (RefDeploys.tag_of_head t (Hhead t Hrem)) in Hcs1.
  set (first := {| Ref.cid := id;
                   Ref.cimage := imageFullName repoURL (Ref.head t);
                   Ref.cport := Some port |}) in *.
  assert (Hwf1 : well_formed (world st1)).
  { pose proof (RefDeploys.ready_after_first_deploy w first ids Hready Hfresh)
      as (A & B & C).
    unfold well_formed.
    cbn [Ref.containers Ref.fresh_ids Ref.set_containers] in A, B, C.
    rewrite Hcs1, Hids1. auto. }
  assert (Hrem1 : Ref.remote (world st1) = Ref.remote w).
  { pose proof (RefRuns.run_frame repoURL w) as (_ & _ & Hr & _).
    rewrite Hrun1 in Hr. exact Hr. }
  assert (Hold : forall c, In c (Ref.containers w) ->
                           negb (String.eqb (Ref.cid c) id) = true).
  { intros c Hc. apply negb_true_iff, String.eqb_neq. intros Heq.
    destruct Hwf as (_ & _ & Hnew). apply (Hnew id).
    - rewrite Hfresh. now left.
    - rewrite <- Heq. now apply in_map. }
  assert (Hone : filter (Ref.of_image (imageName repoURL))
                        (Ref.containers (world st1)) = [first]).
  { rewrite Hcs1. cbn [filter]. unfold first.
    rewrite RefDeploys.of_image_new by (apply Hhead; exact Hrem).
    now rewrite Hnone. }
  destruct (RefDeploys.redeploy_effect repoURL (world st1) first port st2
              Hwf1 Hone eq_refl ltac:(lia) Hrun2)
    as (t' & id' & ids' & Hrem' & Hfresh' & Hcs2 & _).
  rewrite Hrem1, Hrem in Hrem'. injection Hrem' as <-.
  rewrite (RefDeploys.tag_of_head t (Hhead t Hrem)) in Hcs2.
  rewrite Hids1 in Hfresh'. subst ids.
  rewrite Hcs1 in Hcs2. cbn [filter Ref.cid first] in Hcs2.
  unfold first in Hcs2 at 1. cbn [Ref.cid] in Hcs2.
  rewrite String.eqb_refl in Hcs2. cbn [negb] in Hcs2.
  rewrite (RefDeploys.filter_none _ _ Hold) in Hcs2.
  eexists first, _, port.
  split; [exact Hcs1|]. split; [exact Hcs2|].
  cbn [Ref.cport Ref.cimage Ref.cid first].
  repeat split; try reflexivity; try assumption; try lia.
  intros Heq. rewrite Hfresh in Hnd.
  inversion Hnd as [|x l Hnotin Hnd']; subst.
  apply Hnotin. rewrite Hfresh'. left. reflexivity.
Qed.

(** X14 on the sample machine with the port 3000 taken. *)
Lemma X14_witness :
  exists first second port,
    Ref.containers
      (world (fst (run (CloneAndBuild Ref.host Sample.repo)
                       (Sample.machine [3000] []))))
    = first :: Ref.containers (Sample.machine [3000] [])
    /\ Ref.containers
         (world (fst (run (CloneAndBuild Ref.host Sample.repo)
                          (world (fst (run (CloneAndBuild Ref.host Sample.repo)
                                           (Sample.machine [3000] [])))))))
       = second :: Ref.containers (Sample.machine [3000] [])
    /\ Ref.cport first = Some port
    /\ Ref.cport second = Some port
    /\ Ref.cimage second = Ref.cimage first
    /\ Ref.cid second <> Ref.cid first
    /\ 3000 <= port <= 65535
    /\ Ref.port_bound (Sample.machine [3000] []) port = false
    /\ (forall q, 3000 <= q < port ->
                  Ref.port_bound (Sample.machine [3000] []) q = true).
Proof.
  apply (X14_second_deploy_takes_over_the_port
           Sample.repo (Sample.machine [3000] [])).
  - split; [|split].
    + split; [|split].
      * intros c [].
      * constructor.
      * intros id _ [].
    + cbn. constructor; [intros [Heq|[]]; discriminate Heq|].
      constructor; [intros []|constructor].
    + cbn. intros id [<-|[<-|[]]]; reflexivity.
  - intros t Heq. vm_compute in Heq. injection Heq as <-. reflexivity.
  - reflexivity.
  - vm_compute. reflexivity.
  - vm_compute. reflexivity.
Defined.

(** * The older version of package [main] *)

(** ** [path.Base] *)

Lemma LastIndexByte_none (s : string) (c : ascii) :
  strings.CountByte s c = O -> strings.LastIndexByte s c = None.
Proof.
  induction s as [|a r IH]; [reflexivity|].
  cbn. destruct (Ascii.eqb a c); [discriminate|].
  intros Hc. now rewrite IH.
Qed.

Lemma CountByte_rev (s : string) (c : ascii) :
  strings.CountByte (string_rev s) c = strings.CountByte s c.
Proof.
  induction s as [|a r IH]; [reflexivity|].
  rewrite string_rev_cons, CountByte_app, IH. cbn.
  destruct (Ascii.eqb a c); lia.
Qed.

Lemma drop_slashes_plain (s : string) :
  s <> "" -> strings.CountByte s "/" = O -> forall t,
  path.drop_slashes (s ++ t) = s ++ t.
Proof.
  destruct s as [|a r]; [congruence|].
  intros _ Hc t. cbn in *.
  destruct (Ascii.eqb a "/"); [discriminate|reflexivity].
Qed.

Lemma string_rev_nil (s : string) : string_rev s = "" -> s = "".
Proof.
  intros Hr. rewrite <- (string_rev_involutive s), Hr. reflexivity.
Qed.

(** The base of an address that ends with a slash and a name is the
    name. *)
Lemma Base_last (prefix name : string) :
  name <> "" -> strings.CountByte name "/" = O ->
  path.Base (prefix ++ "/" ++ name) = name.
Proof.
  intros Hne Hc. unfold path.Base.
  destruct (String.eqb_spec (prefix ++ "/" ++ name) "") as [Heq|_].
  { destruct prefix; discriminate Heq. }
  rewrite string_rev_app, string_rev_app.
  rewrite string_app_assoc.
  rewrite drop_slashes_plain;
    [|intros Hr; apply Hne, string_rev_nil, Hr|now rewrite CountByte_rev].
  rewrite <- string_app_assoc, <- string_rev_app, <- string_rev_app.
  rewrite string_rev_involutive.
  cbn [append].
  rewrite LastIndexByte_app by (now apply LastIndexByte_none).
  assert (Hd : string_drop (S (String.length prefix))
                           (prefix ++ String "/" name) = name).
  { clear. induction prefix as [|a r IH]; [reflexivity|exact IH]. }
  rewrite Hd.
  destruct (String.eqb_spec name "") as [Heq|_]; [congruence|reflexivity].
Qed.

(** ** The older pipeline on every host *)
Section LegacyAnyHost.
Context {W : Type} (H : Legacy.Host W).

Lemma Legacy_findFreePort_loop_result (n : nat) (port : Z)
      (s : St (Legacy.State W)) :
  exists w',
    fst (Legacy.findFreePort_loop H n port s)
    = {| world := {| Legacy.machine := w';
                     Legacy.started := Legacy.started (world s) |};
         trace := trace s |}
    /\ ((exists p, snd (Legacy.findFreePort_loop H n port s) = Return p
                   /\ port <= p < port + Z.of_nat n)
        \/ snd (Legacy.findFreePort_loop H n port s) = Fail no_free_ports).
Proof.
  revert port s.
  induction n as [|k IH]; intros port s.
  - exists (Legacy.machine (world s)). destruct s as [[m st] tr]; simpl; auto.
  - cbn [Legacy.findFreePort_loop].
    unfold bind, Legacy.call, lift.
    destruct (Legacy.Listen H port (Legacy.machine (world s))) as [w1 [e|]] eqn:HL;
      cbn [world trace Legacy.machine Legacy.started].
    + match goal with
      | |- context [Legacy.findFreePort_loop H k (port + 1) ?s1] =>
          destruct (IH (port + 1) s1) as (w' & Hst & Hres)
      end.
      cbn [world trace Legacy.machine Legacy.started] in Hst.
      exists w'. split; [exact Hst|].
      destruct Hres as [(p & Hp & Hr)|Hf]; [left|right; exact Hf].
      exists p. split; [exact Hp|lia].
    + unfold ret. cbn.
      eexists. split; [reflexivity|].
      left. exists port. split; [reflexivity|lia].
Qed.

Lemma Legacy_findFreePort_result (s : St (Legacy.State W)) :
  exists w',
    fst (Legacy.findFreePort H s)
    = {| world := {| Legacy.machine := w';
                     Legacy.started := Legacy.started (world s) |};
         trace := trace s |}
    /\ ((exists p, snd (Legacy.findFreePort H s) = Return p
                   /\ 3000 <= p <= 65535)
        \/ snd (Legacy.findFreePort H s) = Fail no_free_ports).
Proof.
  unfold Legacy.findFreePort.
  destruct (Legacy_findFreePort_loop_result
              (Z.to_nat (65535 - 3000 + 1)) 3000 s) as (w' & Hst & Hres).
  exists w'. split; [exact Hst|].
  destruct Hres as [(p & Hp & Hr)|Hf]; [left|right; exact Hf].
  exists p. split; [exact Hp|].
  rewrite Z2Nat.id in Hr by lia. lia.
Qed.

End LegacyAnyHost.

(** One more call of the host [H] decided in the equation [HR] of a run of
    the older pipeline. *)
Ltac next_legacy_case H HR :=
  match type of HR with
  | context [Legacy.MkdirTemp H ?w] =>
      destruct (Legacy.MkdirTemp H w) as [? [? [?|]]] eqn:?
  | context [Legacy.Exec H ?c ?w] =>
      destruct (Legacy.Exec H c w) as [? [? [?|]]] eqn:?
  | context [Legacy.StatIsNotExist H ?p ?w] =>
      destruct (Legacy.StatIsNotExist H p w) eqn:?
  | context [Legacy.findFreePort H ?s] =>
      let w := fresh "w" in
      let Hst := fresh "Hscan" in
      let Hres := fresh "Hport" in
      let st := fresh "st" in
      let r := fresh "r" in
      destruct (Legacy_findFreePort_result H s) as (w & Hst & Hres);
      destruct (Legacy.findFreePort H s) as [st r] eqn:?;
      cbn [fst snd world trace Legacy.machine Legacy.started] in Hst, Hres;
      subst st;
      destruct r as [?|?|?];
      [ | destruct Hres as [(? & ? & _)|Hres];
          [discriminate|injection Hres as ->]
        | destruct Hres as [(? & ? & _)|?]; discriminate ]
  end;
  cbn [world trace fst snd app Legacy.machine Legacy.started] in HR.

Ltac legacy_cases H r :=
  let R := fresh "R" in
  let HR := fresh "HR" in
  remember r as R eqn:HR;
  unfold Legacy.run, Legacy.CloneAndBuild, Legacy.Run, Legacy.CombinedOutput,
    Legacy.call, Legacy.cleanup, defer, check, rethrow, lift, bind, ret, fail
    in HR;
  cbn [world trace fst snd Legacy.machine Legacy.started] in HR;
  repeat next_legacy_case H HR;
  subst R; cbn [world trace fst snd Legacy.machine Legacy.started] in *.

Ltac in_started :=
  repeat match goal with
         | Hin : In _ (_ :: _) |- _ => destruct Hin as [Hin|Hin]
         | Hin : In _ [] |- _ => destruct Hin
         | Heq : Legacy.Build_Event _ _ _ = Legacy.Build_Event _ _ _ |- _ =>
             first [discriminate Heq | inversion Heq; subst; clear Heq]
         | Heq : Legacy.Build_Event _ _ _ = ?v |- _ => is_var v; subst v
         end.

Section LegacyPipeline.
Context {W : Type} (H : Legacy.Host W).

(** Once the directory is created, the clone is the first process, with
    the address as it was given. *)
Lemma Legacy_starts_with_clone (repoURL : string) (w w1 : W)
      (tempDir : string) :
  Legacy.MkdirTemp H w = (w1, (tempDir, None)) ->
  exists out err rest,
    Legacy.started (fst (Legacy.run (Legacy.CloneAndBuild H repoURL) w))
    = {| Legacy.ev_cmd := Legacy.git_clone repoURL tempDir;
         Legacy.ev_output := out; Legacy.ev_err := err |} :: rest.
Proof.
  legacy_cases H (Legacy.run (Legacy.CloneAndBuild H repoURL) w);
    intros Hmk; try discriminate Hmk;
    injection Hmk as <- <-; do 3 eexists; reflexivity.
Qed.

End LegacyPipeline.

Section LegacyFacts.
Context {W : Type} (H : Legacy.Host W).

(** The older handler on a body that decodes. *)
Lemma Legacy_handleDeploy_decoded (r : Request) (w : W) (payload : RequestPayload) :
  decodeRequestPayload (Body r) {| URL := "" |} = (payload, None) ->
  fst (Legacy.run (Legacy.handleDeploy H r) w)
  = fst (Legacy.run (Legacy.CloneAndBuild H (URL payload)) w)
  /\ snd (Legacy.run (Legacy.handleDeploy H r) w)
     = match snd (Legacy.run (Legacy.CloneAndBuild H (URL payload)) w) with
       | Return _ => Return processed
       | Fail _ => Return (http_Error "Internal server error"
                                      StatusInternalServerError)
       | Panic msg => Panic msg
       end.
Proof.
  intros Hdec. unfold Legacy.run, Legacy.handleDeploy. rewrite Hdec.
  unfold bind, returned_error, ret.
  destruct (Legacy.CloneAndBuild H (URL payload) _) as [s' [[]|e|msg]];
    split; reflexivity.
Qed.

End LegacyFacts.

(** X16. The older [handleDeploy] does not look at the URL: whatever text a
    body that decodes gives for it (no URL at all, or a text [url.Parse]
    refuses), the pipeline runs with that text; once the directory is
    created [git clone] is started with it, unchanged, and the answer is
    200 or 500.  A body that does not decode is answered 400 and nothing is
    started. *)
Theorem X16_old_handler_takes_any_address
        (W : Type) (H : Legacy.Host W) (r : Request) (w : W) :
  let decoded := decodeRequestPayload (Body r) {| URL := "" |} in
  (snd decoded <> None ->
   Legacy.run (Legacy.handleDeploy H r) w
   = ({| Legacy.machine := w; Legacy.started := [] |},
      Return (http_Error "Invalid request payload" StatusBadRequest)))
  /\ (snd decoded = None ->
      (forall resp,
          snd (Legacy.run (Legacy.handleDeploy H r) w) = Return resp ->
          resp = processed
          \/ resp = http_Error "Internal server error"
                               StatusInternalServerError)
      /\ (forall w1 tempDir,
             Legacy.MkdirTemp H w = (w1, (tempDir, None)) ->
             exists out err rest,
               Legacy.started (fst (Legacy.run (Legacy.handleDeploy H r) w))
               = {| Legacy.ev_cmd :=
                      Legacy.git_clone (URL (fst decoded)) tempDir;
                    Legacy.ev_output := out; Legacy.ev_err := err |} :: rest)).
Proof.
  cbn zeta.
  destruct (decodeRequestPayload (Body r) {| URL := "" |})
    as [payload [e|]] eqn:Hdec; cbn [fst snd]; split.
  - intros _. unfold Legacy.run, Legacy.handleDeploy. rewrite Hdec. reflexivity.
  - intros Hn. discriminate Hn.
  - intros Hn. congruence.
  - intros _.
    destruct (Legacy_handleDeploy_decoded H r w payload Hdec) as (Hfst & Hsnd).
    split.
    + intros resp Hresp. rewrite Hsnd in Hresp.
      destruct (snd (Legacy.run (Legacy.CloneAndBuild H (URL payload)) w));
        try discriminate Hresp; injection Hresp as <-; auto.
    + intros w1 tempDir Hmk. rewrite Hfst.
      exact (Legacy_starts_with_clone H (URL payload) w w1 tempDir Hmk).
Qed.

(** X17. The older version names the image after the last element of the
    address alone: for an address that ends with a slash and a name, every
    image reference handed to [docker build] and [docker run] is that name,
    whatever comes before the slash.  Repositories of different hosts or
    owners with the same name share one image name. *)
Theorem X17_old_image_name_is_last_element
        (W : Type) (H : Legacy.Host W) (before name : string) (w : W) :
  name <> "" ->
  strings.CountByte name "/" = O ->
  Forall (eq name)
         (Legacy.image_refs
            (Legacy.started
               (fst (Legacy.run
                       (Legacy.CloneAndBuild H (before ++ "/" ++ name)) w)))).
Proof.
  intros Hne Hc.
  legacy_cases H (Legacy.run (Legacy.CloneAndBuild H (before ++ "/" ++ name)) w);
    unfold Legacy.image_refs; cbn [flat_map Legacy.ev_cmd app];
    rewrite ?(Base_last before name Hne Hc);
    repeat constructor.
Qed.

(** X17 on the sample machine. *)
Lemma X17_witness :
  Forall (eq "repo")
         (Legacy.image_refs
            (Legacy.started
               (fst (Legacy.run
                       (Legacy.CloneAndBuild LegacyRef.host
                          ("https://github.com/user" ++ "/" ++ "repo"))
                       (Sample.machine [] []))))).
Proof.
  apply (X17_old_image_name_is_last_element
           Ref.World LegacyRef.host "https://github.com/user" "repo"
           (Sample.machine [] [])).
  - discriminate.
  - reflexivity.
Defined.

(** X18. A run of the older pipeline starts its tools at most once, in the
    order clone, build, run.  A process that returns an error is the last
    one, and the run returns that error, wrapped.  The container of a
    [docker run] is published on a port of 3000..65535.  And the directory
    of the run is removed on every exit: the removal is the last thing done
    to the machine. *)
Theorem X18_old_pipeline_one_pass
        (W : Type) (H : Legacy.Host W) (repoURL : string) (w : W) :
  let r := Legacy.run (Legacy.CloneAndBuild H repoURL) w in
  prefix_of (map (fun e => Legacy.stage (Legacy.ev_cmd e))
                 (Legacy.started (fst r))) [0; 1; 2]%nat = true
  /\ (forall e err,
         In e (Legacy.started (fst r)) -> Legacy.ev_err e = Some err ->
         (exists before, Legacy.started (fst r) = (before ++ [e])%list)
         /\ exists format args, snd r = Fail (wrapError format err args))
  /\ (forall e port image,
         In e (Legacy.started (fst r)) ->
         Legacy.ev_cmd e = Legacy.docker_run port image ->
         3000 <= port <= 65535)
  /\ (forall w1 tempDir,
         Legacy.MkdirTemp H w = (w1, (tempDir, None)) ->
         exists w2, Legacy.machine (fst r) = Legacy.RemoveAll H tempDir w2).
Proof.
  cbn zeta.
  legacy_cases H (Legacy.run (Legacy.CloneAndBuild H repoURL) w);
    (split; [reflexivity|]); (split; [|split]).
  all: try (intros ev err' Hin Herr; in_started; cbn [Legacy.ev_err] in Herr;
            try discriminate Herr; injection Herr as ->;
            (split;
             [ lazymatch goal with
               | |- exists before, ?l = _ => exists (removelast l); reflexivity
               end
             | do 2 eexists; reflexivity ])).
  all: try (intros ev port' image' Hin Hcmd; in_started;
            cbn [Legacy.ev_cmd] in Hcmd;
            try discriminate Hcmd; injection Hcmd as <- <-;
            (destruct Hport as [(p & Hp & Hrange)|Hp]; [|discriminate Hp]);
            injection Hp as <-; exact Hrange).
  all: intros w1' tempDir Hmk; try discriminate Hmk;
    injection Hmk as <- <-; eexists; reflexivity.
Qed.

(** ** The older pipeline on the reference host *)
Module LegacyRuns.
Import Ref.

(** The scan of the older version: the lowest port that is not bound; the
    machine is left as it was. *)
Lemma legacy_scan_lowest_free (n : nat) (port : Z) (s : St (Legacy.State World)) :
  (exists p,
      Legacy.findFreePort_loop LegacyRef.host n port s = (s, Return p)
      /\ port <= p < port + Z.of_nat n
      /\ port_bound (Legacy.machine (world s)) p = false
      /\ forall q, port <= q < p ->
                   port_bound (Legacy.machine (world s)) q = true)
  \/ (Legacy.findFreePort_loop LegacyRef.host n port s
      = (s, Fail no_free_ports)
      /\ forall q, port <= q < port + Z.of_nat n ->
                   port_bound (Legacy.machine (world s)) q = true).
Proof.
  assert (Hs : forall s0 : St (Legacy.State World),
             {| world := {| Legacy.machine := Legacy.machine (world s0);
                            Legacy.started := Legacy.started (world s0) |};
                trace := trace s0 |} = s0)
    by (intros [[m st] tr]; reflexivity).
  revert port.
  induction n as [|k IH]; intros port.
  - right. split; [reflexivity|]. intros q Hq. lia.
  - cbn [Legacy.findFreePort_loop].
    unfold bind, Legacy.call, lift, ret.
    change (Legacy.Listen LegacyRef.host) with (Listen host).
    change (Legacy.Close LegacyRef.host) with (Close host).
    destruct (port_bound (Legacy.machine (world s)) port) eqn:Hb.
    + destruct (RefFacts.listen_bound _ _ Hb) as (e & HL). rewrite HL.
      cbn [world trace Legacy.machine Legacy.started]. rewrite Hs.
      destruct (IH (port + 1)) as [(p & Hrun & Hp & Hfree & Hlow)|(Hrun & Hall)].
      * left. exists p. split; [exact Hrun|].
        split; [lia|]. split; [exact Hfree|].
        intros q Hq. destruct (Z.eq_dec q port) as [->|Hne]; [exact Hb|].
        apply Hlow. lia.
      * right. split; [exact Hrun|].
        intros q Hq. destruct (Z.eq_dec q port) as [->|Hne]; [exact Hb|].
        apply Hall. lia.
    + destruct (RefFacts.listen_close _ _ Hb) as (Hw & Herr).
      destruct (Listen host port (Legacy.machine (world s))) as [w1 err] eqn:HL.
      cbn [fst snd] in Hw, Herr. subst err.
      cbn [world trace Legacy.machine Legacy.started].
      rewrite Hw, Hs.
      left. exists port. split; [reflexivity|].
      split; [lia|]. split; [exact Hb|]. intros q Hq. lia.
Qed.

Lemma legacy_findFreePort_lowest_free (s : St (Legacy.State World)) :
  (exists p,
      Legacy.findFreePort LegacyRef.host s = (s, Return p)
      /\ 3000 <= p <= 65535
      /\ port_bound (Legacy.machine (world s)) p = false
      /\ forall q, 3000 <= q < p ->
                   port_bound (Legacy.machine (world s)) q = true)
  \/ (Legacy.findFreePort LegacyRef.host s = (s, Fail no_free_ports)
      /\ forall q, 3000 <= q <= 65535 ->
                   port_bound (Legacy.machine (world s)) q = true).
Proof.
  unfold Legacy.findFreePort.
  destruct (legacy_scan_lowest_free (Z.to_nat (65535 - 3000 + 1)) 3000 s)
    as [(p & Hrun & Hp & Hfree & Hlow)|(Hrun & Hall)];
    rewrite Z2Nat.id in * by lia.
  - left. exists p. repeat split; try assumption; lia.
  - right. split; [exact Hrun|]. intros q Hq. apply Hall. lia.
Qed.

(** A run of the older pipeline that returns [nil]. *)
Lemma legacy_success (repoURL : string) (w : World) (st' : Legacy.State World) :
  Legacy.run (Legacy.CloneAndBuild LegacyRef.host repoURL) w
  = (st', Return tt) ->
  exists tempDir w1 w2 w3 w4 cloneOut buildOut port runOut,
    MkdirTemp host w = (w1, (tempDir, None))
    /\ LegacyRef.exec (Legacy.git_clone repoURL tempDir) w1
       = (w2, (cloneOut, None))
    /\ Exec host (docker_build (path.Base repoURL) tempDir) w2
       = (w3, (buildOut, None))
    /\ 3000 <= port <= 65535
    /\ port_bound w3 port = false
    /\ (forall q, 3000 <= q < port -> port_bound w3 q = true)
    /\ Exec host (docker_run port (path.Base repoURL)) w3
       = (w4, (runOut, None))
    /\ Legacy.machine st' = remove_dir tempDir w4.
Proof.
  remember (Legacy.run (Legacy.CloneAndBuild LegacyRef.host repoURL) w)
    as R eqn:HR.
  unfold Legacy.run, Legacy.CloneAndBuild, Legacy.Run, Legacy.CombinedOutput,
    Legacy.call, Legacy.cleanup, defer, check, rethrow, lift, bind, ret, fail
    in HR.
  cbn [world trace fst snd Legacy.machine Legacy.started] in HR.
  destruct (Legacy.MkdirTemp LegacyRef.host w) as [w1 [tempDir [e|]]] eqn:Hmk;
    cbn [world trace fst snd app Legacy.machine Legacy.started] in HR;
    [subst R; discriminate|].
  destruct (Legacy.Exec LegacyRef.host (Legacy.git_clone repoURL tempDir) w1)
    as [w2 [cloneOut [e|]]] eqn:Hcl;
    cbn [world trace fst snd app Legacy.machine Legacy.started] in HR;
    [subst R; discriminate|].
  destruct (Legacy.StatIsNotExist LegacyRef.host _ w2) eqn:Hst;
    cbn [world trace fst snd app Legacy.machine Legacy.started] in HR;
    [subst R; discriminate|].
  destruct (Legacy.Exec LegacyRef.host
              (Legacy.docker_build (path.Base repoURL) tempDir) w2)
    as [w3 [buildOut [e|]]] eqn:Hb;
    cbn [world trace fst snd app Legacy.machine Legacy.started] in HR;
    [subst R; discriminate|].
  match type of HR with
  | context [Legacy.findFreePort LegacyRef.host ?s] =>
      destruct (legacy_findFreePort_lowest_free s)
        as [(p & Hp & Hrange & Hfree & Hlow)|(Hp & _)];
      rewrite Hp in HR;
      cbn [world trace fst snd app Legacy.machine Legacy.started] in *
  end; [|subst R; discriminate].
  destruct (Legacy.Exec LegacyRef.host
              (Legacy.docker_run p (path.Base repoURL)) w3)
    as [w4 [runOut [e|]]] eqn:Hrun;
    cbn [world trace fst snd app Legacy.machine Legacy.started] in HR;
    [subst R; discriminate|].
  subst R. intros Heq. injection Heq as <-.
  exists tempDir, w1, w2, w3, w4, cloneOut, buildOut, p, runOut.
  repeat split; try assumption; try lia.
Qed.

(** The machine after a deploy of the older version that went through:
    one more container, on the lowest free port. *)
Lemma legacy_deploy_effect (repoURL : string) (w : World) (st' : Legacy.State World) :
  Legacy.run (Legacy.CloneAndBuild LegacyRef.host repoURL) w
  = (st', Return tt) ->
  exists id ids port,
    fresh_ids w = id :: ids
    /\ 3000 <= port <= 65535
    /\ port_bound w port = false
    /\ (forall q, 3000 <= q < port -> port_bound w q = true)
    /\ containers (Legacy.machine st')
       = {| cid := id; cimage := path.Base repoURL; cport := Some port |}
         :: containers w
    /\ fresh_ids (Legacy.machine st') = ids
    /\ listeners (Legacy.machine st') = listeners w
    /\ held (Legacy.machine st') = held w.
Proof.
  intros Hrun.
  destruct (legacy_success repoURL w st' Hrun)
    as (tempDir & w1 & w2 & w3 & w4 & cloneOut & buildOut & port & runOut
        & Hmk & Hcl & Hb & Hrange & Hfree & Hlow & Hrunc & ->).
  apply RefFacts.mkdir_ok in Hmk. subst w1.
  assert (Hw2 : same_runtime w w2).
  { unfold LegacyRef.exec in Hcl.
    destruct (url.Parse repoURL) as [u|e]; [|discriminate Hcl].
    apply (RefFacts.clone_ok u) in Hcl. destruct Hcl as (t & _ & ->).
    eapply RefFacts.same_runtime_trans; apply RefFacts.same_runtime_put_dir. }
  apply RefFacts.build_ok in Hb. subst w3.
  apply RefFacts.run_ok in Hrunc.
  destruct Hrunc as (id & ids & Hfresh & _ & _ & ->).
  pose proof Hw2 as (Hl & Hh & Hc & Hf & _).
  exists id, ids, port.
  cbn [containers fresh_ids listeners held remove_dir set_dirs set_containers].
  rewrite Hc, <- Hf.
  repeat split; try assumption; try lia.
  - rewrite <- (RefFacts.same_runtime_port_bound w w2) by exact Hw2.
    exact Hfree.
  - intros q Hq.
    rewrite <- (RefFacts.same_runtime_port_bound w w2) by exact Hw2.
    now apply Hlow.
Qed.

End LegacyRuns.

(** X19. The older version never replaces a container: two deploys of one
    address that go through leave two containers of the image running, the
    second on a port above the first, and the containers that ran before
    as they were.  (The version of the claims ends with one: C3, X14.) *)
Theorem X19_old_version_adds_a_container_each_time
        (repoURL : string) (w : Ref.World) (st1 st2 : Legacy.State Ref.World) :
  Legacy.run (Legacy.CloneAndBuild LegacyRef.host repoURL) w
  = (st1, Return tt) ->
  Legacy.run (Legacy.CloneAndBuild LegacyRef.host repoURL) (Legacy.machine st1)
  = (st2, Return tt) ->
  exists c1 c2 p1 p2,
    Ref.containers (Legacy.machine st2) = c2 :: c1 :: Ref.containers w
    /\ Ref.cport c1 = Some p1
    /\ Ref.cport c2 = Some p2
    /\ 3000 <= p1 < p2
    /\ p2 <= 65535
    /\ Ref.cimage c1 = path.Base repoURL
    /\ Ref.cimage c2 = path.Base repoURL.
Proof.
  intros Hrun1 Hrun2.
  destruct (LegacyRuns.legacy_deploy_effect repoURL w st1 Hrun1)
    as (id1 & ids1 & p1 & _ & Hr1 & Hfree1 & Hlow1 & Hcs1 & _ & Hl1 & Hh1).
  destruct (LegacyRuns.legacy_deploy_effect repoURL (Legacy.machine st1) st2 Hrun2)
    as (id2 & ids2 & p2 & _ & Hr2 & Hfree2 & Hlow2 & Hcs2 & _).
  rewrite Hcs1 in Hcs2.
  eexists _, _, p1, p2. split; [exact Hcs2|].
  cbn [Ref.cport Ref.cimage]. repeat split; try lia.
  assert (Hbound : forall q, 3000 <= q <= p1 ->
                             Ref.port_bound (Legacy.machine st1) q = true).
  { intros q Hq. unfold Ref.port_bound. rewrite Hl1, Hh1, Hcs1.
    cbn [existsb]. unfold Ref.publishes at 1. cbn [Ref.cport].
    destruct (Z.eqb_spec q p1) as [->|Hne].
    - now rewrite !orb_true_r.
    - assert (Hq' : Ref.port_bound w q = true) by (apply Hlow1; lia).
      unfold Ref.port_bound in Hq'. cbn [orb].
      exact Hq'. }
  destruct (Z.lt_ge_cases p1 p2) as [Hlt|Hge]; [exact Hlt|].
  rewrite Hbound in Hfree2 by lia. discriminate Hfree2.
Qed.

(** X19 on the sample machine. *)
Lemma X19_witness :
  exists c1 c2 p1 p2,
    Ref.containers
      (Legacy.machine
         (fst (Legacy.run
                 (Legacy.CloneAndBuild LegacyRef.host
                                       "https://github.com/user/repo")
                 (Legacy.machine
                    (fst (Legacy.run
                            (Legacy.CloneAndBuild
                               LegacyRef.host "https://github.com/user/repo")
                            (Sample.machine [] [])))))))
    = c2 :: c1 :: Ref.containers (Sample.machine [] [])
    /\ Ref.cport c1 = Some p1
    /\ Ref.cport c2 = Some p2
    /\ 3000 <= p1 < p2
    /\ p2 <= 65535
    /\ Ref.cimage c1 = path.Base "https://github.com/user/repo"
    /\ Ref.cimage c2 = path.Base "https://github.com/user/repo".
Proof.
  apply (X19_old_version_adds_a_container_each_time
           "https://github.com/user/repo" (Sample.machine [] [])
           (fst (Legacy.run
                   (Legacy.CloneAndBuild LegacyRef.host
                                         "https://github.com/user/repo")
                   (Sample.machine [] [])))).
  - vm_compute. reflexivity.
  - vm_compute. reflexivity.
Defined.

(** X20. A URL with an ASCII control byte (a line break, say) in the part
    before its first [#] is turned away: [url.Parse] refuses it, the answer
    is 400 with the text [Invalid URL], no process is started and the
    machine is not touched. *)
Theorem X20_control_byte_is_refused
        (W : Type) (H : Host W) (text : string) (w : W) :
  url.stringContainsCTLByte (fst (fst (strings.Cut text "#"))) = true ->
  run (handleDeploy H (request_for text)) w
  = ({| world := w; trace := [] |},
     Return (http_Error "Invalid URL" StatusBadRequest)).
Proof.
  intros Hctl.
  unfold run, handleDeploy, request_for, decodeRequestPayload, json.Decode,
    json.object. cbn [Body].
  change (json.key_matches "url" "url") with true.
  cbn [json.storeString URL].
  unfold url.Parse.
  destruct (strings.Cut text "#") as [[u frag] found]. cbn [fst] in Hctl.
  unfold url.parse. rewrite Hctl. reflexivity.
Qed.

(** X20 for an address with a line break at its end. *)
Lemma X20_witness :
  run (handleDeploy Ref.host
         (request_for ("https://github.com/user/repo" ++ Ref.newline)))
      (Sample.machine [] [])
  = ({| world := Sample.machine [] []; trace := [] |},
     Return (http_Error "Invalid URL" StatusBadRequest)).
Proof.
  apply (X20_control_byte_is_refused
           Ref.World Ref.host ("https://github.com/user/repo" ++ Ref.newline)
           (Sample.machine [] [])).
  reflexivity.
Defined.

Module RefIsolation.
Import Ref.

(** Every call of a run on the reference host, settled: the state after
    it in terms of the state before. *)
Ltac settle :=
  repeat match goal with
         | Hx : MkdirTemp host _ = (_, (_, None)) |- _ =>
             apply RefFacts.mkdir_ok in Hx; subst
         | Hx : MkdirTemp host _ = (_, (_, Some _)) |- _ =>
             apply RefRuns.mkdir_failed in Hx; destruct Hx as [-> _]
         | Hx : Exec host _ _ = (_, (_, Some _)) |- _ =>
             apply RefRuns.exec_failed in Hx; subst
         | Hx : Exec host (git_clone _ _) _ = (_, (_, None)) |- _ =>
             apply RefFacts.clone_ok in Hx;
             let t := fresh "t" in
             let Hrem := fresh "Hrem" in
             destruct Hx as (t & Hrem & ->)
         | Hx : Exec host (git_rev_parse _) _ = (_, (_, None)) |- _ =>
             apply RefFacts.rev_parse_ok in Hx;
             let t := fresh "t" in
             let Hlook := fresh "Hlook" in
             destruct Hx as (-> & t & Hlook & ->)
         | Hx : Exec host (docker_build _ _) _ = (_, (_, None)) |- _ =>
             apply RefFacts.build_ok in Hx; subst
         | Hx : Exec host (docker_ps _) _ = (_, (_, None)) |- _ =>
             apply RefFacts.ps_ok in Hx; destruct Hx as (-> & ->)
         | Hx : Exec host (docker_port _) _ = (_, (_, None)) |- _ =>
             apply RefFacts.port_ok in Hx;
             let c := fresh "c" in
             let Hfind := fresh "Hfind" in
             destruct Hx as (-> & c & Hfind & ->)
         | Hx : Exec host (docker_rm _) _ = (_, (_, None)) |- _ =>
             apply RefFacts.rm_ok in Hx; subst
         | Hx : Exec host (docker_run _ _) _ = (_, (_, None)) |- _ =>
             apply RefFacts.run_ok in Hx;
             let id := fresh "id" in
             let ids := fresh "ids" in
             let Hfresh := fresh "Hfresh" in
             destruct Hx as (id & ids & Hfresh & _ & _ & ->)
         end.

(** Removing the container the probe named leaves the containers of other
    image names as they were. *)
Lemma others_after_removal (w : World) (name : string) (c : Container) :
  well_formed w ->
  find (fun c0 => String.eqb (cid c0)
                    (strings.TrimSpace
                       (String.concat ""
                          (map (fun id => id ++ newline)
                               (map cid (filter (of_image name)
                                                (containers w)))))))
       (containers w) = Some c ->
  String.eqb
    (strings.TrimSpace
       (String.concat ""
          (map (fun id => id ++ newline)
               (map cid (filter (of_image name) (containers w)))))) "" = false ->
  filter (fun c0 => negb (of_image name c0))
         (filter (fun c0 =>
                    negb (String.eqb (cid c0)
                            (strings.TrimSpace
                               (String.concat ""
                                  (map (fun id => id ++ newline)
                                       (map cid (filter (of_image name)
                                                        (containers w))))))))
                 (containers w))
  = filter (fun c0 => negb (of_image name c0)) (containers w).
Proof.
  intros Hwf Hfind Hne.
  set (id := strings.TrimSpace _) in *.
  apply find_some in Hfind. destruct Hfind as [Hcin Hcid].
  apply String.eqb_eq in Hcid.
  assert (Hlisted : filter (of_image name) (containers w) <> []).
  { intros Hnil. subst id. rewrite Hnil in Hne. discriminate Hne. }
  pose proof (RefFacts.probe_single w name c Hwf Hcin Hcid Hlisted) as Hsingle.
  assert (Hc : of_image name c = true).
  { assert (Hin : In c (filter (of_image name) (containers w)))
      by (rewrite Hsingle; now left).
    apply filter_In in Hin. tauto. }
  destruct Hwf as (_ & Hnodup & _).
  rewrite RefFacts.filter_comm.
  apply RefDeploys.filter_none.
  intros c0 Hc0. apply filter_In in Hc0. destruct Hc0 as [Hin0 Hnot].
  apply negb_true_iff, String.eqb_neq. intros Heq.
  assert (c0 = c).
  { apply (RefFacts.NoDup_map_eq cid (containers w)); auto. congruence. }
  subst c0. rewrite Hc in Hnot. discriminate Hnot.
Qed.

(** A run changes the containers of the project's image name only. *)
Lemma run_keeps_others (repoURL : url.URL) (w : World) :
  well_formed w ->
  (forall t, remote w repoURL = Some t -> valid_id (head t) = true) ->
  filter (fun c => negb (of_image (imageName repoURL) c))
         (containers (world (fst (run (CloneAndBuild host repoURL) w))))
  = filter (fun c => negb (of_image (imageName repoURL) c)) (containers w).
Proof.
  intros Hwf Hhead.
  RefRuns.ref_cases (run (CloneAndBuild host repoURL) w); settle;
    change (RemoveAll host) with remove_dir;
    cbn [world containers remove_dir put_dir set_dirs set_containers
         remote fresh_ids] in *;
    try reflexivity;
    repeat match goal with
           | Hl : lookup_dir (put_dir _ _ _) _ = Some (Some _) |- _ =>
               rewrite RefFacts.lookup_put_dir in Hl; injection Hl as <-
           end;
    try match goal with
        | Hrem : remote _ repoURL = Some ?t |- context [head ?t] =>
            cbn [remote put_dir set_dirs] in Hrem;
            rewrite (RefDeploys.tag_of_head t (Hhead t Hrem));
            cbn [filter];
            rewrite (RefDeploys.of_image_new repoURL _ (head t) _
                       (Hhead t Hrem));
            cbn [negb]
        end;
    try reflexivity;
    match goal with
    | Hf : find_container _ _ = Some ?c |- _ =>
        unfold find_container in Hf;
        cbn [containers put_dir set_dirs] in Hf;
        apply (others_after_removal w (imageName repoURL) c Hwf Hf);
        assumption
    end.
Qed.

End RefIsolation.

(** X21. A deploy of a project, however it ends, touches no container of
    another image name: on a well-formed machine the containers that are
    not of the project's image name are, after the run, exactly those
    before it. *)
Theorem X21_other_projects_are_left_alone
        (repoURL : url.URL) (w : Ref.World) :
  well_formed w ->
  (forall t, Ref.remote w repoURL = Some t -> valid_id (Ref.head t) = true) ->
  filter (fun c => negb (Ref.of_image (imageName repoURL) c))
         (Ref.containers
            (world (fst (run (CloneAndBuild Ref.host repoURL) w))))
  = filter (fun c => negb (Ref.of_image (imageName repoURL) c))
           (Ref.containers w).
Proof. exact (RefIsolation.run_keeps_others repoURL w). Qed.

(** X21 on the sample machine that runs a container of the project and one
    of another project. *)
Lemma X21_witness :
  filter (fun c => negb (Ref.of_image (imageName Sample.repo) c))
         (Ref.containers
            (world (fst (run (CloneAndBuild Ref.host Sample.repo)
                             (Sample.machine
                                [] [Sample.earlier; Machines.neighbour])))))
  = filter (fun c => negb (Ref.of_image (imageName Sample.repo) c))
           (Ref.containers
              (Sample.machine [] [Sample.earlier; Machines.neighbour])).
Proof.
  apply (X21_other_projects_are_left_alone
           Sample.repo
           (Sample.machine [] [Sample.earlier; Machines.neighbour])).
  - split; [|split].
    + intros c [<-|[<-|[]]]; reflexivity.
    + cbn. constructor; [intros [Heq|[]]; discriminate Heq|].
      constructor; [intros []|constructor].
    + cbn. intros id [<-|[<-|[]]] [Heq|[Heq|[]]]; discriminate Heq.
  - intros t Heq. vm_compute in Heq. injection Heq as <-. reflexivity.
Defined.
